(** * trade0: grid-trading strategies, data preparation and launchers

    A shallow embedding of the Python sources of the repository and the
    properties of its specification, proved (or refuted) on that embedding.

    Numbers.  Python [float] values (prices, quantities, amounts) are
    modelled by canonical rationals [Qc] with exact arithmetic: the
    rounding error of binary64 is outside the model, and so are NaN and
    the infinities.  Python [int] is [Z].  Division by zero raises
    [ZeroDivisionError] in Python; fallible code returns [option], where
    [None] stands for a raised exception.

    Dictionaries are stdpp [gmap]s; [Qc] has Leibniz equality, so a
    dictionary keyed by a float is a [gmap Qc _].

    The trading platform (order factory, engine, clock) is not part of
    the repository.  What a strategy asks of it is recorded as a list of
    commands in an [Engine] record that is threaded through the calls. *)

From Stdlib Require Import QArith Qcanon ZArith Lia Ascii.
From Stdlib Require PrimFloat.
From stdpp Require Import base numbers option list gmap strings sorting.

Local Open Scope Qc_scope.
Local Open Scope Z_scope.

(** ** Numbers *)

Module Num.

(** A decimal literal [n / d], e.g. [dec 1001 1000] for [1.001]. *)
Definition dec (n : Z) (d : positive) : Qc := Q2Qc (n # d).

(** Python [int] used as a [float]. *)
Definition of_int (n : Z) : Qc := Qc_of_Z n.

(** Python [a / b] on floats: raises [ZeroDivisionError] when [b] is
    zero. *)
Definition pydiv (a b : Qc) : option Qc :=
  if decide (b = 0%Qc) then None else Some (a / b)%Qc.

(** Python [abs]. *)
Definition pyabs (a : Qc) : Qc := if decide (a < 0)%Qc then (- a)%Qc else a.

(** Python [min] and [max] of two floats: [min(a, b)] is [b] when
    [b < a] and [a] otherwise; [max(a, b)] is [b] when [b > a]. *)
Definition pymin (a b : Qc) : Qc := if decide (b < a)%Qc then b else a.
Definition pymax (a b : Qc) : Qc := if decide (a < b)%Qc then b else a.

(** Rounding to the nearest integer, ties to even: the rounding of the
    format specification [".nf"]. *)
Definition round_half_even (x : Qc) : Z :=
  let n := Qnum x in
  let d := Z.pos (Qden x) in
  let f := n / d in
  let r2 := 2 * (n mod d) in
  if r2 <? d then f
  else if d <? r2 then f + 1
  else if Z.even f then f else f + 1.

(** The value denoted by [f"{x:.{digits}f}"]. *)
Definition format_f (digits : nat) (x : Qc) : Qc :=
  let scale := Pos.pow 10 (Pos.of_nat digits) in
  match digits with
  | O => of_int (round_half_even x)
  | _ => Q2Qc (round_half_even (x * of_int (Z.pos scale))%Qc # scale)
  end.

End Num.

(** ** numpy *)

Module Numpy.
Import Num.

(** [np.linspace(start, stop, num).tolist()] with the default
    [endpoint=True].  A negative [num] raises [ValueError]. *)
Definition linspace (start stop : Qc) (num : Z) : option (list Qc) :=
  if num <? 0 then None
  else
    let div := num - 1 in
    let delta := (stop - start)%Qc in
    let y := of_int <$> seqZ 0 num in
    let y :=
      if 0 <? div then
        let step := (delta / of_int div)%Qc in
        if decide (step = 0%Qc)
        then (λ v, v / of_int div * delta)%Qc <$> y
        else (λ v, v * step)%Qc <$> y
      else (λ v, v * delta)%Qc <$> y in
    let y := (λ v, v + start)%Qc <$> y in
    Some (if 1 <? num then <[Z.to_nat (num - 1) := stop]> y else y).

End Numpy.

(** ** The platform boundary *)

Module Platform.
Import Num.

Inductive OrderSide := BUY | SELL.

#[global] Instance OrderSide_eq_dec : EqDecision OrderSide.
Proof. solve_decision. Defined.

(** A limit order as built by [order_factory.limit]: the quantity and
    the price are the values of the formatted strings handed to
    [Quantity.from_str] and [Price.from_str]. *)
Record Order := mkOrder {
  client_order_id : nat;
  order_side : OrderSide;
  quantity : Qc;
  price : Qc;
  post_only : bool;
}.

#[global] Instance Order_eq_dec : EqDecision Order.
Proof. solve_decision. Defined.

(** What a strategy asks of the platform. *)
Inductive command :=
| SubscribeQuoteTicks
| SubscribeTradeTicks
| SetTimer (name : string) (seconds : Z)
| SubmitOrder (o : Order)
| CancelAllOrders
| LogStatistics (total_trades : Z) (win_rate_percent : Qc) (total_pnl : Qc).

#[global] Instance command_eq_dec : EqDecision command.
Proof. solve_decision. Defined.

(** The order factory numbers the orders it builds; the commands are
    kept in the order they were issued. *)
Record Engine := mkEngine {
  order_count : nat;
  commands : list command;
}.

#[global] Instance Engine_eq_dec : EqDecision Engine.
Proof. solve_decision. Defined.

Definition new_engine : Engine := mkEngine 0 [].

Definition issue (c : command) (e : Engine) : Engine :=
  mkEngine (order_count e) (commands e ++ [c]).

(** [order_factory.limit(...)] followed by [submit_order(order)];
    returns the identifier of the new order. *)
Definition limit_and_submit (side : OrderSide) (qty px : Qc) (po : bool)
    (e : Engine) : nat * Engine :=
  let id := S (order_count e) in
  (id, mkEngine id (commands e ++ [SubmitOrder (mkOrder id side qty px po)])).

(** The orders submitted so far, oldest first. *)
Definition submitted (e : Engine) : list Order :=
  omap (λ c, match c with SubmitOrder o => Some o | _ => None end) (commands e).

Record QuoteTick := mkQuote { bid_price : Qc; ask_price : Qc }.

Record OrderFilled := mkFill {
  fill_order_id : nat;
  fill_side : OrderSide;
  last_px : Qc;
  last_qty : Qc;
}.

End Platform.

(** Functions of numpy and pandas that leave the rationals.  The
    development is parametric in them: no property below depends on what
    they compute. *)
Class Libm := {
  np_log : Qc → Qc;
  np_exp : Qc → Qc;
  np_sin : Qc → Qc;
  np_sqrt : Qc → Qc;
}.

(** ** src/strategies/grid.py *)

Module Grid.
Import Num Numpy Platform.

(** [GridStrategyConfig]; the fields that no behaviour reads
    ([grid_spacing], [base_currency_ratio], the risk fields) are left
    out. *)
Record GridStrategyConfig := mkConfig {
  cfg_total_amount : Qc;
  cfg_grid_levels : Z;
  cfg_grid_spacing_type : string;
  cfg_upper_price : option Qc;
  cfg_lower_price : option Qc;
  cfg_price_range_ratio : Qc;
  cfg_post_only : bool;
}.

(** The attributes of a [GridStrategy] instance.  [grid_levels],
    [grid_spacing_type], [total_amount], [price_range_ratio] and
    [post_only] are copied from the configuration by [__init__] and
    never assigned again; they are read through [config]. *)
Record GridStrategy := mkGrid {
  config : GridStrategyConfig;
  upper_price : option Qc;
  lower_price : option Qc;
  grid_prices : list Qc;
  grid_orders : gmap Qc nat;
  filled_grids : gset Qc;
  active_orders : gmap nat Qc;
  total_trades : Z;
  winning_trades : Z;
  total_pnl : Qc;
}.

#[global] Instance GridStrategyConfig_eq_dec : EqDecision GridStrategyConfig.
Proof. solve_decision. Defined.

#[global] Instance GridStrategy_eq_dec : EqDecision GridStrategy.
Proof. solve_decision. Defined.

Definition __init__ (c : GridStrategyConfig) : GridStrategy :=
  {| config := c;
     upper_price := cfg_upper_price c;
     lower_price := cfg_lower_price c;
     grid_prices := [];
     grid_orders := ∅;
     filled_grids := ∅;
     active_orders := ∅;
     total_trades := 0;
     winning_trades := 0;
     total_pnl := 0%Qc |}.

Definition set_bounds (up lo : option Qc) (s : GridStrategy) : GridStrategy :=
  {| config := config s; upper_price := up; lower_price := lo;
     grid_prices := grid_prices s; grid_orders := grid_orders s;
     filled_grids := filled_grids s; active_orders := active_orders s;
     total_trades := total_trades s; winning_trades := winning_trades s;
     total_pnl := total_pnl s |}.

Definition set_grid_prices (l : list Qc) (s : GridStrategy) : GridStrategy :=
  {| config := config s; upper_price := upper_price s;
     lower_price := lower_price s;
     grid_prices := l; grid_orders := grid_orders s;
     filled_grids := filled_grids s; active_orders := active_orders s;
     total_trades := total_trades s; winning_trades := winning_trades s;
     total_pnl := total_pnl s |}.

Definition set_orders (g : gmap Qc nat) (a : gmap nat Qc) (s : GridStrategy)
    : GridStrategy :=
  {| config := config s; upper_price := upper_price s;
     lower_price := lower_price s;
     grid_prices := grid_prices s; grid_orders := g;
     filled_grids := filled_grids s; active_orders := a;
     total_trades := total_trades s; winning_trades := winning_trades s;
     total_pnl := total_pnl s |}.

Definition set_total_trades (n : Z) (s : GridStrategy) : GridStrategy :=
  {| config := config s; upper_price := upper_price s;
     lower_price := lower_price s;
     grid_prices := grid_prices s; grid_orders := grid_orders s;
     filled_grids := filled_grids s; active_orders := active_orders s;
     total_trades := n; winning_trades := winning_trades s;
     total_pnl := total_pnl s |}.

(** [on_start]: subscriptions and the timer that calls
    [_initialize_grid]. *)
Definition on_start (s : GridStrategy) (e : Engine) : GridStrategy * Engine :=
  (s, issue (SetTimer "init_grid" 2)
        (issue SubscribeTradeTicks (issue SubscribeQuoteTicks e))).

(** [_calculate_grid_prices].  An unset bound makes numpy raise. *)
Definition _calculate_grid_prices `{Libm} (s : GridStrategy)
    : option GridStrategy :=
  lo ← lower_price s;
  up ← upper_price s;
  if decide (cfg_grid_spacing_type (config s) = "arithmetic") then
    l ← linspace lo up (cfg_grid_levels (config s));
    Some (set_grid_prices l s)
  else
    let log_lower := np_log lo in
    let log_upper := np_log up in
    log_prices ← linspace log_lower log_upper (cfg_grid_levels (config s));
    Some (set_grid_prices (np_exp <$> log_prices) s).

(** [_place_grid_order]. *)
Definition _place_grid_order (price : Qc) (side : OrderSide) (amount : Qc)
    (s : GridStrategy) (e : Engine) : option (GridStrategy * Engine) :=
  quantity ← pydiv amount price;
  let '(id, e') :=
    limit_and_submit side (format_f 6 quantity) (format_f 2 price)
      (cfg_post_only (config s)) e in
  Some (set_orders (<[price := id]> (grid_orders s))
                   (<[id := price]> (active_orders s)) s, e').

(** The loop of [_setup_initial_orders]. *)
Fixpoint setup_loop (current_price amount_per_grid : Qc) (prices : list Qc)
    (s : GridStrategy) (e : Engine) : option (GridStrategy * Engine) :=
  match prices with
  | [] => Some (s, e)
  | grid_price :: rest =>
    r ← pydiv (pyabs (grid_price - current_price)) current_price;
    if decide (r < dec 1 1000)%Qc then
      setup_loop current_price amount_per_grid rest s e
    else if decide (grid_price < current_price)%Qc then
      '(s', e') ← _place_grid_order grid_price BUY amount_per_grid s e;
      setup_loop current_price amount_per_grid rest s' e'
    else if decide (current_price < grid_price)%Qc then
      _ ← pydiv amount_per_grid grid_price;
      '(s', e') ← _place_grid_order grid_price SELL amount_per_grid s e;
      setup_loop current_price amount_per_grid rest s' e'
    else
      setup_loop current_price amount_per_grid rest s e
  end.

(** [_setup_initial_orders]. *)
Definition _setup_initial_orders (current_price : Qc)
    (s : GridStrategy) (e : Engine) : option (GridStrategy * Engine) :=
  amount_per_grid ←
    pydiv (cfg_total_amount (config s)) (of_int (cfg_grid_levels (config s)));
  setup_loop current_price amount_per_grid (grid_prices s) s e.

(** [_initialize_grid], the timer callback; [last_quote] is what
    [self.cache.quote_tick] returns. *)
Definition _initialize_grid `{Libm} (last_quote : option QuoteTick)
    (s : GridStrategy) (e : Engine) : option (GridStrategy * Engine) :=
  match last_quote with
  | None => Some (s, issue (SetTimer "init_grid_retry" 5) e)
  | Some q =>
    let current_price := ((ask_price q + bid_price q) / dec 2 1)%Qc in
    let s :=
      match upper_price s, lower_price s with
      | Some _, Some _ => s
      | _, _ =>
        let price_range :=
          (current_price * cfg_price_range_ratio (config s))%Qc in
        set_bounds (Some (current_price + price_range / dec 2 1)%Qc)
                   (Some (current_price - price_range / dec 2 1)%Qc) s
      end in
    s ← _calculate_grid_prices s;
    _setup_initial_orders current_price s e
  end.

(** [_find_next_grid_price]. *)
Definition _find_next_grid_price (s : GridStrategy) (current_price : Qc)
    (direction : string) : option Qc :=
  if decide (direction = "up") then
    snd <$> list_find
      (λ price, (current_price * dec 1001 1000 < price)%Qc
                ∧ grid_orders s !! price = None)
      (grid_prices s)
  else
    snd <$> list_find
      (λ price, (price < current_price * dec 999 1000)%Qc
                ∧ grid_orders s !! price = None)
      (reverse (grid_prices s)).

(** Truth value of an [Optional[float]]: [None] and [0.0] are false. *)
Definition truthy (t : option Qc) : option Qc :=
  match t with
  | Some p => if decide (p = 0%Qc) then None else Some p
  | None => None
  end.

(** [on_order_filled]. *)
Definition on_order_filled (event : OrderFilled)
    (s : GridStrategy) (e : Engine) : option (GridStrategy * Engine) :=
  let filled_price := last_px event in
  let filled_qty := last_qty event in
  match active_orders s !! fill_order_id event with
  | None => Some (s, e)
  | Some _ =>
    let s := set_orders (grid_orders s)
               (delete (fill_order_id event) (active_orders s)) s in
    let s := set_total_trades (total_trades s + 1) s in
    match fill_side event with
    | BUY =>
      match truthy (_find_next_grid_price s filled_price "up") with
      | Some target_price =>
        _place_grid_order target_price SELL
          (filled_qty * target_price)%Qc s e
      | None => Some (s, e)
      end
    | SELL =>
      match truthy (_find_next_grid_price s filled_price "down") with
      | Some target_price =>
        _place_grid_order target_price BUY
          (filled_qty * filled_price)%Qc s e
      | None => Some (s, e)
      end
    end
  end.

(** [on_quote_tick]: only a warning is logged; an unset bound makes
    the comparison raise [TypeError]. *)
Definition on_quote_tick (tick : QuoteTick)
    (s : GridStrategy) (e : Engine) : option (GridStrategy * Engine) :=
  let mid_price := ((ask_price tick + bid_price tick) / dec 2 1)%Qc in
  up ← upper_price s;
  if decide (up * dec 95 100 < mid_price)%Qc then Some (s, e)
  else lo ← lower_price s; Some (s, e).

(** The win rate logged by [on_stop], in percent. *)
Definition win_rate_percent (s : GridStrategy) : Qc :=
  (of_int (winning_trades s) / of_int (Z.max (total_trades s) 1)
   * dec 100 1)%Qc.

(** [on_stop]. *)
Definition on_stop (s : GridStrategy) (e : Engine) : GridStrategy * Engine :=
  (s, issue CancelAllOrders
        (issue (LogStatistics (total_trades s) (win_rate_percent s)
                  (total_pnl s)) e)).

(** [reset]. *)
Definition reset (s : GridStrategy) : GridStrategy :=
  {| config := config s; upper_price := upper_price s;
     lower_price := lower_price s;
     grid_prices := grid_prices s; grid_orders := ∅;
     filled_grids := ∅; active_orders := ∅;
     total_trades := 0; winning_trades := 0;
     total_pnl := 0%Qc |}.

(** The callbacks the platform may invoke, with what it hands over. *)
Inductive callback :=
| OnStart
| InitializeGrid (last_quote : option QuoteTick)
| OnQuoteTick (tick : QuoteTick)
| OnOrderFilled (event : OrderFilled)
| OnStop
| Reset.

Definition dispatch `{Libm} (cb : callback) (st : GridStrategy * Engine)
    : option (GridStrategy * Engine) :=
  let '(s, e) := st in
  match cb with
  | OnStart => Some (on_start s e)
  | InitializeGrid q => _initialize_grid q s e
  | OnQuoteTick t => on_quote_tick t s e
  | OnOrderFilled ev => on_order_filled ev s e
  | OnStop => Some (on_stop s e)
  | Reset => Some (reset s, e)
  end.

(** A run: the callbacks in the order the platform delivers them; an
    exception ends it. *)
Fixpoint run `{Libm} (cbs : list callback) (st : GridStrategy * Engine)
    : option (GridStrategy * Engine) :=
  match cbs with
  | [] => Some st
  | cb :: rest => st' ← dispatch cb st; run rest st'
  end.

End Grid.

(** ** src/strategies/simple_grid.py *)

Module SimpleGrid.
Import Num Numpy Platform.

Record SimpleGridStrategyConfig := mkConfig {
  cfg_total_amount : Qc;
  cfg_upper_price : Qc;
  cfg_lower_price : Qc;
  cfg_grid_levels : Z;
}.

(** The attributes of a [SimpleGridStrategy] instance; the fields
    copied from the configuration are read through [config]. *)
Record SimpleGridStrategy := mkSimple {
  config : SimpleGridStrategyConfig;
  grid_prices : list Qc;
  orders_placed : bool;
}.

Definition __init__ (c : SimpleGridStrategyConfig) : SimpleGridStrategy :=
  {| config := c; grid_prices := []; orders_placed := false |}.

(** [on_start]. *)
Definition on_start (s : SimpleGridStrategy) (e : Engine)
    : option (SimpleGridStrategy * Engine) :=
  let e := issue SubscribeQuoteTicks e in
  l ← linspace (cfg_lower_price (config s)) (cfg_upper_price (config s))
        (cfg_grid_levels (config s));
  Some ({| config := config s; grid_prices := l;
           orders_placed := orders_placed s |}, e).

(** The loop of [_place_initial_orders]. *)
Fixpoint place_loop (current_price amount_per_grid : Qc) (prices : list Qc)
    (e : Engine) : option Engine :=
  match prices with
  | [] => Some e
  | grid_price :: rest =>
    if decide (pyabs (grid_price - current_price) < dec 10 1)%Qc then
      place_loop current_price amount_per_grid rest e
    else if decide (grid_price < current_price)%Qc then
      quantity ← pydiv amount_per_grid grid_price;
      let '(_, e') :=
        limit_and_submit BUY (format_f 6 quantity) (format_f 2 grid_price)
          false e in
      place_loop current_price amount_per_grid rest e'
    else
      place_loop current_price amount_per_grid rest e
  end.

(** [_place_initial_orders]. *)
Definition _place_initial_orders (tick : QuoteTick)
    (s : SimpleGridStrategy) (e : Engine) : option Engine :=
  let current_price := ((ask_price tick + bid_price tick) / dec 2 1)%Qc in
  amount_per_grid ←
    pydiv (cfg_total_amount (config s)) (of_int (cfg_grid_levels (config s)));
  place_loop current_price amount_per_grid (grid_prices s) e.

(** [on_quote_tick]: the flag is set before the orders are placed. *)
Definition on_quote_tick (tick : QuoteTick)
    (s : SimpleGridStrategy) (e : Engine)
    : option (SimpleGridStrategy * Engine) :=
  if orders_placed s then Some (s, e)
  else
    let s := {| config := config s; grid_prices := grid_prices s;
                orders_placed := true |} in
    e' ← _place_initial_orders tick s e;
    Some (s, e').

(** [on_order_filled]: the fill is logged, nothing else. *)
Definition on_order_filled (event : OrderFilled)
    (s : SimpleGridStrategy) (e : Engine) : SimpleGridStrategy * Engine :=
  (s, e).

(** [on_stop]. *)
Definition on_stop (s : SimpleGridStrategy) (e : Engine)
    : SimpleGridStrategy * Engine :=
  (s, issue CancelAllOrders e).

(** [reset]. *)
Definition reset (s : SimpleGridStrategy) : SimpleGridStrategy :=
  {| config := config s; grid_prices := grid_prices s;
     orders_placed := false |}.

Inductive callback :=
| OnStart
| OnQuoteTick (tick : QuoteTick)
| OnOrderFilled (event : OrderFilled)
| OnStop
| Reset.

Definition dispatch (cb : callback) (st : SimpleGridStrategy * Engine)
    : option (SimpleGridStrategy * Engine) :=
  let '(s, e) := st in
  match cb with
  | OnStart => on_start s e
  | OnQuoteTick t => on_quote_tick t s e
  | OnOrderFilled ev => Some (on_order_filled ev s e)
  | OnStop => Some (on_stop s e)
  | Reset => Some (reset s, e)
  end.

Fixpoint run (cbs : list callback) (st : SimpleGridStrategy * Engine)
    : option (SimpleGridStrategy * Engine) :=
  match cbs with
  | [] => Some st
  | cb :: rest => st' ← dispatch cb st; run rest st'
  end.

End SimpleGrid.

(** ** prepare_data.py *)

Module PrepareData.
Import Num Numpy.

(** The draws of [np.random]: one sequence per call, indexed by the
    position in the returned array. *)
Record Draws := mkDraws {
  price_changes : nat → Qc;
  bid_sizes : nat → Qc;
  ask_sizes : nat → Qc;
  bid_noise : nat → Qc;
  ask_noise : nat → Qc;
}.

(** A row of the quote table; [timestamp] is the index, a naive local
    date-time counted in microseconds. *)
Record QuoteRow := mkRow {
  timestamp : Z;
  bid_price : Qc;
  ask_price : Qc;
  bid_size : Qc;
  ask_size : Qc;
}.

Definition microseconds_per_second : Z := 1000000.
Definition timedelta_days (days : Z) : Z :=
  days * 86400 * microseconds_per_second.
Definition freq_30s : Z := 30 * microseconds_per_second.

(** [pd.date_range(start=start, end=end, freq='30s')]. *)
Definition date_range (start end_ : Z) : list Z :=
  if end_ <? start then []
  else (λ k, start + k * freq_30s) <$> seqZ 0 ((end_ - start) / freq_30s + 1).

(** The array an [np.random] call returns. *)
Definition draw (f : nat → Qc) (n : nat) : list Qc := f <$> seq 0 n.

(** [np.cumsum]. *)
Fixpoint cumsum_from (acc : Qc) (l : list Qc) : list Qc :=
  match l with
  | [] => []
  | x :: r => (acc + x)%Qc :: cumsum_from (acc + x)%Qc r
  end.
Definition cumsum (l : list Qc) : list Qc := cumsum_from 0%Qc l.

(** The binary64 value of [np.pi]. *)
Definition np_pi : Qc := dec 884279719003555 281474976710656.

(** [hour] of a timestamp. *)
Definition hour (t : Z) : Z := (t / (3600 * microseconds_per_second)) mod 24.

(** Lines 16 to 68 of [generate_forex_data]: the timestamps and the
    table as first constructed. *)
Definition constructed_frame `{Libm} (symbol : string) (days : Z)
    (now : Z) (rng : Draws) : list Z * list QuoteRow :=
  let end_ := now in
  let start := end_ - timedelta_days days in
  let timestamps := date_range start end_ in
  let '(base_price, volatility) :=
    if decide (symbol = "BTCUSDT") then (dec 42000 1, dec 2 100)
    else (dec 10850 10000, dec 1 1000) in
  let num_points := length timestamps in
  let price_changes := draw (price_changes rng) num_points in
  let cumulative_changes := cumsum price_changes in
  let mean_reversion_strength := dec 1 100 in
  let cumulative_changes :=
    (λ c, c * (1 - mean_reversion_strength))%Qc <$> cumulative_changes in
  let prices := (λ c, base_price * (1 + c))%Qc <$> cumulative_changes in
  let cycle :=
    (λ x, np_sin x * base_price * dec 2 100)%Qc <$>
      default [] (linspace 0%Qc (dec 4 1 * np_pi)%Qc (Z.of_nat num_points)) in
  let prices := zip_with Qcplus prices cycle in
  let spread := if decide (symbol = "EURUSD") then dec 1 10000 else dec 1 1 in
  let '(bid_sizes, ask_sizes) :=
    (draw (bid_sizes rng) num_points, draw (ask_sizes rng) num_points) in
  let df :=
    zip_with (λ '(t, p) '(bs, as_),
        mkRow t (p - spread / dec 2 1)%Qc (p + spread / dec 2 1)%Qc bs as_)
      (zip timestamps prices) (zip bid_sizes ask_sizes) in
  (timestamps, df).

(** Lines 70 to 80: the session volatility and the second layer of
    noise. *)
Definition session_volatility (t : Z) : Qc :=
  if (8 <=? hour t) && (hour t <=? 16) then dec 15 10 else dec 7 10.

Definition adjust_prices (rng : Draws) (df : list QuoteRow) : list QuoteRow :=
  imap (λ i r,
      mkRow (timestamp r)
        (bid_price r * (1 + bid_noise rng i * session_volatility (timestamp r)))%Qc
        (ask_price r * (1 + ask_noise rng i * session_volatility (timestamp r)))%Qc
        (bid_size r) (ask_size r))
    df.

(** [generate_forex_data(symbol, days)], called at the time [now]. *)
Definition generate_forex_data `{Libm} (symbol : string) (days : Z)
    (now : Z) (rng : Draws) : list Z * list QuoteRow :=
  let '(timestamps, df) := constructed_frame symbol days now rng in
  (timestamps, adjust_prices rng df).

End PrepareData.

(** ** src/data/download_multi_source_data.py *)

Module MultiSource.
Import Num.

Inductive provider := CryptoCompare | CoinGecko | Kraken | Coinbase.

#[global] Instance provider_eq_dec : EqDecision provider.
Proof. solve_decision. Defined.

(** The rows of the four payloads, with the fields the converters
    read. *)
Record cc_row := mkCC {
  cc_time : Z; cc_open : Qc; cc_high : Qc; cc_low : Qc; cc_close : Qc;
  cc_volumefrom : Qc }.
Record cg_row := mkCG { cg_timestamp : Z; cg_price : Qc }.
Record kraken_row := mkKr {
  kr_time : Z; kr_open : Qc; kr_high : Qc; kr_low : Qc; kr_close : Qc;
  kr_vwap : Qc; kr_volume : Qc; kr_count : Z }.
Record cb_row := mkCB {
  cb_time : Z; cb_low : Qc; cb_high : Qc; cb_open : Qc; cb_close : Qc;
  cb_volume : Qc }.

(** What each download function returns when it is called: [None] for
    an error reply or a failed request, the rows otherwise. *)
Record Network := mkNetwork {
  download_cryptocompare_data : option (list cc_row);
  download_coingecko_data : option (list cg_row);
  download_kraken_data : option (list kraken_row);
  download_coinbase_data : option (list cb_row);
}.

(** A row of the common table; the index is in nanoseconds. *)
Record ohlcv := mkBar {
  bar_timestamp : Z; open : Qc; high : Qc; low : Qc; close : Qc;
  volume : Qc }.

Record quote := mkQuoteRow {
  q_timestamp : Z; q_bid_price : Qc; q_ask_price : Qc;
  q_bid_size : Qc; q_ask_size : Qc }.

#[global] Instance ohlcv_eq_dec : EqDecision ohlcv.
Proof. solve_decision. Defined.
#[global] Instance quote_eq_dec : EqDecision quote.
Proof. solve_decision. Defined.

(** Truth value of a payload: [None] and the empty list are false. *)
Definition has_data {A} (data : option (list A)) : option (list A) :=
  match data with
  | Some (x :: l) => Some (x :: l)
  | _ => None
  end.

Definition seconds (t : Z) : Z := t * 1000000000.
Definition milliseconds (t : Z) : Z := t * 1000000.

Definition convert_cryptocompare_to_df (data : list cc_row) : list ohlcv :=
  (λ r, mkBar (seconds (cc_time r)) (cc_open r) (cc_high r) (cc_low r)
          (cc_close r) (cc_volumefrom r)) <$> data.

Definition convert_coingecko_to_df (data : list cg_row) : list ohlcv :=
  (λ r, mkBar (milliseconds (cg_timestamp r)) (cg_price r) (cg_price r)
          (cg_price r) (cg_price r) 0%Qc) <$> data.

Definition convert_kraken_to_df (data : list kraken_row) : list ohlcv :=
  (λ r, mkBar (seconds (kr_time r)) (kr_open r) (kr_high r) (kr_low r)
          (kr_close r) (kr_volume r)) <$> data.

Definition convert_coinbase_to_df (data : list cb_row) : list ohlcv :=
  (λ r, mkBar (seconds (cb_time r)) (cb_open r) (cb_high r) (cb_low r)
          (cb_close r) (cb_volume r)) <$> data.

Definition sum_list (l : list Qc) : Qc := foldr Qcplus 0%Qc l.

(** [rolling(window=60, min_periods=1).mean()] at position [i]. *)
Definition rolling_mean_60 (l : list Qc) (i : nat) : Qc :=
  let w := take (S i - (S i - 60)) (drop (S i - 60) l) in
  (sum_list w / of_int (Z.of_nat (length w)))%Qc.

(** [create_quote_data_from_ohlc]. *)
Definition create_quote_data_from_ohlc (df : list ohlcv) : list quote :=
  let spread_ratio := dec 2 10000 in
  let volumes := volume <$> df in
  let avg_volume : nat → Qc :=
    if decide (0 < sum_list volumes)%Qc then rolling_mean_60 volumes
    else λ _, dec 1 10 in
  imap (λ i r,
      let spread := (close r * spread_ratio)%Qc in
      mkQuoteRow (bar_timestamp r)
        (close r - spread / dec 2 1)%Qc (close r + spread / dec 2 1)%Qc
        (avg_volume i * dec 1 1000)%Qc (avg_volume i * dec 1 1000)%Qc)
    df.

Inductive table := OhlcTable (rows : list ohlcv) | QuoteTable (rows : list quote).

#[global] Instance table_eq_dec : EqDecision table.
Proof. solve_decision. Defined.

(** What [main] does to the outside world, in order. *)
Inductive effect :=
| MakeDirs (path : string)
| Request (p : provider)
| Sleep (seconds : Z)
| WriteFile (path : string) (content : table)
| PrintFailureAdvice.

#[global] Instance effect_eq_dec : EqDecision effect.
Proof. solve_decision. Defined.

Definition ohlc_path : string := "nautilus_data/historical/BTCUSDT_ohlc.csv".
Definition quote_path : string := "nautilus_data/historical/BTCUSDT_quotes.csv".
Definition parquet_path : string :=
  "nautilus_data/historical/BTCUSDT_quotes.parquet".

(** The local variables of [main]; [df] is unbound until a provider
    succeeds. *)
Record locals := mkLocals {
  success : bool;
  df : option (list ohlcv);
  trace : list effect;
}.

(** One block of [main]: ask a provider and convert what it returns. *)
Definition attempt {A} (before : list effect) (p : provider)
    (data : option (list A)) (convert : list A → list ohlcv)
    (st : locals) : locals :=
  let tr := trace st ++ before ++ [Request p] in
  match has_data data with
  | Some rows => mkLocals true (Some (convert rows)) tr
  | None => mkLocals (success st) (df st) tr
  end.

(** [main]. *)
Definition main (net : Network) : list effect :=
  let st := mkLocals false None [MakeDirs "nautilus_data/historical"] in
  let st :=
    attempt [] CryptoCompare (download_cryptocompare_data net)
      convert_cryptocompare_to_df st in
  let st :=
    if negb (success st) then
      attempt [Sleep 1] CoinGecko (download_coingecko_data net)
        convert_coingecko_to_df st
    else st in
  let st :=
    if negb (success st) then
      attempt [] Kraken (download_kraken_data net) convert_kraken_to_df st
    else st in
  let st :=
    if negb (success st) then
      attempt [] Coinbase (download_coinbase_data net)
        convert_coinbase_to_df st
    else st in
  match success st, df st with
  | true, Some (r :: rows) =>
    let quote_df := create_quote_data_from_ohlc (r :: rows) in
    trace st ++ [WriteFile ohlc_path (OhlcTable (r :: rows));
                 WriteFile quote_path (QuoteTable quote_df);
                 WriteFile parquet_path (QuoteTable quote_df)]
  | _, _ => trace st ++ [PrintFailureAdvice]
  end.

End MultiSource.

(** ** backtest_with_real_data.py *)

Module RealBacktest.
Import Num.

Record quote_row := mkRow { bid_price : Qc; ask_price : Qc }.

Record price_stats := mkStats {
  stat_mean : Qc;
  stat_std : Qc;
  stat_min : Qc;
  stat_max : Qc;
  stat_range : Qc;
  stat_volatility : Qc;
}.

Definition sum_list (l : list Qc) : Qc := foldr Qcplus 0%Qc l.

(** [Series.mean()]. *)
Definition series_mean (l : list Qc) : Qc :=
  (sum_list l / of_int (Z.of_nat (length l)))%Qc.

(** [Series.std()]: the sample standard deviation (one degree of
    freedom removed). *)
Definition series_std `{Libm} (l : list Qc) : Qc :=
  let m := series_mean l in
  np_sqrt (sum_list ((λ x, (x - m) * (x - m))%Qc <$> l)
           / of_int (Z.of_nat (length l) - 1))%Qc.

Definition series_min (l : list Qc) : Qc :=
  match l with [] => 0%Qc | x :: r => foldr pymin x r end.
Definition series_max (l : list Qc) : Qc :=
  match l with [] => 0%Qc | x :: r => foldr pymax x r end.

(** [analyze_price_range]: the statistics and the suggested lower and
    upper bounds.  With fewer than two rows pandas yields NaN, which
    has no counterpart here: the result is [None]. *)
Definition analyze_price_range `{Libm} (df : list quote_row)
    : option (price_stats * Qc * Qc) :=
  let mid_prices := (λ r, (bid_price r + ask_price r) / dec 2 1)%Qc <$> df in
  if decide (length df < 2)%nat then None
  else
    let stats :=
      {| stat_mean := series_mean mid_prices;
         stat_std := series_std mid_prices;
         stat_min := series_min mid_prices;
         stat_max := series_max mid_prices;
         stat_range := (series_max mid_prices - series_min mid_prices)%Qc;
         stat_volatility :=
           (series_std mid_prices / series_mean mid_prices * dec 100 1)%Qc |} in
    let suggested_lower := (stat_mean stats - dec 15 10 * stat_std stats)%Qc in
    let suggested_upper := (stat_mean stats + dec 15 10 * stat_std stats)%Qc in
    Some (stats, suggested_lower, suggested_upper).

(** The strategy configuration built by [run_backtest_with_real_data]
    (step 8) from the analysis of the loaded table. *)
Definition strategy_config `{Libm} (df : list quote_row)
    : option SimpleGrid.SimpleGridStrategyConfig :=
  '(stats, suggested_lower, suggested_upper) ← analyze_price_range df;
  Some {| SimpleGrid.cfg_total_amount := dec 2000 1;
          SimpleGrid.cfg_grid_levels := 10;
          SimpleGrid.cfg_upper_price :=
            pymin suggested_upper (stat_mean stats + dec 500 1)%Qc;
          SimpleGrid.cfg_lower_price :=
            pymax suggested_lower (stat_mean stats - dec 500 1)%Qc |}.

End RealBacktest.

(** ** run_grid_strategy.py *)

Module Launcher.

(** [str.lower()] on the ASCII letters; other bytes are left alone. *)
Definition lower_ascii (c : ascii) : ascii :=
  let n := nat_of_ascii c in
  if (65 <=? n)%nat && (n <=? 90)%nat then ascii_of_nat (n + 32) else c.

Fixpoint lower (s : string) : string :=
  match s with
  | EmptyString => EmptyString
  | String c r => String (lower_ascii c) (lower r)
  end.

(** The parsed command line. *)
Record Args := mkArgs {
  arg_config : string;
  arg_testnet : bool;
  arg_mainnet : bool;
}.

(** What the launcher finds around it: the line typed at the prompt,
    whether the configuration file exists, and the environment. *)
Record World := mkWorld {
  typed : string;
  file_exists : string → bool;
  getenv : string → string;
}.

(** The texts that are printed, by what they announce. *)
Inductive message :=
| MainnetWarning
| Cancelled
| ConfigMissing (path : string)
| Banner (path : string) (testnet : bool)
| StrategySummary
| Stopped.

#[global] Instance message_eq_dec : EqDecision message.
Proof. solve_decision. Defined.

Inductive action :=
| Print (m : message)
| Input
| PathExists (path : string)
| MakeDirs (path : string)
| LoadConfig (path : string)
| GetEnv (name : string)
| RaiseValueError
| RunTradingNode (testnet : bool).

#[global] Instance action_eq_dec : EqDecision action.
Proof. solve_decision. Defined.

(** [create_trading_node_config]: the credentials are looked up, and a
    missing one raises. *)
Definition create_trading_node_config (w : World) (testnet : bool)
    : list action * bool :=
  let '(key_name, secret_name) :=
    if testnet then ("BYBIT_TESTNET_API_KEY", "BYBIT_TESTNET_API_SECRET")
    else ("BYBIT_API_KEY", "BYBIT_API_SECRET") in
  let api_key := getenv w key_name in
  let api_secret := getenv w secret_name in
  let tr := [GetEnv key_name; GetEnv secret_name] in
  if decide (api_key = "" ∨ api_secret = "") then (tr ++ [RaiseValueError], false)
  else (tr, true).

(** [run_grid_strategy]. *)
Definition run_grid_strategy (w : World) (config_path : string)
    (testnet : bool) : list action :=
  let tr := [Print (Banner config_path testnet); LoadConfig config_path;
             Print StrategySummary] in
  let '(tr', ok) := create_trading_node_config w testnet in
  if ok then tr ++ tr' ++ [RunTradingNode testnet; Print Stopped]
  else tr ++ tr'.

(** [main]. *)
Definition main (args : Args) (w : World) : list action :=
  let use_testnet := negb (arg_mainnet args) in
  let '(tr, go_on) :=
    if negb use_testnet then
      let tr := [Print MainnetWarning; Input] in
      let confirm := typed w in
      if decide (lower confirm ≠ "yes") then (tr ++ [Print Cancelled], false)
      else (tr, true)
    else ([], true) in
  if negb go_on then tr
  else
    let tr := tr ++ [PathExists (arg_config args)] in
    if negb (file_exists w (arg_config args)) then tr ++ [Print (ConfigMissing (arg_config args))]
    else
      tr ++ [MakeDirs "logs"]
         ++ run_grid_strategy w (arg_config args) use_testnet.

(** The actions that load the configuration, read the environment or
    reach the network. *)
Definition is_launch_work (a : action) : bool :=
  match a with
  | LoadConfig _ | GetEnv _ | RunTradingNode _ => true
  | _ => false
  end.

End Launcher.

(** ** download_binance_data.py *)

Module Binance.
Import Num.

(** A row of the exchange's reply, with the numeric fields read as
    numbers ([astype(float)]); the last three stay texts. *)
Record kline := mkKline {
  open_time : Z;
  k_open : Qc; k_high : Qc; k_low : Qc; k_close : Qc; k_volume : Qc;
  close_time : Z;
  quote_volume : Qc;
  trades : Z;
  taker_buy_volume : string;
  taker_buy_quote_volume : string;
  ignore : string;
}.

(** What the exchange answers to a request, by its [startTime] and
    [endTime] parameters: the rows, or [None] for an error reply, a
    failed request or a reply that is not a list. *)
Definition Server := option Z → option Z → option (list kline).

(** [download_binance_klines]: a parameter that is [None] or [0] is
    left out of the request. *)
Definition download_binance_klines (server : Server)
    (start_time end_time : Z) : option (list kline) :=
  server (if decide (start_time = 0) then None else Some start_time)
         (if decide (end_time = 0) then None else Some end_time).

(** The loop of [download_all_historical_data].  Nothing in the code
    bounds the number of requests: [fuel] does, and [None] says that it
    ran out. *)
Fixpoint download_loop (fuel : nat) (server : Server)
    (end_timestamp current_start : Z) (all_klines : list kline)
    : option (list kline) :=
  if current_start <? end_timestamp then
    match fuel with
    | O => None
    | S fuel =>
      match download_binance_klines server current_start end_timestamp with
      | Some (k :: ks) =>
        let klines := k :: ks in
        download_loop fuel server end_timestamp
          (open_time (List.last klines k) + 1) (all_klines ++ klines)
      | _ => Some all_klines
      end
    end
  else Some all_klines.

(** [download_all_historical_data], from the two timestamps in
    milliseconds. *)
Definition download_all_historical_data (fuel : nat) (server : Server)
    (start_timestamp end_timestamp : Z) : option (list kline) :=
  download_loop fuel server end_timestamp start_timestamp [].

(** A row of the table of [klines_to_dataframe]: the index, in
    nanoseconds, and the columns. *)
Record bar := mkBar { timestamp : Z; columns : kline }.

Definition klines_to_dataframe (klines : list kline) : list bar :=
  (λ k, mkBar (open_time k * 1000000) k) <$> klines.

Record quote := mkQuoteRow {
  q_timestamp : Z; bid_price : Qc; ask_price : Qc;
  bid_size : Qc; ask_size : Qc }.

Definition sum_list (l : list Qc) : Qc := foldr Qcplus 0%Qc l.

(** [Series.mean()]; it is only used where the series has a row. *)
Definition series_mean (l : list Qc) : Qc :=
  (sum_list l / of_int (Z.of_nat (length l)))%Qc.

(** [rolling(window=60).mean()] at position [i]: not a number before
    sixty values are there. *)
Definition rolling_mean_60 (l : list Qc) (i : nat) : option Qc :=
  if decide (59 ≤ i)%nat
  then Some (sum_list (take 60 (drop (i - 59) l)) / of_int 60)%Qc
  else None.

(** [Series.clip(lower, upper)] on one value. *)
Definition clip (lower upper x : Qc) : Qc :=
  if decide (x < lower)%Qc then lower
  else if decide (upper < x)%Qc then upper else x.

(** [create_quote_ticks_from_klines]. *)
Definition create_quote_ticks_from_klines (df : list bar) : list quote :=
  let ranges := (λ r, k_high (columns r) - k_low (columns r))%Qc <$> df in
  let volumes := (λ r, k_volume (columns r)) <$> df in
  let volatility i := default (series_mean ranges) (rolling_mean_60 ranges i) in
  let spread i := clip (dec 5 10) (dec 5 1) (volatility i * dec 15 1000)%Qc in
  let avg_volume i :=
    default (series_mean volumes) (rolling_mean_60 volumes i) in
  imap (λ i r,
      mkQuoteRow (timestamp r)
        (k_close (columns r) - spread i / dec 2 1)%Qc
        (k_close (columns r) + spread i / dec 2 1)%Qc
        (avg_volume i * dec 1 1000)%Qc (avg_volume i * dec 1 1000)%Qc)
    df.

End Binance.

(** ** download_historical_data.py *)

Module Bybit.
Import Num.

(** A row of the exchange's reply; the texts are read as numbers
    ([int], [astype(float)]). *)
Record kline := mkKline {
  k_timestamp : Z;
  k_open : Qc; k_high : Qc; k_low : Qc; k_close : Qc; k_volume : Qc;
  k_turnover : Qc;
}.

#[global] Instance kline_eq_dec : EqDecision kline.
Proof. solve_decision. Defined.

(** What the exchange answers to a request, by its [start] parameter:
    the rows of [result.list], or [None] for an error code or a failed
    request. *)
Definition Server := option Z → option (list kline).

(** [download_bybit_klines]: a start that is [None] or [0] is left out
    of the request. *)
Definition download_bybit_klines (server : Server) (start_time : Z)
    : option (list kline) :=
  server (if decide (start_time = 0) then None else Some start_time).

(** The loop of [download_historical_data]; [fuel] bounds the number of
    requests, which the code does not, and [None] says that it ran
    out. *)
Fixpoint download_loop (fuel : nat) (server : Server)
    (end_time current_start : Z) (all_data : list kline)
    : option (list kline) :=
  if current_start <? end_time then
    match fuel with
    | O => None
    | S fuel =>
      match download_bybit_klines server current_start with
      | Some (k :: ks) =>
        let all_data := all_data ++ k :: ks in
        let current_start := k_timestamp k + 60000 in
        if match all_data with
           | first :: _ => end_time <=? k_timestamp first
           | [] => false
           end
        then Some all_data
        else download_loop fuel server end_time current_start all_data
      | _ => Some all_data
      end
    end
  else Some all_data.

(** [download_historical_data], called at the time [now] (in
    milliseconds). *)
Definition download_historical_data (fuel : nat) (server : Server)
    (days : Z) (now : Z) : option (list kline) :=
  let end_time := now in
  let start_time := end_time - days * 24 * 60 * 60 * 1000 in
  download_loop fuel server end_time start_time [].

Record quote := mkQuoteRow {
  q_timestamp : Z; bid_price : Qc; ask_price : Qc;
  bid_size : Qc; ask_size : Qc }.

#[global] Instance quote_eq_dec : EqDecision quote.
Proof. solve_decision. Defined.

(** The order of [sort_values('timestamp')]. *)
Definition by_timestamp (a b : kline) : Prop := k_timestamp a ≤ k_timestamp b.

#[global] Instance by_timestamp_dec (a b : kline) : Decision (by_timestamp a b).
Proof. unfold by_timestamp. apply _. Defined.

(** [convert_to_quote_ticks].  The index is in nanoseconds.  Among rows
    of the same timestamp the order that pandas leaves is not
    specified; the merge sort here keeps them as they came. *)
Definition convert_to_quote_ticks (klines_data : list kline) : list quote :=
  let df := merge_sort by_timestamp klines_data in
  let spread := dec 1 1 in
  (λ r,
     mkQuoteRow (k_timestamp r * 1000000)
       (k_close r - spread / dec 2 1)%Qc (k_close r + spread / dec 2 1)%Qc
       (k_volume r / of_int (Z.of_nat (length df)) * dec 1 10)%Qc
       (k_volume r / of_int (Z.of_nat (length df)) * dec 1 10)%Qc)
  <$> df.

End Bybit.

(** ** src/backtest/simple_grid_backtest.py *)

Module SimpleBacktest.
Import Num Numpy Platform.

(** [pd.date_range(start='2025-01-01', periods=100, freq='1min')], in
    nanoseconds. *)
Definition timestamps : list Z :=
  (λ k, 1735689600000000000 + k * 60000000000) <$> seqZ 0 100.

Definition base_price : Qc := dec 42000 1.

(** [base_price + np.sin(np.linspace(0, 2*np.pi, 100)) * 500]. *)
Definition prices `{Libm} : list Qc :=
  (λ x, base_price + np_sin x * dec 500 1)%Qc
    <$> default [] (linspace 0%Qc (dec 2 1 * PrepareData.np_pi)%Qc 100).

(** The quote ticks, with their timestamps: [prices[i]] for the [i]-th
    timestamp. *)
Definition ticks `{Libm} : list (Z * QuoteTick) :=
  zip_with (λ ts p,
      (ts, mkQuote (format_f 2 (p - 1)%Qc) (format_f 2 (p + 1)%Qc)))
    timestamps prices.

Definition strategy_config : SimpleGrid.SimpleGridStrategyConfig :=
  SimpleGrid.mkConfig (dec 1000 1) (dec 42500 1) (dec 41500 1) 5.

End SimpleBacktest.

(** ** backtest_with_real_data.py: the ticks and the period of the run *)

Module RealBacktestRun.
Import Num.

(** A row of the loaded table, with its index. *)
Record row := mkRow {
  timestamp : Z;
  bid_price : Qc; ask_price : Qc; bid_size : Qc; ask_size : Qc;
}.

Record QuoteTick := mkTick {
  tick_bid_price : Qc; tick_ask_price : Qc;
  tick_bid_size : Qc; tick_ask_size : Qc;
  ts_event : Z; ts_init : Z;
}.

(** [create_quote_ticks]. *)
Definition create_quote_ticks (df : list row) : list QuoteTick :=
  (λ r, mkTick (format_f 2 (bid_price r)) (format_f 2 (ask_price r))
          (format_f 6 (bid_size r)) (format_f 6 (ask_size r))
          (timestamp r) (timestamp r)) <$> df.

(** Steps 7 and 9 of [run_backtest_with_real_data]: the ticks handed to
    the engine and the period of the run.  Indexing an empty table
    raises. *)
Definition backtest_window (df : list row) : option (list QuoteTick * Z * Z) :=
  let ticks := create_quote_ticks df in
  let max_ticks := Z.min (Z.of_nat (length ticks)) 10000 in
  let ticks := take (Z.to_nat max_ticks) ticks in
  start_time ← timestamp <$> df !! 0%nat;
  end_time ←
    timestamp
      <$> df !! Z.to_nat (Z.min (Z.of_nat (length df) - 1) (max_ticks - 1));
  Some (ticks, start_time, end_time).

End RealBacktestRun.

(** ** Vocabulary of the properties *)

Module Vocabulary.
Import Num Platform.
Local Open Scope Qc_scope.

(** A list of floats is non-decreasing. *)
Definition non_decreasing (l : list Qc) : Prop :=
  ∀ (i j : nat) (x y : Qc),
    (i ≤ j)%nat → l !! i = Some x → l !! j = Some y → x ≤ y.

(** The [i]-th point of an even division of [[a, b]] in [n - 1]
    steps. *)
Definition grid_point (a b : Qc) (n : Z) (i : nat) : Qc :=
  a + of_int (Z.of_nat i) * ((b - a) / of_int (n - 1)).

Definition greatest_such (P : Qc → Prop) (t : Qc) : Prop :=
  P t ∧ ∀ p, P p → p ≤ t.


Definition eligible_below (s : Grid.GridStrategy) (P t : Qc) : Prop :=
  t ∈ Grid.grid_prices s ∧ t < P * dec 999 1000
  ∧ Grid.grid_orders s !! t = None.


(** C2 as the specification words it: the order that replaces a SELL
    fill is a BUY of the filled quantity at the greatest grid price
    below the threshold that has no recorded order. *)
Definition sell_fill_claim (s : Grid.GridStrategy) (e : Engine)
    (ev : OrderFilled) : Prop :=
  ∀ s' e' o,
    Grid.on_order_filled ev s e = Some (s', e') →
    submitted e' = submitted e ++ [o] →
    order_side o = BUY
    ∧ quantity o = last_qty ev
    ∧ greatest_such (eligible_below s (last_px ev)) (price o).



(** Every statistics line logged so far reports a win rate of zero. *)
Definition logs_zero_win_rate (e : Engine) : Prop :=
  ∀ t w p, LogStatistics t w p ∈ commands e → w = 0.

(** A quote or a fill, the market events of the simple strategy. *)
Definition quote_or_fill (cb : SimpleGrid.callback) : Prop :=
  match cb with
  | SimpleGrid.OnQuoteTick _ | SimpleGrid.OnOrderFilled _ => True
  | _ => False
  end.

(** No SELL order has been submitted. *)
Definition buys_only (e : Engine) : Prop :=
  Forall (λ o, order_side o = BUY) (submitted e).




(** The three files [main] writes from a table. *)
Definition output_files (df : list MultiSource.ohlcv)
    : list (string * MultiSource.table) :=
  [(MultiSource.ohlc_path, MultiSource.OhlcTable df);
   (MultiSource.quote_path,
    MultiSource.QuoteTable (MultiSource.create_quote_data_from_ohlc df));
   (MultiSource.parquet_path,
    MultiSource.QuoteTable (MultiSource.create_quote_data_from_ohlc df))].

(** C3 as the specification words it: with any typed line other than
    exactly [yes], the mainnet launch does nothing that loads the
    configuration, reads the environment or reaches the network. *)
Definition mainnet_claim (args : Launcher.Args) (w : Launcher.World) : Prop :=
  Launcher.typed w ≠ "yes" →
  Forall (λ a, Launcher.is_launch_work a = false) (Launcher.main args w).

(** The spellings of [yes] in upper and lower case. *)
Definition spellings_of_yes : list string :=
  ["yes"; "yeS"; "yEs"; "yES"; "Yes"; "YeS"; "YEs"; "YES"].

(** The orders a call has added to those submitted before it. *)
Definition newly_submitted (e e' : Engine) (l : list Order) : Prop :=
  submitted e' = submitted e ++ l.

End Vocabulary.

(** Stand-ins for the functions of [Libm], to run the definitions on
    concrete inputs: first-order expansions, and the integer square root
    at six decimals. *)
Definition coarse_libm : Libm :=
  {| np_log x := (x - 1)%Qc;
     np_exp x := (1 + x)%Qc;
     np_sin x := x;
     np_sqrt x :=
       Num.dec (Z.sqrt (Qnum (x * Num.dec 1000000000000 1)%Qc
                        / Z.pos (Qden (x * Num.dec 1000000000000 1)%Qc)))
               1000000 |}.

(** ** The comparisons of the grid strategy in binary64

    The tests that steer [_setup_initial_orders] and
    [_find_next_grid_price], on primitive floats, to check that the
    scenarios below take the same branches in floating point as they do
    over the rationals. *)

Module Binary64.
Import PrimFloat.
Local Open Scope float_scope.
#[local] Set Warnings "-inexact-float".

(** [abs(grid_price - current_price) / current_price < 0.001]. *)
Definition too_close (grid_price current_price : float) : bool :=
  abs (grid_price - current_price) / current_price <? 0.001.

(** [price > current_price * 1.001]. *)
Definition above (price current_price : float) : bool :=
  current_price * 1.001 <? price.

(** [price < current_price * 0.999]. *)
Definition below (price current_price : float) : bool :=
  price <? current_price * 0.999.

(** The quantity of the BUY order that follows a SELL fill. *)
Definition rebuy_quantity (filled_qty filled_price target_price : float)
    : float :=
  filled_qty * filled_price / target_price.

End Binary64.

(** ** Scenarios

    Concrete runs of the grid strategy, used to evaluate the definitions. *)

Module Scenario.
Import Num Platform Grid.

(** The state a run reaches from a fresh strategy and a fresh engine. *)
Definition reached (c : GridStrategyConfig) (cbs : list callback)
    : GridStrategy * Engine :=
  default (__init__ c, new_engine)
    (run (H := coarse_libm) cbs (__init__ c, new_engine)).

(** Six levels from 997 to 1002, a capital of 6000. *)
Definition fine_grid : GridStrategyConfig :=
  mkConfig (dec 6000 1) 6 "arithmetic" (Some (dec 1002 1)) (Some (dec 997 1))
    (dec 1 10) true.

(** The first quote is 1000 / 1001: the levels 1000 and 1001 are too
    close to the mid price 1000.5 and get no initial order; the orders
    1, 2, 3 buy at 997, 998, 999 and the order 4 sells at 1002. *)
Definition fine_grid_start : list callback :=
  [OnStart; InitializeGrid (Some (mkQuote (dec 1000 1) (dec 1001 1)))].

(** The buy order at 999 is filled (a sell order follows at 1000). *)
Definition fill_of_order_3 : OrderFilled :=
  mkFill 3 BUY (dec 999 1) (dec 1001001 1000000).

(** Then the buy order at 998 is filled. *)
Definition fill_of_order_2 : OrderFilled :=
  mkFill 2 BUY (dec 998 1) (dec 1002004 1000000).

(** Three levels from 100 to 120, a capital of 300. *)
Definition coarse_grid : GridStrategyConfig :=
  mkConfig (dec 300 1) 3 "arithmetic" (Some (dec 120 1)) (Some (dec 100 1))
    (dec 1 10) true.

(** The first quote is 100 / 100.1: the level 100 is too close to the
    mid price and gets no order; the orders 1 and 2 sell at 110 and
    120. *)
Definition coarse_grid_start : list callback :=
  [OnStart; InitializeGrid (Some (mkQuote (dec 100 1) (dec 1001 10)))].

(** The sell order at 110 is filled. *)
Definition fill_of_sell_1 : OrderFilled :=
  mkFill 1 SELL (dec 110 1) (dec 909091 1000000).

End Scenario.

(** ** Vocabulary of the further properties *)

Module Further.
Import Num Platform.
Local Open Scope Qc_scope.

(** A grid price is within 0.1% of the current price: the test of
    [_setup_initial_orders]. *)
Definition too_close (current_price grid_price : Qc) : Prop :=
  pyabs (grid_price - current_price) / current_price < dec 1 1000.

#[global] Instance too_close_dec (cp p : Qc) : Decision (too_close cp p).
Proof. unfold too_close. apply _. Defined.


(** The mid price of a quote. *)
Definition mid_price (q : QuoteTick) : Qc :=
  (ask_price q + bid_price q) / dec 2 1.

(** Every active order has an identifier the factory has handed out. *)
Definition ids_bounded (s : Grid.GridStrategy) (e : Engine) : Prop :=
  ∀ id p, Grid.active_orders s !! id = Some p → (id ≤ order_count e)%nat.

(** Every submitted order is still active or was counted as a trade. *)
Definition orders_accounted (s : Grid.GridStrategy) (e : Engine) : Prop :=
  (Z.of_nat (size (Grid.active_orders s)) + Grid.total_trades s
   = Z.of_nat (length (submitted e)))%Z.

(** No reset among the callbacks. *)
Definition no_reset (cb : Grid.callback) : Prop :=
  match cb with Grid.Reset => False | _ => True end.

(** The callbacks that can precede the set-up of the grid: anything but
    the timer callback finding a cached quote. *)
Definition before_setup (cb : Grid.callback) : Prop :=
  match cb with Grid.InitializeGrid (Some _) => False | _ => True end.

(** A grid price at which the simple strategy buys: at least 10 away
    from the current price, and below it. *)
Definition buy_level (current_price grid_price : Qc) : Prop :=
  ¬ (pyabs (grid_price - current_price) < dec 10 1)
  ∧ grid_price < current_price.

#[global] Instance buy_level_dec (cp p : Qc) : Decision (buy_level cp p).
Proof. unfold buy_level. apply _. Defined.

(** The order of the simple strategy at a grid price. *)
Definition simple_order (amount : Qc) (id : nat) (p : Qc) : Order :=
  mkOrder id BUY (format_f 6 (amount / p)) (format_f 2 p) false.

(** A list of integers is strictly increasing. *)
Definition increasing (l : list Z) : Prop :=
  ∀ (i j : nat) (x y : Z),
    (i < j)%nat → l !! i = Some x → l !! j = Some y → (x < y)%Z.

(** The exchange honours [startTime]: no row of a reply opens before
    it. *)
Definition honours_start (server : Binance.Server) : Prop :=
  ∀ (start : Z) (end_ : option Z) (rows : list Binance.kline),
    server (Some start) end_ = Some rows →
    Forall (λ k, start ≤ Binance.open_time k)%Z rows.

(** The rows of every reply are in increasing order of opening time. *)
Definition pages_increasing (server : Binance.Server) : Prop :=
  ∀ (start end_ : option Z) (rows : list Binance.kline),
    server start end_ = Some rows → increasing (Binance.open_time <$> rows).

#[global] Instance simple_config_eq_dec :
  EqDecision SimpleGrid.SimpleGridStrategyConfig.
Proof. solve_decision. Defined.

(** The same for the other exchange: no row of a reply is older than
    the requested start, the first row of a reply is its newest, and the
    rows of a reply have distinct timestamps. *)
Definition serves_from_start (server : Bybit.Server) : Prop :=
  ∀ (start : Z) (rows : list Bybit.kline),
    server (Some start) = Some rows →
    Forall (λ k, start ≤ Bybit.k_timestamp k)%Z rows.

Definition newest_first (server : Bybit.Server) : Prop :=
  ∀ (start : option Z) (k : Bybit.kline) (ks : list Bybit.kline),
    server start = Some (k :: ks) →
    Forall (λ k', Bybit.k_timestamp k' ≤ Bybit.k_timestamp k)%Z ks.

Definition pages_distinct (server : Bybit.Server) : Prop :=
  ∀ (start : option Z) (rows : list Bybit.kline),
    server start = Some rows → NoDup (Bybit.k_timestamp <$> rows).

End Further.

(** ** Stand-ins for the exchanges

    Two servers to run the paging loops on: each answers a request with
    the two bars at the requested start and one step later, flat bars
    without volume. *)

Module Exchange.

Definition binance_bar (t : Z) : Binance.kline :=
  Binance.mkKline t 0%Qc 0%Qc 0%Qc 0%Qc 0%Qc t 0%Qc 0 "" "" "".

(** Bars a millisecond apart, oldest first, none after the requested
    end. *)
Definition two_per_page : Binance.Server :=
  λ start end_,
    let s := default 0 start in
    Some (binance_bar
            <$> match end_ with
                | Some e => filter (λ t, t ≤ e) [s; s + 1]
                | None => [s; s + 1]
                end).

Definition bybit_bar (t : Z) : Bybit.kline :=
  Bybit.mkKline t 0%Qc 0%Qc 0%Qc 0%Qc 0%Qc 0%Qc.

(** Bars twelve hours apart, newest first. *)
Definition two_half_days : Bybit.Server :=
  λ start,
    let s := default 0 start in
    Some [bybit_bar (s + 43200000); bybit_bar s].

End Exchange.

(** * Properties *)

(** Closed goals about concrete data are settled by evaluation. *)
Ltac by_evaluation := apply (bool_decide_unpack _); vm_compute; exact I.

(** ** Numbers *)

Section NumFacts.
Import Num.
Local Open Scope Qc_scope.

Lemma of_int_nonzero (n : Z) : n ≠ 0%Z → of_int n ≠ 0.
Proof. unfold of_int. rewrite <- Z2Qc_inj_0. by intros Hn ?%Z2Qc_inj. Qed.

Lemma of_int_pos (n : Z) : (0 < n)%Z → 0 < of_int n.
Proof. unfold of_int. rewrite <- Z2Qc_inj_0. by rewrite <- Z2Qc_inj_lt. Qed.

Lemma pydiv_Some (a b : Qc) : b ≠ 0 → pydiv a b = Some (a / b).
Proof. intros Hb. unfold pydiv. by rewrite decide_False. Qed.

Lemma pydiv_inv (a b q : Qc) : pydiv a b = Some q → b ≠ 0 ∧ q = a / b.
Proof. unfold pydiv. case_decide; naive_solver. Qed.

Lemma Qcmult_div_cancel (x y : Qc) : y ≠ 0 → x * y / y = x.
Proof. intros Hy. field. exact Hy. Qed.

Lemma Qcdiv_zero_inv (x y : Qc) : y ≠ 0 → x / y = 0 → x = 0.
Proof.
  intros Hy Hxy. rewrite <- (Qcmult_div_cancel x y Hy).
  replace (x * y / y) with (x / y * y) by (field; exact Hy).
  rewrite Hxy. ring.
Qed.




(** [f"{1000/997:.6f}"] is [1.003009]; [f"{0.125:.2f}"] is [0.12] and
    [f"{0.375:.2f}"] is [0.38], ties going to the even digit. *)
Example format_f_examples :
  format_f 6 (dec 1000 1 / dec 997 1) = dec 1003009 1000000
  ∧ format_f 2 (dec 125 1000) = dec 12 100
  ∧ format_f 2 (dec 375 1000) = dec 38 100
  ∧ format_f 2 (dec (-125) 1000) = dec (-12) 100.
Proof. repeat split; by_evaluation. Qed.

End NumFacts.

(** ** [np.linspace] *)

Section LinspaceFacts.
Import Num Numpy Vocabulary.
Local Open Scope Qc_scope.

Lemma linspace_is_Some (a b : Qc) (n : Z) :
  (0 ≤ n)%Z → is_Some (linspace a b n).
Proof.
  intros Hn. unfold linspace.
  destruct (Z.ltb_spec n 0); [lia | eauto].
Qed.

Lemma linspace_length (a b : Qc) (n : Z) (l : list Qc) :
  linspace a b n = Some l → length l = Z.to_nat n.
Proof.
  unfold linspace. destruct (Z.ltb_spec n 0); [done |].
  intros [= <-].
  assert (∀ f : Qc → Qc,
    length ((λ v, v + a) <$> (f <$> (of_int <$> seqZ 0 n))) = Z.to_nat n)
    as Hlen by (intros f; by rewrite !length_fmap, length_seqZ).
  repeat case_match; rewrite ?length_insert; apply Hlen.
Qed.

Lemma linspace_lookup (a b : Qc) (n : Z) (l : list Qc) (i : nat) :
  (2 ≤ n)%Z → linspace a b n = Some l → (Z.of_nat i < n)%Z →
  l !! i = Some (grid_point a b n i).
Proof.
  intros Hn Hl Hi. unfold linspace in Hl.
  destruct (Z.ltb_spec n 0); [lia |].
  destruct (Z.ltb_spec 0 (n - 1)); [| lia].
  destruct (Z.ltb_spec 1 n); [| lia].
  assert (of_int (n - 1) ≠ 0) as Hdiv by (apply of_int_nonzero; lia).
  injection Hl as <-. unfold grid_point.
  destruct (decide (i = Z.to_nat (n - 1))) as [-> | Hne].
  - rewrite list_lookup_insert_eq.
    + f_equal. rewrite Z2Nat.id by lia. field. exact Hdiv.
    + case_decide; rewrite !length_fmap, length_seqZ; lia.
  - rewrite list_lookup_insert_ne by done.
    case_decide as Hstep.
    + rewrite !list_lookup_fmap, lookup_seqZ_lt by lia. simpl. f_equal.
      apply Qcdiv_zero_inv in Hstep; [| exact Hdiv].
      rewrite Hstep. field. exact Hdiv.
    + rewrite !list_lookup_fmap, lookup_seqZ_lt by lia. simpl. f_equal.
      rewrite Z.add_0_l. ring.
Qed.

Lemma grid_point_first (a b : Qc) (n : Z) : grid_point a b n 0 = a.
Proof.
  unfold grid_point, of_int. change (Z.of_nat 0) with 0%Z.
  rewrite Z2Qc_inj_0. ring.
Qed.

Lemma grid_point_last (a b : Qc) (n : Z) :
  (2 ≤ n)%Z → grid_point a b n (Z.to_nat (n - 1)) = b.
Proof.
  intros Hn. unfold grid_point. rewrite Z2Nat.id by lia.
  field. apply of_int_nonzero. lia.
Qed.

Lemma grid_point_step (a b : Qc) (n : Z) (i : nat) :
  grid_point a b n (S i) - grid_point a b n i = (b - a) / of_int (n - 1).
Proof.
  unfold grid_point, of_int.
  rewrite Nat2Z.inj_succ, <- Z.add_1_r, Z2Qc_inj_add, Z2Qc_inj_1. ring.
Qed.

Lemma grid_point_mono (a b : Qc) (n : Z) (i j : nat) :
  (2 ≤ n)%Z → a ≤ b → (i ≤ j)%nat →
  grid_point a b n i ≤ grid_point a b n j.
Proof.
  intros Hn Hab Hij. unfold grid_point.
  apply Qcplus_le_mono_l, Qcmult_le_mono_nonneg_r.
  - unfold Qcdiv. apply Qcmult_nonneg_nonneg.
    + apply (Qcplus_le_mono_r _ _ a). by ring_simplify.
    + apply Qclt_le_weak, Qcinv_pos, of_int_pos. lia.
  - unfold of_int. rewrite <- Z2Qc_inj_le. lia.
Qed.

Lemma grid_point_strict (a b : Qc) (n : Z) (i j : nat) :
  (2 ≤ n)%Z → a < b → (i < j)%nat →
  grid_point a b n i < grid_point a b n j.
Proof.
  intros Hn Hab Hij. unfold grid_point.
  apply Qcplus_lt_mono_l, Qcmult_lt_mono_pos_r.
  - unfold Qcdiv. apply Qcmult_pos_pos.
    + apply (Qcplus_lt_mono_r _ _ a). by ring_simplify.
    + apply Qcinv_pos, of_int_pos. lia.
  - unfold of_int. rewrite <- Z2Qc_inj_lt. lia.
Qed.

Lemma linspace_non_decreasing (a b : Qc) (n : Z) (l : list Qc) :
  (2 ≤ n)%Z → a ≤ b → linspace a b n = Some l → non_decreasing l.
Proof.
  intros Hn Hab Hl i j x y Hij Hx Hy.
  pose proof (linspace_length _ _ _ _ Hl) as Hlen.
  pose proof (lookup_lt_Some _ _ _ Hx). pose proof (lookup_lt_Some _ _ _ Hy).
  rewrite (linspace_lookup a b n l i) in Hx by (done || lia).
  rewrite (linspace_lookup a b n l j) in Hy by (done || lia).
  assert (x = grid_point a b n i) as -> by congruence.
  assert (y = grid_point a b n j) as -> by congruence.
  by apply grid_point_mono.
Qed.

Lemma linspace_NoDup (a b : Qc) (n : Z) (l : list Qc) :
  (2 ≤ n)%Z → a < b → linspace a b n = Some l → NoDup l.
Proof.
  intros Hn Hab Hl. apply NoDup_alt. intros i j x Hx Hy.
  pose proof (linspace_length _ _ _ _ Hl) as Hlen.
  pose proof (lookup_lt_Some _ _ _ Hx). pose proof (lookup_lt_Some _ _ _ Hy).
  rewrite (linspace_lookup a b n l i) in Hx by (done || lia).
  rewrite (linspace_lookup a b n l j) in Hy by (done || lia).
  assert (grid_point a b n i = grid_point a b n j) as Heq by congruence.
  destruct (Nat.lt_trichotomy i j) as [Hlt | [-> | Hlt]]; [| done |].
  - pose proof (grid_point_strict a b n i j Hn Hab Hlt) as Hs.
    rewrite Heq in Hs. by apply Qclt_not_eq in Hs.
  - pose proof (grid_point_strict a b n j i Hn Hab Hlt) as Hs.
    rewrite Heq in Hs. by apply Qclt_not_eq in Hs.
Qed.

Example linspace_examples :
  linspace (dec 100 1) (dec 120 1) 3
  = Some [dec 100 1; dec 110 1; dec 120 1]
  ∧ linspace (dec 100 1) (dec 120 1) 1 = Some [dec 100 1]
  ∧ linspace (dec 100 1) (dec 120 1) 0 = Some []
  ∧ linspace (dec 100 1) (dec 120 1) (-1) = None
  ∧ linspace (dec 5 1) (dec 5 1) 3 = Some [dec 5 1; dec 5 1; dec 5 1].
Proof. repeat split; by_evaluation. Qed.

End LinspaceFacts.

Section ArithmeticGrid.
Import Num Numpy Platform Vocabulary.
Local Open Scope Qc_scope.

(** C5.  Arithmetic grid price computation: for a level count [N ≥ 2]
    and bounds [lower < upper], [np.linspace] returns a list [l] of
    length [N] that is non-decreasing, starts at [lower], ends at
    [upper], and whose consecutive elements differ by
    [(upper - lower) / (N - 1)]; [GridStrategy._calculate_grid_prices]
    with arithmetic spacing and [SimpleGridStrategy.on_start] both store
    that list as the grid prices. *)
Theorem arithmetic_grid_prices `{Libm} (lower upper : Qc) (N : Z) :
  (2 ≤ N)%Z → lower < upper →
  ∃ l : list Qc,
    (∀ s : Grid.GridStrategy,
       Grid.cfg_grid_spacing_type (Grid.config s) = "arithmetic" →
       Grid.cfg_grid_levels (Grid.config s) = N →
       Grid.lower_price s = Some lower → Grid.upper_price s = Some upper →
       Grid._calculate_grid_prices s = Some (Grid.set_grid_prices l s))
    ∧ (∀ (s : SimpleGrid.SimpleGridStrategy) (e : Engine),
         SimpleGrid.cfg_grid_levels (SimpleGrid.config s) = N →
         SimpleGrid.cfg_lower_price (SimpleGrid.config s) = lower →
         SimpleGrid.cfg_upper_price (SimpleGrid.config s) = upper →
         ∃ s', SimpleGrid.on_start s e = Some (s', issue SubscribeQuoteTicks e)
               ∧ SimpleGrid.grid_prices s' = l)
    ∧ length l = Z.to_nat N
    ∧ non_decreasing l
    ∧ head l = Some lower
    ∧ last l = Some upper
    ∧ (∀ (i : nat) (x y : Qc),
         l !! i = Some x → l !! S i = Some y →
         y - x = (upper - lower) / of_int (N - 1)).
Proof.
  intros HN Hlt.
  destruct (linspace_is_Some lower upper N) as [l Hl]; [lia |].
  pose proof (linspace_length _ _ _ _ Hl) as Hlen.
  exists l. repeat split.
  - intros s Hty Hlev Hlo Hup. unfold Grid._calculate_grid_prices.
    rewrite Hlo, Hup. simpl. rewrite decide_True by done.
    rewrite Hlev, Hl. done.
  - intros s e Hlev Hlo Hup. unfold SimpleGrid.on_start.
    rewrite Hlev, Hlo, Hup, Hl. simpl. eauto.
  - done.
  - apply (linspace_non_decreasing lower upper N); [done | | done].
    by apply Qclt_le_weak.
  - rewrite head_lookup, (linspace_lookup lower upper N l 0) by (done || lia).
    by rewrite grid_point_first.
  - rewrite last_lookup, Hlen.
    replace (Nat.pred (Z.to_nat N)) with (Z.to_nat (N - 1)) by lia.
    rewrite (linspace_lookup lower upper N l) by (done || lia).
    by rewrite grid_point_last.
  - intros i x y Hx Hy.
    pose proof (lookup_lt_Some _ _ _ Hy).
    rewrite (linspace_lookup lower upper N l i) in Hx by (done || lia).
    rewrite (linspace_lookup lower upper N l (S i)) in Hy by (done || lia).
    assert (x = grid_point lower upper N i) as -> by congruence.
    assert (y = grid_point lower upper N (S i)) as -> by congruence.
    apply grid_point_step.
Qed.

(** The theorem at the bounds of the simple backtest: five levels on
    [[41500, 42500]]. *)
Lemma arithmetic_grid_prices_witness :
  (2 ≤ 5)%Z ∧ dec 41500 1 < dec 42500 1
  ∧ ∃ l : list Qc,
      Grid._calculate_grid_prices (H := coarse_libm)
        (Grid.__init__
           (Grid.mkConfig (dec 1000 1) 5 "arithmetic" (Some (dec 42500 1))
              (Some (dec 41500 1)) (dec 1 10) true))
      = Some (Grid.set_grid_prices l
                (Grid.__init__
                   (Grid.mkConfig (dec 1000 1) 5 "arithmetic"
                      (Some (dec 42500 1)) (Some (dec 41500 1)) (dec 1 10)
                      true)))
      ∧ length l = 5%nat ∧ head l = Some (dec 41500 1)
      ∧ last l = Some (dec 42500 1).
Proof.
  split; [lia |]. split; [by_evaluation |].
  destruct (arithmetic_grid_prices (H := coarse_libm)
              (dec 41500 1) (dec 42500 1) 5)
    as (l & Hcalc & _ & Hlen & _ & Hhead & Hlast & _);
    [lia | by_evaluation |].
  exists l. split; [by apply Hcalc | done].
Defined.

End ArithmeticGrid.

(** ** The scenarios in binary64 *)

Section Binary64Facts.
Import PrimFloat.
#[local] Set Warnings "-inexact-float".

(** The branches the two scenarios take are the branches of the
    floating-point program: around the mid price 1000.5 the levels 1000
    and 1001 are too close and 999 and 1002 are not; 1000 is above
    [999 × 1.001] and 999 is above [998 × 1.001]; around 100.05 the
    level 100 is too close, 100 is below [110 × 0.999] and 110 is not;
    and the quantity bought back is not the quantity sold. *)
Example scenarios_in_binary64 :
  ((Binary64.too_close 999 1000.5, Binary64.too_close 1000 1000.5,
    Binary64.too_close 1001 1000.5, Binary64.too_close 1002 1000.5)
   = (false, true, true, false)
   ∧ (Binary64.above 999 999, Binary64.above 1000 999,
      Binary64.above 998 998, Binary64.above 999 998)
     = (false, true, false, true)
   ∧ (Binary64.too_close 100 100.05, Binary64.too_close 110 100.05)
     = (true, false)
   ∧ (Binary64.below 110 110, Binary64.below 100 110) = (false, true)
   ∧ (1 <? Binary64.rebuy_quantity 0.909091 110 100) = true)%float.
Proof. repeat split; reflexivity. Qed.

End Binary64Facts.

(** ** The grid strategy *)

Section GridFacts.
Import Num Numpy Platform Vocabulary Grid.
Local Open Scope Qc_scope.

Lemma submitted_issue (c : command) (e : Engine) :
  submitted (issue c e)
  = submitted e ++ match c with SubmitOrder o => [o] | _ => [] end.
Proof. unfold submitted, issue. simpl. rewrite omap_app. by destruct c. Qed.

Lemma submitted_limit (side : OrderSide) (q p : Qc) (po : bool) (e : Engine) :
  submitted (limit_and_submit side q p po e).2
  = submitted e ++ [mkOrder (S (order_count e)) side q p po].
Proof. unfold submitted, limit_and_submit. simpl. by rewrite omap_app. Qed.

(** The search reads the grid and the recorded orders, nothing else. *)
Lemma find_next_ext (s1 s2 : GridStrategy) (P : Qc) (dir : string) :
  grid_prices s1 = grid_prices s2 → grid_orders s1 = grid_orders s2 →
  _find_next_grid_price s1 P dir = _find_next_grid_price s2 P dir.
Proof. unfold _find_next_grid_price. by intros -> ->. Qed.



Lemma find_next_down_Some (s : GridStrategy) (P t : Qc) :
  non_decreasing (grid_prices s) →
  _find_next_grid_price s P "down" = Some t →
  greatest_such (eligible_below s P) t.
Proof.
  intros Hsorted. unfold _find_next_grid_price. simpl.
  destruct (list_find _ _) as [[i x] |] eqn:Hfind; [| done].
  intros [= ->]. apply list_find_Some in Hfind as (Hi & [Hlt Hfree] & Hfirst).
  apply reverse_lookup_Some in Hi as [Hi Hlen].
  split.
  - repeat split; [by eapply list_elem_of_lookup_2 | done | done].
  - intros p (Hp & Hplt & Hpfree).
    apply list_elem_of_lookup_1 in Hp as [j Hj].
    pose proof (lookup_lt_Some _ _ _ Hj) as Hjlen.
    destruct (decide (length (grid_prices s) - S i < j)%nat) as [Hji | Hji].
    + destruct (Hfirst (length (grid_prices s) - S j)%nat p); [| lia | done].
      apply reverse_lookup_Some. split; [| lia].
      by replace (length (grid_prices s) - S (length (grid_prices s) - S j))%nat
        with j by lia.
    + apply (Hsorted j (length (grid_prices s) - S i)%nat); [lia | done | done].
Qed.

Lemma find_next_down_None (s : GridStrategy) (P : Qc) :
  _find_next_grid_price s P "down" = None → ∀ t, ¬ eligible_below s P t.
Proof.
  unfold _find_next_grid_price. simpl.
  destruct (list_find _ _) as [[i x] |] eqn:Hfind; [done |].
  intros _ t (Ht & Hlt & Hfree).
  apply list_find_None in Hfind. rewrite Forall_forall in Hfind.
  apply elem_of_reverse in Ht. by destruct (Hfind t Ht).
Qed.

(** Whatever the direction, the search returns a grid price without a
    recorded order. *)
Lemma find_next_unrecorded (s : GridStrategy) (P t : Qc) (dir : string) :
  _find_next_grid_price s P dir = Some t →
  t ∈ grid_prices s ∧ grid_orders s !! t = None.
Proof.
  unfold _find_next_grid_price. case_decide.
  - destruct (list_find _ _) as [[i x] |] eqn:Hfind; [| done].
    intros [= ->]. apply list_find_Some in Hfind as (Hi & [_ Hfree] & _).
    split; [by eapply list_elem_of_lookup_2 | done].
  - destruct (list_find _ _) as [[i x] |] eqn:Hfind; [| done].
    intros [= ->]. apply list_find_Some in Hfind as (Hi & [_ Hfree] & _).
    split; [| done]. apply elem_of_reverse. by eapply list_elem_of_lookup_2.
Qed.

Lemma StronglySorted_non_decreasing (l : list Qc) :
  StronglySorted Qcle l → non_decreasing l.
Proof.
  induction 1 as [| x l Hl IH Hx]; intros i j a b Hij Ha Hb.
  - by rewrite lookup_nil in Ha.
  - destruct i as [| i], j as [| j]; simpl in *; try lia.
    + assert (a = b) as -> by congruence. apply Qcle_refl.
    + assert (a = x) as -> by congruence.
      rewrite Forall_forall in Hx. apply Hx.
      by eapply list_elem_of_lookup_2.
    + apply (IH i j); [lia | done | done].
Qed.


(** What [on_order_filled] does with a fill of an active order, by the
    side that was filled. *)
Lemma on_order_filled_active (ev : OrderFilled) (s : GridStrategy)
    (e : Engine) (g : Qc) :
  active_orders s !! fill_order_id ev = Some g →
  let s1 :=
    set_total_trades (total_trades s + 1)
      (set_orders (grid_orders s)
         (delete (fill_order_id ev) (active_orders s)) s) in
  on_order_filled ev s e =
    match fill_side ev with
    | BUY =>
      match truthy (_find_next_grid_price s (last_px ev) "up") with
      | Some t => _place_grid_order t SELL (last_qty ev * t) s1 e
      | None => Some (s1, e)
      end
    | SELL =>
      match truthy (_find_next_grid_price s (last_px ev) "down") with
      | Some t => _place_grid_order t BUY (last_qty ev * last_px ev) s1 e
      | None => Some (s1, e)
      end
    end.
Proof.
  intros Hact. unfold on_order_filled. rewrite Hact. simpl.
  destruct (fill_side ev);
    by rewrite (find_next_ext _ s) by done.
Qed.

Lemma place_grid_order_Some (t : Qc) (side : OrderSide) (amount : Qc)
    (s : GridStrategy) (e : Engine) :
  t ≠ 0 →
  ∃ s' e',
    _place_grid_order t side amount s e = Some (s', e')
    ∧ newly_submitted e e'
        [mkOrder (S (order_count e)) side (format_f 6 (amount / t))
           (format_f 2 t) (cfg_post_only (config s))]
    ∧ order_count e' = S (order_count e)
    ∧ grid_prices s' = grid_prices s
    ∧ grid_orders s' = <[t := S (order_count e)]> (grid_orders s)
    ∧ active_orders s' = <[S (order_count e) := t]> (active_orders s)
    ∧ total_trades s' = total_trades s
    ∧ winning_trades s' = winning_trades s.
Proof.
  intros Ht. unfold _place_grid_order. rewrite pydiv_Some by done. simpl.
  eexists _, _. split; [done |]. repeat split.
  unfold newly_submitted, submitted. simpl. by rewrite omap_app.
Qed.




(** C2, amended.  After a SELL fill of quantity [Q] at the price [P] of
    an order that is active, on a non-decreasing grid without a zero
    price: when some grid price below [P × 0.999] has no recorded order,
    a BUY order is submitted at the greatest such price [t] for the
    amount [Q × P], the proceeds of the fill; its quantity is
    [Q × P / t], rendered at six decimals, which is more than [Q] when
    [Q] and [t] are positive.  When there is no such grid price, nothing
    is submitted. *)
Theorem sell_fill_places_buy (s : GridStrategy) (e : Engine)
    (ev : OrderFilled) (g : Qc) :
  fill_side ev = SELL →
  active_orders s !! fill_order_id ev = Some g →
  non_decreasing (grid_prices s) →
  0 ∉ grid_prices s →
  (∃ t s' e',
     greatest_such (eligible_below s (last_px ev)) t
     ∧ on_order_filled ev s e = Some (s', e')
     ∧ newly_submitted e e'
         [mkOrder (S (order_count e)) BUY
            (format_f 6 (last_qty ev * last_px ev / t))
            (format_f 2 t) (cfg_post_only (config s))]
     ∧ (0 < last_qty ev → 0 < t →
        last_qty ev < last_qty ev * last_px ev / t)
     ∧ grid_orders s' = <[t := S (order_count e)]> (grid_orders s))
  ∨ ((∀ t, ¬ eligible_below s (last_px ev) t)
     ∧ ∃ s', on_order_filled ev s e = Some (s', e)
             ∧ grid_orders s' = grid_orders s).
Proof.
  intros Hside Hact Hsorted Hzero.
  rewrite (on_order_filled_active ev s e g Hact), Hside.
  destruct (_find_next_grid_price s (last_px ev) "down") as [t |] eqn:Hfind.
  - left. pose proof (find_next_down_Some s _ t Hsorted Hfind) as Hgreatest.
    assert (t ≠ 0) as Ht.
    { destruct Hgreatest as [(Hin & _) _]. by intros ->. }
    simpl. rewrite decide_False by done.
    destruct (place_grid_order_Some t BUY (last_qty ev * last_px ev)
                (set_total_trades (total_trades s + 1)
                   (set_orders (grid_orders s)
                      (delete (fill_order_id ev) (active_orders s)) s)) e Ht)
      as (s' & e' & Hplace & Hnew & _ & _ & Hgo & _).
    exists t, s', e'.
    split; [exact Hgreatest |]. split; [exact Hplace |].
    split; [exact Hnew |]. split; [| exact Hgo].
    intros HQ Htpos. destruct Hgreatest as [(_ & Hlt & _) _].
    assert (t < last_px ev) as HtP.
    { apply Qclt_le_trans with (last_px ev * dec 999 1000); [done |].
      assert (0 < last_px ev) as HPpos.
      { destruct (Qclt_le_dec 0 (last_px ev)) as [| Hneg]; [done |].
        exfalso. apply (Qclt_not_le _ _ Htpos).
        apply Qclt_le_weak, (Qclt_le_trans _ _ _ Hlt).
        rewrite <- (Qcmult_0_l (dec 999 1000)).
        apply Qcmult_le_mono_nonneg_r; [by_evaluation | done]. }
      rewrite <- (Qcmult_1_r (last_px ev)) at 2.
      apply Qcmult_le_mono_nonneg_l; [by apply Qclt_le_weak | by_evaluation]. }
    apply (Qcmult_lt_mono_pos_r _ _ t Htpos).
    replace (last_qty ev * last_px ev / t * t) with (last_qty ev * last_px ev)
      by (field; exact Ht).
    by apply Qcmult_lt_mono_pos_l.
  - right. split; [by apply find_next_down_None |]. simpl. eauto.
Qed.

(** The theorem in the scenario of the coarse grid: the fill of the
    sell order at 110 is followed by a buy order, and 100 is an
    eligible price. *)
Lemma sell_fill_places_buy_witness :
  let st := Scenario.reached Scenario.coarse_grid Scenario.coarse_grid_start in
  let ev := Scenario.fill_of_sell_1 in
  run (H := coarse_libm) Scenario.coarse_grid_start
    (__init__ Scenario.coarse_grid, new_engine) = Some st
  ∧ fill_side ev = SELL
  ∧ active_orders st.1 !! fill_order_id ev = Some (dec 110 1)
  ∧ non_decreasing (grid_prices st.1)
  ∧ (0 ∉ grid_prices st.1)
  ∧ eligible_below st.1 (last_px ev) (dec 100 1)
  ∧ ∃ t s' e',
      greatest_such (eligible_below st.1 (last_px ev)) t
      ∧ on_order_filled ev st.1 st.2 = Some (s', e')
      ∧ newly_submitted st.2 e'
          [mkOrder (S (order_count st.2)) BUY
             (format_f 6 (last_qty ev * last_px ev / t))
             (format_f 2 t) (cfg_post_only (config st.1))].
Proof.
  intros st ev.
  assert (fill_side ev = SELL) as H1 by done.
  assert (active_orders st.1 !! fill_order_id ev = Some (dec 110 1)) as H2
    by by_evaluation.
  assert (non_decreasing (grid_prices st.1)) as H3
    by (apply StronglySorted_non_decreasing; by_evaluation).
  assert (0 ∉ grid_prices st.1) as H4 by by_evaluation.
  assert (eligible_below st.1 (last_px ev) (dec 100 1)) as H5
    by (repeat split; by_evaluation).
  split; [by_evaluation |].
  split; [exact H1 |]. split; [exact H2 |]. split; [exact H3 |].
  split; [exact H4 |]. split; [exact H5 |].
  destruct (sell_fill_places_buy st.1 st.2 ev (dec 110 1) H1 H2 H3 H4)
    as [(t & s' & e' & Hgreatest & Hfill & Hnew & _) | [Hnone _]].
  - exists t, s', e'.
    split; [exact Hgreatest |]. split; [exact Hfill | exact Hnew].
  - destruct (Hnone (dec 100 1)). exact H5.
Defined.

(** C2 as stated fails.  In the scenario of the coarse grid, the sell
    order at 110 is filled for 0.909091: the buy order placed at 100 has
    the quantity 1, not 0.909091. *)
Lemma sell_fill_counterexample :
  let st := Scenario.reached Scenario.coarse_grid Scenario.coarse_grid_start in
  run (H := coarse_libm) Scenario.coarse_grid_start
    (__init__ Scenario.coarse_grid, new_engine) = Some st
  ∧ ¬ sell_fill_claim st.1 st.2 Scenario.fill_of_sell_1.
Proof.
  intros st. split; [by_evaluation |]. intros Hclaim.
  pose (st' :=
    Scenario.reached Scenario.coarse_grid
      (Scenario.coarse_grid_start ++ [OnOrderFilled Scenario.fill_of_sell_1])).
  pose (o := mkOrder 3 BUY (dec 1 1) (dec 100 1) true).
  destruct (Hclaim st'.1 st'.2 o) as (_ & Hqty & _).
  - by_evaluation.
  - by_evaluation.
  - revert Hqty. by_evaluation.
Qed.

(** *** What each callback leaves unchanged *)

Lemma place_grid_order_inv (t : Qc) (side : OrderSide) (amount : Qc)
    (s s' : GridStrategy) (e e' : Engine) :
  _place_grid_order t side amount s e = Some (s', e') →
  t ≠ 0
  ∧ (∃ o, commands e' = commands e ++ [SubmitOrder o]
          ∧ client_order_id o = S (order_count e) ∧ order_side o = side)
  ∧ order_count e' = S (order_count e)
  ∧ grid_prices s' = grid_prices s
  ∧ grid_orders s' = <[t := S (order_count e)]> (grid_orders s)
  ∧ active_orders s' = <[S (order_count e) := t]> (active_orders s)
  ∧ winning_trades s' = winning_trades s.
Proof.
  unfold _place_grid_order. intros Hplace.
  destruct (pydiv amount t) as [q |] eqn:Hq; [| done].
  apply pydiv_inv in Hq as [Ht _]. simpl in Hplace.
  injection Hplace as <- <-. split; [done |].
  split; [by eexists |]. done.
Qed.

Lemma on_order_filled_inv (ev : OrderFilled) (s s' : GridStrategy)
    (e e' : Engine) :
  on_order_filled ev s e = Some (s', e') →
  grid_prices s' = grid_prices s
  ∧ winning_trades s' = winning_trades s
  ∧ ((grid_orders s' = grid_orders s
      ∧ active_orders s' = delete (fill_order_id ev) (active_orders s)
      ∧ e' = e)
     ∨ ∃ t o,
         t ∈ grid_prices s ∧ grid_orders s !! t = None
         ∧ grid_orders s' = <[t := S (order_count e)]> (grid_orders s)
         ∧ active_orders s'
           = <[S (order_count e) := t]>
               (delete (fill_order_id ev) (active_orders s))
         ∧ commands e' = commands e ++ [SubmitOrder o]
         ∧ client_order_id o = S (order_count e)
         ∧ order_count e' = S (order_count e)).
Proof.
  destruct (active_orders s !! fill_order_id ev) as [g |] eqn:Hact.
  - rewrite (on_order_filled_active ev s e g Hact). simpl.
    assert (∀ dir t side amount,
      truthy (_find_next_grid_price s (last_px ev) dir) = Some t →
      _place_grid_order t side amount
        (set_total_trades (total_trades s + 1)
           (set_orders (grid_orders s)
              (delete (fill_order_id ev) (active_orders s)) s)) e
      = Some (s', e') →
      grid_prices s' = grid_prices s
      ∧ winning_trades s' = winning_trades s
      ∧ ((grid_orders s' = grid_orders s
          ∧ active_orders s' = delete (fill_order_id ev) (active_orders s)
          ∧ e' = e)
         ∨ ∃ t o,
             t ∈ grid_prices s ∧ grid_orders s !! t = None
             ∧ grid_orders s' = <[t := S (order_count e)]> (grid_orders s)
             ∧ active_orders s'
               = <[S (order_count e) := t]>
                   (delete (fill_order_id ev) (active_orders s))
             ∧ commands e' = commands e ++ [SubmitOrder o]
             ∧ client_order_id o = S (order_count e)
             ∧ order_count e' = S (order_count e))) as Hplaced.
    { intros dir t side amount Htruth Hplace.
      apply place_grid_order_inv in Hplace
        as (_ & (o & Hcmd & Hid & _) & Hcount & Hgp & Hgo & Hao & Hwin).
      unfold truthy in Htruth.
      destruct (_find_next_grid_price s (last_px ev) dir) as [t' |] eqn:Hfind;
        [| done].
      case_decide; [done |]. injection Htruth as ->.
      apply find_next_unrecorded in Hfind as [Hin Hfree].
      split; [done |]. split; [done |]. right. by exists t, o. }
    destruct (fill_side ev).
    + destruct (truthy _) as [t |] eqn:Htruth; [by eapply Hplaced |].
      intros [= <- <-]. split; [done |]. split; [done |]. by left.
    + destruct (truthy _) as [t |] eqn:Htruth; [by eapply Hplaced |].
      intros [= <- <-]. split; [done |]. split; [done |]. by left.
  - unfold on_order_filled. rewrite Hact. intros [= <- <-].
    split; [done |]. split; [done |]. left.
    split; [done |]. split; [| done]. symmetry. by apply delete_id.
Qed.

Lemma on_quote_tick_inv (tick : QuoteTick) (s s' : GridStrategy)
    (e e' : Engine) :
  on_quote_tick tick s e = Some (s', e') → s' = s ∧ e' = e.
Proof.
  unfold on_quote_tick. intros Hq.
  destruct (upper_price s); [| done]. simpl in Hq.
  case_decide; [by simplify_eq |].
  destruct (lower_price s); [| done]. by simplify_eq/=.
Qed.

Lemma setup_loop_inv (cp amount : Qc) (prices : list Qc)
    (s s' : GridStrategy) (e e' : Engine) :
  setup_loop cp amount prices s e = Some (s', e') →
  grid_prices s' = grid_prices s
  ∧ winning_trades s' = winning_trades s
  ∧ ∃ os, commands e' = commands e ++ (SubmitOrder <$> os).
Proof.
  revert s e. induction prices as [| p rest IH]; intros s e Hloop.
  - simpl in Hloop. injection Hloop as <- <-.
    split; [done |]. split; [done |]. exists []. by rewrite app_nil_r.
  - simpl in Hloop.
    destruct (pydiv _ cp) as [r |]; [| done]. simpl in Hloop.
    assert (∀ side s1 e1,
      _place_grid_order p side amount s e = Some (s1, e1) →
      setup_loop cp amount rest s1 e1 = Some (s', e') →
      grid_prices s' = grid_prices s
      ∧ winning_trades s' = winning_trades s
      ∧ ∃ os, commands e' = commands e ++ (SubmitOrder <$> os)) as Hplaced.
    { intros side s1 e1 Hplace Hrest.
      apply place_grid_order_inv in Hplace
        as (_ & (o & Hcmd & _) & _ & Hgp & _ & _ & Hwin).
      apply IH in Hrest as (Hgp' & Hwin' & os & Hcmd').
      split; [congruence |]. split; [congruence |].
      exists (o :: os). rewrite Hcmd', Hcmd. by rewrite <- app_assoc. }
    case_decide; [by apply IH |].
    case_decide.
    + destruct (_place_grid_order p BUY amount s e) as [[s1 e1] |] eqn:Hplace;
        [| done].
      by eapply Hplaced.
    + case_decide; [| by apply IH].
      destruct (pydiv amount p); [| done]. simpl in Hloop.
      destruct (_place_grid_order p SELL amount s e) as [[s1 e1] |] eqn:Hplace;
        [| done].
      by eapply Hplaced.
Qed.

Lemma calculate_grid_prices_inv `{Libm} (s s' : GridStrategy) :
  _calculate_grid_prices s = Some s' →
  ∃ l, s' = set_grid_prices l s.
Proof.
  unfold _calculate_grid_prices. intros Hcalc.
  destruct (lower_price s); [| done]. destruct (upper_price s); [| done].
  simpl in Hcalc. case_decide.
  - destruct (linspace _ _ _) as [l |]; [| done]. simplify_eq/=. by eexists.
  - destruct (linspace _ _ _) as [l |]; [| done]. simplify_eq/=. by eexists.
Qed.

Lemma initialize_grid_inv `{Libm} (q : option QuoteTick)
    (s s' : GridStrategy) (e e' : Engine) :
  _initialize_grid q s e = Some (s', e') →
  winning_trades s' = winning_trades s
  ∧ ∃ cs, commands e' = commands e ++ cs
          ∧ ∀ t w p, LogStatistics t w p ∉ cs.
Proof.
  unfold _initialize_grid. destruct q as [q |].
  - intros Hinit.
    destruct (_calculate_grid_prices _) as [s1 |] eqn:Hcalc; [| done].
    simpl in Hinit.
    apply calculate_grid_prices_inv in Hcalc as [l ->].
    unfold _setup_initial_orders in Hinit.
    destruct (pydiv _ _) as [amount |]; [| done]. simpl in Hinit.
    apply setup_loop_inv in Hinit as (_ & Hwin & os & Hcmd).
    split.
    + rewrite Hwin. simpl. by repeat case_match.
    + exists (SubmitOrder <$> os). split; [done |].
      intros t w p (o & Ho & _)%list_elem_of_fmap. done.
  - intros [= <- <-]. split; [done |]. eexists. split; [done |].
    intros t w p Hin%list_elem_of_singleton. done.
Qed.

(** *** The win rate *)

Lemma win_rate_zero (s : GridStrategy) :
  winning_trades s = 0%Z → win_rate_percent s = 0.
Proof.
  intros Hwin. unfold win_rate_percent, of_int. rewrite Hwin, Z2Qc_inj_0.
  unfold Qcdiv. ring.
Qed.

Lemma logs_zero_app (e e' : Engine) (cs : list command) :
  commands e' = commands e ++ cs →
  (∀ t w p, LogStatistics t w p ∈ cs → w = 0) →
  logs_zero_win_rate e → logs_zero_win_rate e'.
Proof.
  intros Hcmd Hcs Hlog t w p. rewrite Hcmd, elem_of_app.
  intros [Hin | Hin]; [by eapply Hlog | by eapply Hcs].
Qed.

Lemma dispatch_win_rate `{Libm} (cb : callback) (s s' : GridStrategy)
    (e e' : Engine) :
  dispatch cb (s, e) = Some (s', e') →
  winning_trades s = 0%Z → logs_zero_win_rate e →
  winning_trades s' = 0%Z ∧ logs_zero_win_rate e'.
Proof.
  intros Hstep Hwin Hlog. destruct cb; simpl in Hstep.
  - injection Hstep as <- <-. split; [done |].
    apply (logs_zero_app e _
             [SubscribeQuoteTicks; SubscribeTradeTicks; SetTimer "init_grid" 2]);
      [| | done].
    + unfold issue. simpl. by rewrite <- !app_assoc.
    + intros t w p Hin. by repeat (apply elem_of_cons in Hin as [? | Hin]);
        try apply elem_of_nil in Hin.
  - apply initialize_grid_inv in Hstep as (Hwin' & cs & Hcmd & Hcs).
    split; [congruence |]. apply (logs_zero_app e _ cs); [done | | done].
    intros t w p Hin. by destruct (Hcs t w p).
  - apply on_quote_tick_inv in Hstep as [-> ->]. done.
  - apply on_order_filled_inv in Hstep
      as (_ & Hwin' & [(_ & _ & ->) | (t & o & _ & _ & _ & _ & Hcmd & _)]).
    + split; [congruence | done].
    + split; [congruence |].
      apply (logs_zero_app e _ [SubmitOrder o]); [done | | done].
      intros ? ? ? Hin%list_elem_of_singleton. done.
  - injection Hstep as <- <-. split; [done |].
    apply (logs_zero_app e _
             [LogStatistics (total_trades s) (win_rate_percent s) (total_pnl s);
              CancelAllOrders]); [| | done].
    + unfold issue. simpl. by rewrite <- !app_assoc.
    + intros t w p Hin.
      apply elem_of_cons in Hin as [Heq | Hin].
      * assert (w = win_rate_percent s) as -> by congruence.
        by apply win_rate_zero.
      * apply list_elem_of_singleton in Hin. done.
  - injection Hstep as <- <-. done.
Qed.

Lemma run_cons `{Libm} (cb : callback) (rest : list callback)
    (st : GridStrategy * Engine) :
  run (cb :: rest) st = dispatch cb st ≫= run rest.
Proof. done. Qed.

Lemma run_cons_inv `{Libm} (cb : callback) (rest : list callback)
    (s s' : GridStrategy) (e e' : Engine) :
  run (cb :: rest) (s, e) = Some (s', e') →
  ∃ s1 e1, dispatch cb (s, e) = Some (s1, e1)
           ∧ run rest (s1, e1) = Some (s', e').
Proof.
  rewrite run_cons. destruct (dispatch cb (s, e)) as [[s1 e1] |]; [| done].
  intros Hrest. by exists s1, e1.
Qed.

Lemma run_win_rate `{Libm} (cbs : list callback) (s s' : GridStrategy)
    (e e' : Engine) :
  run cbs (s, e) = Some (s', e') →
  winning_trades s = 0%Z → logs_zero_win_rate e →
  winning_trades s' = 0%Z ∧ logs_zero_win_rate e'.
Proof.
  revert s e. induction cbs as [| cb rest IH]; intros s e Hrun Hwin Hlog.
  - simpl in Hrun. by simplify_eq.
  - apply run_cons_inv in Hrun as (s1 & e1 & Hstep & Hrun).
    destruct (dispatch_win_rate cb s s1 e e1 Hstep Hwin Hlog) as [Hwin1 Hlog1].
    by apply (IH s1 e1).
Qed.

(** C4.  In every execution of the grid strategy, whatever callbacks
    the platform delivers from the construction on, [winning_trades] is
    zero, so is the win rate [winning_trades / max(total_trades, 1)]
    (in percent), every statistics line logged so far reports zero, and
    the line [on_stop] would log now reports zero too. *)
Theorem win_rate_always_zero `{Libm} (c : GridStrategyConfig)
    (cbs : list callback) (s : GridStrategy) (e : Engine) :
  run cbs (__init__ c, new_engine) = Some (s, e) →
  winning_trades s = 0%Z
  ∧ win_rate_percent s = 0
  ∧ logs_zero_win_rate e
  ∧ commands (on_stop s e).2
    = commands e ++ [LogStatistics (total_trades s) 0 (total_pnl s);
                     CancelAllOrders].
Proof.
  intros Hrun.
  destruct (run_win_rate cbs (__init__ c) s new_engine e Hrun) as [Hwin Hlog].
  - done.
  - intros t w p Hin. by apply elem_of_nil in Hin.
  - split; [done |]. split; [by apply win_rate_zero |]. split; [done |].
    unfold on_stop, issue. simpl.
    rewrite (win_rate_zero s Hwin). by rewrite <- app_assoc.
Qed.

(** The theorem on a run of the fine grid with two fills, a quote and a
    stop: two trades are counted and the win rate is zero. *)
Lemma win_rate_always_zero_witness :
  let cbs :=
    Scenario.fine_grid_start
      ++ [OnOrderFilled Scenario.fill_of_order_3;
          OnQuoteTick (mkQuote (dec 999 1) (dec 1000 1));
          OnOrderFilled Scenario.fill_of_order_2; OnStop] in
  let st := Scenario.reached Scenario.fine_grid cbs in
  run (H := coarse_libm) cbs (__init__ Scenario.fine_grid, new_engine) = Some st
  ∧ total_trades st.1 = 2%Z
  ∧ win_rate_percent st.1 = 0
  ∧ logs_zero_win_rate st.2.
Proof.
  intros cbs st.
  assert (run (H := coarse_libm) cbs (__init__ Scenario.fine_grid, new_engine)
          = Some (st.1, st.2)) as Hrun by by_evaluation.
  split; [by_evaluation |]. split; [by_evaluation |].
  destruct (win_rate_always_zero (H := coarse_libm) Scenario.fine_grid cbs
              st.1 st.2 Hrun) as (_ & Hrate & Hlog & _).
  split; [exact Hrate | exact Hlog].
Defined.

(** *** One order per grid price *)











End GridFacts.

(** ** The simple grid strategy *)

Section SimpleGridFacts.
Import Num Numpy Platform Vocabulary SimpleGrid.
Local Open Scope Qc_scope.

Lemma place_loop_skip (cp amount p : Qc) (rest : list Qc) (e : Engine) :
  pyabs (p - cp) < dec 10 1 →
  place_loop cp amount (p :: rest) e = place_loop cp amount rest e.
Proof. intros Hnear. simpl. by rewrite decide_True. Qed.

Lemma place_loop_above (cp amount p : Qc) (rest : list Qc) (e : Engine) :
  ¬ (pyabs (p - cp) < dec 10 1) → ¬ (p < cp) →
  place_loop cp amount (p :: rest) e = place_loop cp amount rest e.
Proof. intros Hfar Hge. simpl. by rewrite !decide_False. Qed.

Lemma place_loop_buy (cp amount p : Qc) (rest : list Qc) (e : Engine) :
  ¬ (pyabs (p - cp) < dec 10 1) → p < cp → p ≠ 0 →
  place_loop cp amount (p :: rest) e
  = place_loop cp amount rest
      (limit_and_submit BUY (format_f 6 (amount / p)) (format_f 2 p) false e).2.
Proof.
  intros Hfar Hlt Hp. simpl.
  rewrite decide_False, decide_True, pydiv_Some by done. done.
Qed.

Lemma place_loop_buys_only (cp amount : Qc) (prices : list Qc) (e e' : Engine) :
  place_loop cp amount prices e = Some e' → buys_only e → buys_only e'.
Proof.
  revert e. induction prices as [| p rest IH]; intros e Hloop Hbuy.
  - simpl in Hloop. by simplify_eq.
  - simpl in Hloop. case_decide; [by apply (IH e) |].
    case_decide; [| by apply (IH e)].
    destruct (pydiv amount p) as [q |]; [| done]. simpl in Hloop.
    apply IH in Hloop; [done |].
    unfold buys_only, submitted. simpl. rewrite omap_app.
    apply Forall_app. split; [done |]. by repeat constructor.
Qed.

Lemma submitted_issue_other (c : command) (e : Engine) :
  (∀ o, c ≠ SubmitOrder o) → submitted (issue c e) = submitted e.
Proof.
  intros Hc. rewrite submitted_issue. destruct c; try by rewrite app_nil_r.
  by destruct (Hc o).
Qed.

Lemma dispatch_buys_only (cb : callback) (s s' : SimpleGridStrategy)
    (e e' : Engine) :
  dispatch cb (s, e) = Some (s', e') → buys_only e → buys_only e'.
Proof.
  intros Hstep Hbuy. destruct cb; simpl in Hstep.
  - unfold on_start in Hstep. destruct (linspace _ _ _); [| done].
    simpl in Hstep. injection Hstep as <- <-.
    unfold buys_only. by rewrite submitted_issue_other.
  - unfold on_quote_tick in Hstep. destruct (orders_placed s).
    + by simplify_eq.
    + destruct (_place_initial_orders _ _ _) as [e1 |] eqn:Hplace; [| done].
      simpl in Hstep. injection Hstep as <- <-.
      unfold _place_initial_orders in Hplace.
      destruct (pydiv _ _) as [amount |]; [| done]. simpl in Hplace.
      by eapply place_loop_buys_only.
  - unfold on_order_filled in Hstep. by simplify_eq.
  - injection Hstep as <- <-.
    unfold buys_only. by rewrite submitted_issue_other.
  - by simplify_eq.
Qed.

Lemma run_buys_only (cbs : list callback) (s s' : SimpleGridStrategy)
    (e e' : Engine) :
  run cbs (s, e) = Some (s', e') → buys_only e → buys_only e'.
Proof.
  revert s e. induction cbs as [| cb rest IH]; intros s e Hrun Hbuy.
  - simpl in Hrun. by simplify_eq.
  - change (run (cb :: rest) (s, e)) with (dispatch cb (s, e) ≫= run rest)
      in Hrun.
    destruct (dispatch cb (s, e)) as [[s1 e1] |] eqn:Hstep; [| done].
    simpl in Hrun. apply (IH s1 e1 Hrun). by eapply dispatch_buys_only.
Qed.

(** Once the orders are placed, quotes and fills change nothing. *)
Lemma run_after_placement (cbs : list callback) (s s' : SimpleGridStrategy)
    (e e' : Engine) :
  Forall quote_or_fill cbs → orders_placed s = true →
  run cbs (s, e) = Some (s', e') → s' = s ∧ e' = e.
Proof.
  intros Hcbs. revert s e.
  induction Hcbs as [| cb rest Hcb _ IH]; intros s e Hplaced Hrun.
  - simpl in Hrun. by simplify_eq.
  - change (run (cb :: rest) (s, e)) with (dispatch cb (s, e) ≫= run rest)
      in Hrun.
    destruct cb; try done; simpl in Hrun.
    + unfold on_quote_tick in Hrun. rewrite Hplaced in Hrun.
      simpl in Hrun. by apply IH.
    + by apply IH.
Qed.

Lemma linspace_five_levels :
  linspace (dec 41500 1) (dec 42500 1) 5
  = Some [dec 41500 1; dec 41750 1; dec 42000 1; dec 42250 1; dec 42500 1].
Proof. by_evaluation. Qed.

(** C6.  With [upper=42500], [lower=41500] and five levels, whatever
    the capital, [on_start] computes the grid prices 41500, 41750,
    42000, 42250, 42500; a first quote of mid price 42000 submits exactly
    two orders, BUY limit orders at 41500 and 41750 for the quantities
    [capital / 5 / price] rendered at six decimals; the quotes and fills
    that follow submit nothing more; and in every run of the strategy,
    from any configuration, every submitted order is a BUY order. *)
Theorem simple_grid_two_buys (total : Qc) (tick : QuoteTick) :
  (ask_price tick + bid_price tick) / dec 2 1 = dec 42000 1 →
  let c := mkConfig total (dec 42500 1) (dec 41500 1) 5 in
  let orders :=
    [mkOrder 1 BUY (format_f 6 (total / of_int 5 / dec 41500 1))
       (dec 41500 1) false;
     mkOrder 2 BUY (format_f 6 (total / of_int 5 / dec 41750 1))
       (dec 41750 1) false] in
  ∃ s1 e1 s2 e2,
    on_start (__init__ c) new_engine = Some (s1, e1)
    ∧ grid_prices s1
      = [dec 41500 1; dec 41750 1; dec 42000 1; dec 42250 1; dec 42500 1]
    ∧ submitted e1 = []
    ∧ on_quote_tick tick s1 e1 = Some (s2, e2)
    ∧ submitted e2 = orders
    ∧ (∀ cbs s e,
         Forall quote_or_fill cbs → run cbs (s2, e2) = Some (s, e) →
         submitted e = orders)
    ∧ (∀ c' cbs s e,
         run cbs (__init__ c', new_engine) = Some (s, e) → buys_only e).
Proof.
  intros Hmid c orders.
  eexists _, _, _, _. split.
  { unfold on_start, __init__, c.
    cbn [config cfg_lower_price cfg_upper_price cfg_grid_levels].
    rewrite linspace_five_levels. reflexivity. }
  split; [done |]. split; [done |].
  assert (on_quote_tick tick
    {| config := c;
       grid_prices :=
         [dec 41500 1; dec 41750 1; dec 42000 1; dec 42250 1; dec 42500 1];
       orders_placed := false |} (issue SubscribeQuoteTicks new_engine)
    = Some
        ({| config := c;
            grid_prices :=
              [dec 41500 1; dec 41750 1; dec 42000 1; dec 42250 1; dec 42500 1];
            orders_placed := true |},
         mkEngine 2 ([SubscribeQuoteTicks] ++ (SubmitOrder <$> orders))))
    as Hquote.
  { unfold on_quote_tick, _place_initial_orders.
    cbn [orders_placed config grid_prices cfg_total_amount cfg_grid_levels c].
    rewrite Hmid, pydiv_Some by (apply of_int_nonzero; lia).
    cbn [mbind option_bind].
    rewrite place_loop_buy by by_evaluation.
    rewrite place_loop_buy by by_evaluation.
    rewrite place_loop_skip by by_evaluation.
    rewrite place_loop_above by by_evaluation.
    rewrite place_loop_above by by_evaluation.
    cbn [place_loop mbind option_bind].
    replace (format_f 2 (dec 41500 1)) with (dec 41500 1) by by_evaluation.
    replace (format_f 2 (dec 41750 1)) with (dec 41750 1) by by_evaluation.
    reflexivity. }
  split; [exact Hquote |]. split; [done |]. split.
  - intros cbs s e Hcbs Hrun.
    apply run_after_placement in Hrun as [_ ->]; done.
  - intros c' cbs s e Hrun.
    apply (run_buys_only cbs _ _ _ _ Hrun). constructor.
Qed.

(** The theorem for a capital of 1000 and the quote 41999.5 / 42000.5:
    the quantities are 0.004819 and 0.004790. *)
Lemma simple_grid_two_buys_witness :
  let tick := mkQuote (dec 419995 10) (dec 420005 10) in
  let c := mkConfig (dec 1000 1) (dec 42500 1) (dec 41500 1) 5 in
  (ask_price tick + bid_price tick) / dec 2 1 = dec 42000 1
  ∧ ∃ s1 e1 s2 e2,
      on_start (__init__ c) new_engine = Some (s1, e1)
      ∧ on_quote_tick tick s1 e1 = Some (s2, e2)
      ∧ submitted e2
        = [mkOrder 1 BUY (dec 4819 1000000) (dec 41500 1) false;
           mkOrder 2 BUY (dec 4790 1000000) (dec 41750 1) false].
Proof.
  intros tick c.
  assert ((ask_price tick + bid_price tick) / dec 2 1 = dec 42000 1) as Hmid
    by by_evaluation.
  split; [exact Hmid |].
  destruct (simple_grid_two_buys (dec 1000 1) tick Hmid)
    as (s1 & e1 & s2 & e2 & Hstart & _ & _ & Hquote & Hsub & _).
  exists s1, e1, s2, e2. split; [exact Hstart |]. split; [exact Hquote |].
  rewrite Hsub. by_evaluation.
Defined.

End SimpleGridFacts.

(** ** The synthetic quote generator *)

Section PrepareDataFacts.
Import Num Numpy PrepareData.
Local Open Scope Qc_scope.

Lemma length_cumsum_from (acc : Qc) (l : list Qc) :
  length (cumsum_from acc l) = length l.
Proof. revert acc. induction l as [| x r IH]; intros acc; simpl; auto. Qed.

Lemma length_draw (f : nat → Qc) (n : nat) : length (draw f n) = n.
Proof. unfold draw. by rewrite length_fmap, length_seq. Qed.

Lemma date_range_one_day (now : Z) :
  date_range (now - timedelta_days 1) now
  = (λ k, now - timedelta_days 1 + k * freq_30s)%Z <$> seqZ 0 2881.
Proof.
  unfold date_range.
  destruct (Z.ltb_spec now (now - timedelta_days 1)) as [Hlt | _].
  - unfold timedelta_days, microseconds_per_second in Hlt. lia.
  - replace (now - (now - timedelta_days 1))%Z with (timedelta_days 1) by lia.
    done.
Qed.

Lemma fmap_zip_with_zip {A B C D E} (g : E → A) (F : A * B → C * D → E)
    (ts : list A) (ps : list B) (xs : list C) (ys : list D) :
  (∀ t p x y, g (F (t, p) (x, y)) = t) →
  (length ts ≤ length ps)%nat → (length ts ≤ length xs)%nat →
  (length ts ≤ length ys)%nat →
  g <$> zip_with F (zip ts ps) (zip xs ys) = ts.
Proof.
  intros Hg. revert ps xs ys.
  induction ts as [| t ts IH]; intros ps xs ys Hp Hx Hy; [done |].
  destruct ps as [| p ps], xs as [| x xs], ys as [| y ys];
    simpl in *; try lia.
  rewrite Hg. f_equal. apply IH; lia.
Qed.

(** The table as first constructed: one row per timestamp, bid and ask
    half a spread below and above a common price. *)
Lemma constructed_frame_rows `{Libm} (symbol : string) (days now : Z)
    (rng : Draws) :
  let spread := if decide (symbol = "EURUSD") then dec 1 10000 else dec 1 1 in
  let ts := date_range (now - timedelta_days days) now in
  (constructed_frame symbol days now rng).1 = ts
  ∧ timestamp <$> (constructed_frame symbol days now rng).2 = ts
  ∧ Forall (λ r, ∃ p, bid_price r = p - spread / dec 2 1
                      ∧ ask_price r = p + spread / dec 2 1)
      (constructed_frame symbol days now rng).2.
Proof.
  intros spread ts. unfold constructed_frame. fold ts.
  set (n := length ts).
  destruct (decide (symbol = "BTCUSDT")) as [Hsym | Hsym]; simpl.
  all: split; [done |].
  all: assert (length (default [] (linspace 0 (dec 4 1 * np_pi) (Z.of_nat n))) = n)
         as Hcycle
         by (destruct (linspace_is_Some 0 (dec 4 1 * np_pi) (Z.of_nat n))
               as [l Hl]; [lia |];
             rewrite Hl; simpl;
             rewrite (linspace_length _ _ _ _ Hl); lia).
  all: split.
  1, 3: apply fmap_zip_with_zip; [done | | |]; unfold cumsum;
    rewrite ?length_zip_with, ?length_fmap, ?length_cumsum_from,
      ?length_draw, ?Hcycle; fold n; lia.
  all: apply Forall_lookup; intros i r Hr;
    apply lookup_zip_with_Some in Hr as ([t p] & [bs a] & -> & _ & _);
    by exists p.
Qed.

(** C7.  For the symbol BTCUSDT and [days=1], whatever the time of the
    call and the random draws, [generate_forex_data] returns
    [86400 / 30 + 1 = 2881] rows; their timestamps are 30 seconds apart,
    the first one a day before the time of the call and the last one at
    the time of the call; and in every row of the table as first
    constructed, before the session noise, the ask price is the bid
    price plus the spread 1.0, so the bid is below the ask. *)
Theorem btc_one_day_of_quotes `{Libm} (now : Z) (rng : Draws) :
  let result := generate_forex_data "BTCUSDT" 1 now rng in
  let constructed := (constructed_frame "BTCUSDT" 1 now rng).2 in
  (86400 / 30 + 1 = 2881)%Z
  ∧ length result.2 = 2881%nat
  ∧ length result.1 = 2881%nat
  ∧ timestamp <$> result.2 = result.1
  ∧ result.1 = (λ k, now - timedelta_days 1 + k * freq_30s)%Z <$> seqZ 0 2881
  ∧ head result.1 = Some (now - timedelta_days 1)%Z
  ∧ last result.1 = Some now
  ∧ result.2 = adjust_prices rng constructed
  ∧ Forall (λ r, ask_price r = bid_price r + dec 1 1
                 ∧ bid_price r < ask_price r) constructed.
Proof.
  intros result constructed.
  destruct (constructed_frame_rows "BTCUSDT" 1 now rng) as (Hts & Hdf & Hrows).
  rewrite date_range_one_day in Hts, Hdf. fold constructed in Hdf, Hrows.
  assert (result = ((constructed_frame "BTCUSDT" 1 now rng).1,
                    adjust_prices rng constructed)) as Hresult.
  { unfold result, generate_forex_data, constructed.
    by destruct (constructed_frame "BTCUSDT" 1 now rng). }
  rewrite Hresult. cbn [fst snd]. rewrite Hts.
  assert (timestamp <$> adjust_prices rng constructed = timestamp <$> constructed)
    as Hadj.
  { unfold adjust_prices. rewrite fmap_imap.
    apply list_eq. intros i.
    rewrite list_lookup_imap, list_lookup_fmap. by destruct (_ !! i). }
  split; [done |]. split.
  { unfold adjust_prices. rewrite length_imap.
    rewrite <- (length_fmap timestamp), Hdf, length_fmap, length_seqZ. lia. }
  split; [rewrite length_fmap, length_seqZ; lia |].
  split; [by rewrite Hadj |]. split; [done |]. split.
  { rewrite head_lookup, list_lookup_fmap, lookup_seqZ_lt by lia.
    simpl. f_equal. lia. }
  split.
  { rewrite last_lookup, length_fmap, length_seqZ.
    rewrite list_lookup_fmap, lookup_seqZ_lt by lia.
    simpl. f_equal. unfold timedelta_days, freq_30s, microseconds_per_second.
    lia. }
  split; [done |].
  eapply Forall_impl; [exact Hrows |].
  intros r (p & Hbid & Hask). simpl in Hbid, Hask. rewrite Hbid, Hask.
  split.
  - change (dec 1 1 / dec 2 1) with (dec 1 2). ring_simplify.
    replace (dec 1 1) with (dec 1 2 + dec 1 2) by by_evaluation. ring.
  - apply Qcplus_lt_mono_l. by_evaluation.
Qed.

End PrepareDataFacts.

(** ** The multi-source downloader *)

Section MultiSourceFacts.
Import Num Vocabulary MultiSource.




(** CryptoCompare answers with an error and CoinGecko with no rows;
    Kraken has one bar: Coinbase is not asked, and the files are written
    from the bar of Kraken. *)
Example fallback_to_kraken :
  let bar := mkKr 1700000000 (dec 42000 1) (dec 42010 1) (dec 41990 1)
               (dec 42005 1) (dec 42001 1) (dec 3 1) 17 in
  main (mkNetwork None (Some []) (Some [bar]) None)
  = [MakeDirs "nautilus_data/historical"; Request CryptoCompare; Sleep 1;
     Request CoinGecko; Request Kraken]
    ++ ((λ f, WriteFile f.1 f.2) <$> output_files (convert_kraken_to_df [bar])).
Proof. by_evaluation. Qed.

End MultiSourceFacts.

(** ** The real-data backtest *)

Section RealBacktestFacts.
Import Num Vocabulary RealBacktest.
Local Open Scope Qc_scope.

Lemma pymin_spec (a b : Qc) :
  pymin a b ≤ a ∧ pymin a b ≤ b ∧ (pymin a b = a ∨ pymin a b = b).
Proof.
  unfold pymin. case_decide as Hlt.
  - split; [by apply Qclt_le_weak |]. split; [apply Qcle_refl | by right].
  - split; [apply Qcle_refl |]. split; [by apply Qcnot_lt_le | by left].
Qed.




End RealBacktestFacts.

(** ** The live launcher *)

Section LauncherFacts.
Import Vocabulary Launcher.

Lemma lower_ascii_y (a : ascii) :
  lower_ascii a = "y"%char → a = "y"%char ∨ a = "Y"%char.
Proof.
  destruct a as [[] [] [] [] [] [] [] []]; vm_compute; intros Ha;
    try discriminate Ha; auto.
Qed.

Lemma lower_ascii_e (a : ascii) :
  lower_ascii a = "e"%char → a = "e"%char ∨ a = "E"%char.
Proof.
  destruct a as [[] [] [] [] [] [] [] []]; vm_compute; intros Ha;
    try discriminate Ha; auto.
Qed.

Lemma lower_ascii_s (a : ascii) :
  lower_ascii a = "s"%char → a = "s"%char ∨ a = "S"%char.
Proof.
  destruct a as [[] [] [] [] [] [] [] []]; vm_compute; intros Ha;
    try discriminate Ha; auto.
Qed.

Lemma lower_yes (s : string) : lower s = "yes" ↔ s ∈ spellings_of_yes.
Proof.
  split.
  - destruct s as [| a [| b [| c [| d r]]]]; simpl; intros Hs;
      try discriminate Hs.
    injection Hs as Ha Hb Hc.
    apply lower_ascii_y in Ha as [-> | ->];
      apply lower_ascii_e in Hb as [-> | ->];
      apply lower_ascii_s in Hc as [-> | ->];
      by_evaluation.
  - unfold spellings_of_yes. intros Hs.
    repeat (apply elem_of_cons in Hs as [-> | Hs]; [done |]).
    by apply elem_of_nil in Hs.
Qed.

(** C3, amended.  On the mainnet path the typed line is compared after
    [lower()]: when its lower-case form is not [yes], [main] prints the
    warning, reads the line, prints the cancellation and returns, with
    no configuration loading, environment lookup or network work; the
    lines that proceed are the eight spellings of [yes] in upper and
    lower case, and then [main] goes on to check the configuration file
    and, if it exists, to launch. *)
Theorem mainnet_confirmation (args : Args) (w : World) :
  arg_mainnet args = true →
  (lower (typed w) = "yes" ↔ typed w ∈ spellings_of_yes)
  ∧ (lower (typed w) ≠ "yes" →
     main args w = [Print MainnetWarning; Input; Print Cancelled]
     ∧ Forall (λ a, is_launch_work a = false) (main args w))
  ∧ (lower (typed w) = "yes" →
     main args w
     = [Print MainnetWarning; Input; PathExists (arg_config args)]
       ++ (if file_exists w (arg_config args)
           then MakeDirs "logs" :: run_grid_strategy w (arg_config args) false
           else [Print (ConfigMissing (arg_config args))])).
Proof.
  intros Hmainnet. split; [apply lower_yes |]. unfold main. rewrite Hmainnet.
  simpl. split.
  - intros Hno. rewrite decide_True by done. simpl.
    split; [done |]. by repeat constructor.
  - intros Hyes. rewrite decide_False by (by intros []). simpl.
    by destruct (file_exists w (arg_config args)).
Qed.

(** The theorem for the typed line [no], and for [Yes] with the
    configuration file missing. *)
Lemma mainnet_confirmation_witness :
  let args := mkArgs "config/strategies/grid_btcusdt.yaml" true true in
  arg_mainnet args = true
  ∧ main args (mkWorld "no" (λ _, true) (λ _, "secret"))
    = [Print MainnetWarning; Input; Print Cancelled]
  ∧ main args (mkWorld "Yes" (λ _, false) (λ _, "secret"))
    = [Print MainnetWarning; Input; PathExists (arg_config args);
       Print (ConfigMissing (arg_config args))].
Proof.
  intros args. split; [done |]. split.
  - destruct (mainnet_confirmation args
                (mkWorld "no" (λ _, true) (λ _, "secret")) eq_refl)
      as (_ & Hno & _).
    apply Hno. by_evaluation.
  - destruct (mainnet_confirmation args
                (mkWorld "Yes" (λ _, false) (λ _, "secret")) eq_refl)
      as (_ & _ & Hyes).
    apply Hyes. by_evaluation.
Defined.

(** C3 as stated fails: the typed line [YES] is not [yes], and the
    launch goes on to load the configuration, read the credentials and
    run the trading node on the mainnet. *)
Lemma mainnet_confirmation_counterexample :
  let args := mkArgs "config/strategies/grid_btcusdt.yaml" true true in
  let w := mkWorld "YES" (λ _, true) (λ _, "secret") in
  main args w
  = [Print MainnetWarning; Input; PathExists (arg_config args);
     MakeDirs "logs"; Print (Banner (arg_config args) false);
     LoadConfig (arg_config args); Print StrategySummary;
     GetEnv "BYBIT_API_KEY"; GetEnv "BYBIT_API_SECRET";
     RunTradingNode false; Print Stopped]
  ∧ ¬ mainnet_claim args w.
Proof.
  intros args w. split; [by_evaluation |].
  intros Hclaim. assert (typed w ≠ "yes") as Hne by by_evaluation.
  specialize (Hclaim Hne). revert Hclaim. by_evaluation.
Qed.

End LauncherFacts.

(** * Further properties of the code *)

(** ** The grid strategy: set-up *)

Section GridSetupFacts.
Import Num Numpy Platform Vocabulary Further Grid.
Local Open Scope Qc_scope.






End GridSetupFacts.

(** ** The grid strategy: initialisation *)

Section GridInitFacts.
Import Num Numpy Platform Vocabulary Further Grid.
Local Open Scope Qc_scope.

Lemma pydiv_zero (a : Qc) : pydiv a 0 = None.
Proof. unfold pydiv. by rewrite decide_True. Qed.


Lemma calculate_grid_prices_length `{Libm} (s s' : GridStrategy) :
  _calculate_grid_prices s = Some s' →
  ∃ l, s' = set_grid_prices l s
       ∧ length l = Z.to_nat (cfg_grid_levels (config s))
       ∧ (0 ≤ cfg_grid_levels (config s))%Z.
Proof.
  unfold _calculate_grid_prices. intros Hcalc.
  destruct (lower_price s) as [lo |]; [| done].
  destruct (upper_price s) as [up |]; [| done].
  cbn [mbind option_bind] in Hcalc.
  assert (∀ a b l, linspace a b (cfg_grid_levels (config s)) = Some l →
                   (0 ≤ cfg_grid_levels (config s))%Z) as Hnonneg.
  { intros a b l. unfold linspace.
    destruct (cfg_grid_levels (config s) <? 0)%Z eqn:Hneg; [done |].
    intros _. by apply Z.ltb_ge in Hneg. }
  case_decide.
  - destruct (linspace lo up _) as [l |] eqn:Hl; [| done].
    cbn in Hcalc. exists l. split; [congruence |].
    split; [by eapply linspace_length | by eapply Hnonneg].
  - destruct (linspace (np_log lo) (np_log up) _) as [l |] eqn:Hl; [| done].
    cbn in Hcalc. exists (np_exp <$> l). split; [congruence |].
    rewrite length_fmap.
    split; [by eapply linspace_length | by eapply Hnonneg].
Qed.

(** X2.  [_initialize_grid] raises when the configuration has no grid
    level (a negative number is refused by [np.linspace], zero divides
    the capital by zero) and when the cached quote has a mid price of
    zero (the distance test divides by the current price), whatever the
    bounds and the spacing. *)
Theorem initialisation_raises `{Libm} (q : QuoteTick) (s : GridStrategy)
    (e : Engine) :
  (cfg_grid_levels (config s) ≤ 0)%Z ∨ mid_price q = 0 →
  _initialize_grid (Some q) s e = None.
Proof.
  intros Hbad. unfold _initialize_grid.
  fold (mid_price q).
  set (s1 := match upper_price s, lower_price s with
             | Some _, Some _ => s
             | _, _ => _
             end).
  assert (config s1 = config s) as Hcfg.
  { unfold s1. by destruct (upper_price s), (lower_price s). }
  destruct (_calculate_grid_prices s1) as [s2 |] eqn:Hcalc; [| done].
  cbn [mbind option_bind].
  apply calculate_grid_prices_length in Hcalc as (l & -> & Hlen & Hnonneg).
  rewrite Hcfg in Hlen, Hnonneg.
  unfold _setup_initial_orders.
  cbn [config set_grid_prices grid_prices]. rewrite Hcfg.
  destruct (decide (cfg_grid_levels (config s) = 0%Z)) as [H0 | H0].
  - rewrite H0. unfold pydiv. by rewrite decide_True by apply Z2Qc_inj_0.
  - rewrite pydiv_Some by by apply of_int_nonzero.
    cbn [mbind option_bind].
    destruct Hbad as [Hle | Hmid]; [lia |].
    destruct l as [| p rest]; [simpl in Hlen; lia |].
    cbn [setup_loop]. rewrite Hmid. by rewrite (pydiv_zero (pyabs (p - 0))).
Qed.

Lemma initialisation_raises_witness :
  let q := mkQuote (dec (-1) 1) (dec 1 1) in
  let s := __init__ Scenario.fine_grid in
  ((cfg_grid_levels (config s) ≤ 0)%Z ∨ mid_price q = 0)
  ∧ _initialize_grid (H := coarse_libm) (Some q) s new_engine = None.
Proof.
  intros q s.
  assert (H1 : (cfg_grid_levels (config s) ≤ 0)%Z ∨ mid_price q = 0)
    by by_evaluation.
  split; [exact H1 |].
  exact (initialisation_raises (H := coarse_libm) q s new_engine H1).
Defined.






End GridInitFacts.

(** ** The grid strategy: the order book over a run *)

Section GridBookFacts.
Import Num Numpy Platform Vocabulary Further Grid.
Local Open Scope Qc_scope.

Lemma run_app `{Libm} (cbs more : list callback)
    (st : GridStrategy * Engine) :
  run (cbs ++ more) st = run cbs st ≫= run more.
Proof.
  revert st. induction cbs as [| cb cbs IH]; intros st; [done |].
  cbn [app]. rewrite !run_cons.
  destruct (dispatch cb st) as [st' |]; [apply IH | done].
Qed.

Lemma place_grid_order_shape (t : Qc) (side : OrderSide) (amount : Qc)
    (s s' : GridStrategy) (e e' : Engine) :
  _place_grid_order t side amount s e = Some (s', e') →
  s' = set_orders (<[t := S (order_count e)]> (grid_orders s))
         (<[S (order_count e) := t]> (active_orders s)) s
  ∧ e' = mkEngine (S (order_count e))
           (commands e
            ++ [SubmitOrder
                  (mkOrder (S (order_count e)) side
                     (format_f 6 (amount / t)) (format_f 2 t)
                     (cfg_post_only (config s)))]).
Proof.
  unfold _place_grid_order, pydiv. case_decide; [done |].
  cbn. intros Heq. split; congruence.
Qed.

Lemma place_grid_order_books (t : Qc) (side : OrderSide) (amount : Qc)
    (s s' : GridStrategy) (e e' : Engine) :
  _place_grid_order t side amount s e = Some (s', e') →
  ids_bounded s e →
  ids_bounded s' e'
  ∧ (orders_accounted s e → orders_accounted s' e').
Proof.
  intros Hplace Hids.
  apply place_grid_order_shape in Hplace as [-> ->].
  split.
  - intros id p. cbn [active_orders set_orders order_count].
    intros [[<- _] | [_ Hp]]%lookup_insert_Some; [lia |].
    apply Hids in Hp. lia.
  - unfold orders_accounted.
    cbn [active_orders set_orders total_trades]. intros Hacc.
    rewrite map_size_insert_None.
    + unfold submitted in *. cbn [commands].
      rewrite omap_app, length_app. cbn. lia.
    + destruct (active_orders s !! S (order_count e)) as [p |] eqn:Hp;
        [| done].
      apply Hids in Hp. lia.
Qed.

Lemma setup_loop_books (cp amount : Qc) (prices : list Qc)
    (s s' : GridStrategy) (e e' : Engine) :
  setup_loop cp amount prices s e = Some (s', e') →
  ids_bounded s e →
  ids_bounded s' e'
  ∧ (orders_accounted s e → orders_accounted s' e').
Proof.
  revert s e. induction prices as [| p rest IH]; intros s e Hloop Hids.
  - simpl in Hloop.
    by assert (s' = s ∧ e' = e) as [-> ->] by (split; congruence).
  - cbn [setup_loop] in Hloop.
    destruct (pydiv (pyabs (p - cp)) cp) as [r |]; [| done].
    cbn [mbind option_bind] in Hloop.
    assert (∀ side,
      (_place_grid_order p side amount s e
       ≫= λ '(s1, e1), setup_loop cp amount rest s1 e1) = Some (s', e') →
      ids_bounded s' e' ∧ (orders_accounted s e → orders_accounted s' e'))
      as Hplace.
    { intros side Hside.
      destruct (_place_grid_order p side amount s e) as [[s1 e1] |] eqn:Hp;
        [| done].
      cbn [mbind option_bind] in Hside.
      destruct (place_grid_order_books _ _ _ _ _ _ _ Hp Hids) as [Hids1 Hacc1].
      destruct (IH _ _ Hside Hids1) as [Hids' Hacc'].
      split; [done | by intros ?%Hacc1%Hacc']. }
    repeat case_decide; try by apply IH.
    + by apply (Hplace BUY).
    + destruct (pydiv amount p); [| done]. by apply (Hplace SELL).
Qed.

Lemma initialize_grid_books `{Libm} (q : option QuoteTick)
    (s s' : GridStrategy) (e e' : Engine) :
  _initialize_grid q s e = Some (s', e') →
  ids_bounded s e →
  ids_bounded s' e'
  ∧ (orders_accounted s e → orders_accounted s' e').
Proof.
  unfold _initialize_grid. intros Hinit Hids.
  destruct q as [q |].
  - set (s1 := match upper_price s, lower_price s with
               | Some _, Some _ => s
               | _, _ => _
               end) in Hinit.
    assert (active_orders s1 = active_orders s
            ∧ total_trades s1 = total_trades s) as [Hao Htt].
    { unfold s1. by destruct (upper_price s), (lower_price s). }
    destruct (_calculate_grid_prices s1) as [s2 |] eqn:Hcalc; [| done].
    cbn [mbind option_bind] in Hinit.
    apply calculate_grid_prices_inv in Hcalc as [l ->].
    unfold _setup_initial_orders in Hinit.
    destruct (pydiv _ _) as [amount |]; [| done].
    cbn [mbind option_bind] in Hinit.
    apply setup_loop_books in Hinit as [Hids' Hacc'].
    + split; [done |]. intros Hacc. apply Hacc'.
      unfold orders_accounted in *.
      cbn [active_orders total_trades set_grid_prices].
      by rewrite Hao, Htt.
    + intros id p. cbn [active_orders set_grid_prices]. rewrite Hao.
      apply Hids.
  - assert (s' = s ∧ e' = issue (SetTimer "init_grid_retry" 5) e)
      as [-> ->] by (split; congruence).
    split; [done |]. unfold orders_accounted.
    by rewrite submitted_issue, app_nil_r.
Qed.

Lemma on_order_filled_unknown (ev : OrderFilled) (s : GridStrategy)
    (e : Engine) :
  active_orders s !! fill_order_id ev = None →
  on_order_filled ev s e = Some (s, e).
Proof. intros Hid. unfold on_order_filled. by rewrite Hid. Qed.

Lemma on_order_filled_books (ev : OrderFilled) (s s' : GridStrategy)
    (e e' : Engine) :
  on_order_filled ev s e = Some (s', e') →
  ids_bounded s e →
  ids_bounded s' e'
  ∧ (orders_accounted s e → orders_accounted s' e')
  ∧ active_orders s' !! fill_order_id ev = None.
Proof.
  intros Hfill Hids.
  destruct (active_orders s !! fill_order_id ev) as [g |] eqn:Hid.
  - pose proof (Hids _ _ Hid) as Hle.
    rewrite (on_order_filled_active ev s e g Hid) in Hfill.
    cbv zeta in Hfill.
    set (s1 := set_total_trades (total_trades s + 1)
                 (set_orders (grid_orders s)
                    (delete (fill_order_id ev) (active_orders s)) s))
      in Hfill.
    assert (ids_bounded s1 e) as Hids1.
    { intros id p. unfold s1. cbn [active_orders set_total_trades set_orders].
      intros [_ Hp]%lookup_delete_Some. by apply Hids in Hp. }
    assert (orders_accounted s e → orders_accounted s1 e) as Hacc1.
    { unfold orders_accounted, s1.
      cbn [active_orders total_trades set_total_trades set_orders].
      rewrite map_size_delete_Some by done.
      assert (size (active_orders s) ≠ 0%nat).
      { apply map_size_non_empty_iff. intros Hempty.
        by rewrite Hempty, lookup_empty in Hid. }
      lia. }
    assert (active_orders s1 !! fill_order_id ev = None) as Hgone.
    { unfold s1. cbn [active_orders set_total_trades set_orders].
      apply lookup_delete_eq. }
    assert (∀ t side amount,
      _place_grid_order t side amount s1 e = Some (s', e') →
      ids_bounded s' e'
      ∧ (orders_accounted s e → orders_accounted s' e')
      ∧ active_orders s' !! fill_order_id ev = None) as Hplace.
    { intros t side amount Hp.
      destruct (place_grid_order_books _ _ _ _ _ _ _ Hp Hids1) as [Hb Ha].
      split; [done |]. split; [by intros ?%Hacc1%Ha |].
      apply place_grid_order_shape in Hp as [-> _].
      cbn [active_orders set_orders].
      rewrite lookup_insert_ne by lia. done. }
    assert (Some (s1, e) = Some (s', e') →
      ids_bounded s' e'
      ∧ (orders_accounted s e → orders_accounted s' e')
      ∧ active_orders s' !! fill_order_id ev = None) as Hstay.
    { intros Heq. assert (s' = s1 ∧ e' = e) as [-> ->] by (split; congruence).
      done. }
    destruct (fill_side ev).
    + destruct (truthy _) as [t |]; [by eapply Hplace | by apply Hstay].
    + destruct (truthy _) as [t |]; [by eapply Hplace | by apply Hstay].
  - rewrite on_order_filled_unknown in Hfill by done.
    by assert (s' = s ∧ e' = e) as [-> ->] by (split; congruence).
Qed.

Lemma dispatch_books `{Libm} (cb : callback) (s s' : GridStrategy)
    (e e' : Engine) :
  dispatch cb (s, e) = Some (s', e') →
  ids_bounded s e →
  ids_bounded s' e'
  ∧ (no_reset cb → orders_accounted s e → orders_accounted s' e').
Proof.
  intros Hstep Hids. destruct cb; cbn [dispatch] in Hstep.
  - unfold on_start in Hstep.
    assert (s' = s ∧ e' = issue (SetTimer "init_grid" 2)
                            (issue SubscribeTradeTicks
                               (issue SubscribeQuoteTicks e)))
      as [-> ->] by (split; congruence).
    split; [done |]. intros _. unfold orders_accounted.
    by rewrite !submitted_issue, !app_nil_r.
  - destruct (initialize_grid_books _ _ _ _ _ Hstep Hids). by split.
  - apply on_quote_tick_inv in Hstep as [-> ->]. by split.
  - destruct (on_order_filled_books _ _ _ _ _ Hstep Hids) as (? & ? & _).
    by split.
  - unfold on_stop in Hstep.
    assert (s' = s ∧ e' = issue CancelAllOrders
                            (issue (LogStatistics (total_trades s)
                                      (win_rate_percent s) (total_pnl s)) e))
      as [-> ->] by (split; congruence).
    split; [done |]. intros _. unfold orders_accounted.
    by rewrite !submitted_issue, !app_nil_r.
  - assert (s' = reset s ∧ e' = e) as [-> ->] by (split; congruence).
    split; [| done]. intros id p. cbn [active_orders reset].
    by rewrite lookup_empty.
Qed.

Lemma run_books `{Libm} (cbs : list callback) (s s' : GridStrategy)
    (e e' : Engine) :
  run cbs (s, e) = Some (s', e') →
  ids_bounded s e →
  ids_bounded s' e'
  ∧ (Forall no_reset cbs → orders_accounted s e → orders_accounted s' e').
Proof.
  revert s e. induction cbs as [| cb cbs IH]; intros s e Hrun Hids.
  - simpl in Hrun.
    by assert (s' = s ∧ e' = e) as [-> ->] by (split; congruence).
  - apply run_cons_inv in Hrun as (s1 & e1 & Hstep & Hrun).
    destruct (dispatch_books _ _ _ _ _ Hstep Hids) as [Hids1 Hacc1].
    destruct (IH _ _ Hrun Hids1) as [Hids' Hacc'].
    split; [done |].
    intros [Hcb Hcbs]%Forall_cons Hacc. by apply Hacc', Hacc1.
Qed.

Lemma fresh_books (c : GridStrategyConfig) :
  ids_bounded (__init__ c) new_engine
  ∧ orders_accounted (__init__ c) new_engine.
Proof.
  split; [| done]. intros id p. cbn [active_orders __init__].
  by rewrite lookup_empty.
Qed.

(** X5.  A fill event that is delivered twice (or the second partial
    fill of an order) has no effect the second time: after any run from
    a fresh strategy, handling the same [OrderFilled] twice leaves the
    very state and commands of handling it once.  Only the first fill
    event of an order is counted and answered by a counter order. *)
Theorem repeated_fill_ignored `{Libm} (c : GridStrategyConfig)
    (cbs : list callback) (ev : OrderFilled) :
  run (cbs ++ [OnOrderFilled ev; OnOrderFilled ev]) (__init__ c, new_engine)
  = run (cbs ++ [OnOrderFilled ev]) (__init__ c, new_engine).
Proof.
  rewrite !run_app.
  destruct (run cbs (__init__ c, new_engine)) as [[s e] |] eqn:Hrun; [| done].
  cbn [mbind option_bind]. rewrite !run_cons. cbn [dispatch].
  destruct (on_order_filled ev s e) as [[s' e'] |] eqn:Hfill; [| done].
  cbn [mbind option_bind]. rewrite run_cons. cbn [dispatch].
  destruct (run_books _ _ _ _ _ Hrun (proj1 (fresh_books c))) as [Hids _].
  destruct (on_order_filled_books _ _ _ _ _ Hfill Hids) as (_ & _ & Hgone).
  by rewrite (on_order_filled_unknown ev s' e' Hgone).
Qed.

(** X6.  Book keeping.  In a run from a fresh strategy without [reset],
    every order the strategy has submitted is either still in
    [active_orders] or was counted in [total_trades]: the two numbers
    add up to the number of submitted orders, and every active order
    carries an identifier the order factory has issued. *)
Theorem orders_active_or_traded `{Libm} (c : GridStrategyConfig)
    (cbs : list callback) (s : GridStrategy) (e : Engine) :
  Forall no_reset cbs →
  run cbs (__init__ c, new_engine) = Some (s, e) →
  orders_accounted s e ∧ ids_bounded s e.
Proof.
  intros Hcbs Hrun.
  destruct (fresh_books c) as [Hids Hacc].
  destruct (run_books _ _ _ _ _ Hrun Hids) as [Hids' Hacc'].
  split; [by apply Hacc' | done].
Qed.

Lemma orders_active_or_traded_witness :
  let cbs :=
    Scenario.fine_grid_start
      ++ [OnOrderFilled Scenario.fill_of_order_3;
          OnOrderFilled Scenario.fill_of_order_3;
          OnOrderFilled Scenario.fill_of_order_2] in
  let st := Scenario.reached Scenario.fine_grid cbs in
  Forall no_reset cbs
  ∧ run (H := coarse_libm) cbs (__init__ Scenario.fine_grid, new_engine)
    = Some st
  ∧ size (active_orders st.1) = 4%nat
  ∧ total_trades st.1 = 2%Z
  ∧ length (submitted st.2) = 6%nat
  ∧ orders_accounted st.1 st.2.
Proof.
  intros cbs st.
  assert (Forall no_reset cbs) as H1 by (repeat constructor).
  assert (run (H := coarse_libm) cbs (__init__ Scenario.fine_grid, new_engine)
          = Some (st.1, st.2)) as H2 by by_evaluation.
  split; [exact H1 |]. split; [by_evaluation |].
  split; [by_evaluation |]. split; [by_evaluation |]. split; [by_evaluation |].
  exact (proj1 (orders_active_or_traded (H := coarse_libm) Scenario.fine_grid
                  cbs st.1 st.2 H1 H2)).
Defined.

End GridBookFacts.

(** ** The grid strategy: quotes before the set-up, and reset *)

Section GridEdgeFacts.
Import Num Numpy Platform Vocabulary Further Grid.
Local Open Scope Qc_scope.

Lemma place_grid_order_bounds (t : Qc) (side : OrderSide) (amount : Qc)
    (s s' : GridStrategy) (e e' : Engine) :
  _place_grid_order t side amount s e = Some (s', e') →
  upper_price s' = upper_price s ∧ lower_price s' = lower_price s.
Proof. by intros [-> _]%place_grid_order_shape. Qed.

Lemma on_order_filled_bounds (ev : OrderFilled) (s s' : GridStrategy)
    (e e' : Engine) :
  on_order_filled ev s e = Some (s', e') →
  upper_price s' = upper_price s ∧ lower_price s' = lower_price s.
Proof.
  intros Hfill.
  destruct (active_orders s !! fill_order_id ev) as [g |] eqn:Hid.
  - rewrite (on_order_filled_active ev s e g Hid) in Hfill.
    cbv zeta in Hfill.
    destruct (fill_side ev), (truthy _);
      first [by apply place_grid_order_bounds in Hfill
            | by assert (s' = set_total_trades (total_trades s + 1)
                                (set_orders (grid_orders s)
                                   (delete (fill_order_id ev)
                                      (active_orders s)) s))
                as -> by congruence].
  - rewrite on_order_filled_unknown in Hfill by done.
    by assert (s' = s) as -> by congruence.
Qed.

Lemma dispatch_before_setup `{Libm} (cb : callback) (s s' : GridStrategy)
    (e e' : Engine) :
  before_setup cb → dispatch cb (s, e) = Some (s', e') →
  upper_price s' = upper_price s ∧ lower_price s' = lower_price s.
Proof.
  intros Hcb Hstep. destruct cb as [| [q |] | t | ev | |]; try done;
    cbn [dispatch _initialize_grid] in Hstep;
    unfold on_start, on_stop in Hstep.
  - by assert (s' = s) as -> by congruence.
  - by assert (s' = s) as -> by congruence.
  - by apply on_quote_tick_inv in Hstep as [-> _].
  - by apply on_order_filled_bounds in Hstep.
  - by assert (s' = s) as -> by congruence.
  - by assert (s' = reset s) as -> by congruence.
Qed.

Lemma run_before_setup `{Libm} (cbs : list callback) (s s' : GridStrategy)
    (e e' : Engine) :
  Forall before_setup cbs → run cbs (s, e) = Some (s', e') →
  upper_price s' = upper_price s ∧ lower_price s' = lower_price s.
Proof.
  intros Hcbs. revert s e.
  induction Hcbs as [| cb cbs Hcb _ IH]; intros s e Hrun.
  - simpl in Hrun. by assert (s' = s) as -> by congruence.
  - apply run_cons_inv in Hrun as (s1 & e1 & Hstep & Hrun).
    destruct (dispatch_before_setup _ _ _ _ _ Hcb Hstep) as [Hup Hlo].
    destruct (IH _ _ Hrun) as [Hup' Hlo']. split; congruence.
Qed.

(** X7.  With the automatic range (no upper price configured), a quote
    that arrives before the grid is set up makes [on_quote_tick] raise:
    the comparison multiplies the unset bound.  Whatever callbacks came
    before, as long as the timer callback has not yet found a cached
    quote, the run ends in an exception at the quote. *)
Theorem quote_before_setup_raises `{Libm} (c : GridStrategyConfig)
    (cbs : list callback) (tick : QuoteTick) :
  cfg_upper_price c = None → Forall before_setup cbs →
  run (cbs ++ [OnQuoteTick tick]) (__init__ c, new_engine) = None.
Proof.
  intros Hunset Hcbs. rewrite run_app.
  destruct (run cbs (__init__ c, new_engine)) as [[s e] |] eqn:Hrun; [| done].
  apply run_before_setup in Hrun as [Hup _]; [| done].
  cbn [mbind option_bind]. rewrite run_cons. cbn [dispatch].
  unfold on_quote_tick. rewrite Hup. cbn [upper_price __init__].
  by rewrite Hunset.
Qed.

Lemma quote_before_setup_raises_witness :
  let c := mkConfig (dec 1000 1) 10 "arithmetic" None None (dec 1 10) true in
  let cbs := [OnStart; InitializeGrid None] in
  cfg_upper_price c = None ∧ Forall before_setup cbs
  ∧ is_Some (run (H := coarse_libm) cbs (__init__ c, new_engine))
  ∧ run (H := coarse_libm)
      (cbs ++ [OnQuoteTick (mkQuote (dec 41999 1) (dec 42001 1))])
      (__init__ c, new_engine) = None.
Proof.
  intros c cbs.
  assert (H1 : cfg_upper_price c = None) by reflexivity.
  assert (H2 : Forall before_setup cbs) by (repeat constructor).
  split; [exact H1 |]. split; [exact H2 |]. split; [by_evaluation |].
  exact (quote_before_setup_raises (H := coarse_libm) c cbs
           (mkQuote (dec 41999 1) (dec 42001 1)) H1 H2).
Defined.

(** X8.  [reset] forgets the orders without cancelling them: it issues
    no command, keeps the grid prices and the bounds (so a later set-up
    does not compute the automatic range anew), and every fill event
    that arrives afterwards, for whatever order, is ignored: no counter
    order, no trade counted. *)
Theorem fills_after_reset_ignored `{Libm} (s : GridStrategy) (e : Engine)
    (evs : list OrderFilled) :
  run (Reset :: (OnOrderFilled <$> evs)) (s, e) = Some (reset s, e)
  ∧ grid_prices (reset s) = grid_prices s
  ∧ upper_price (reset s) = upper_price s
  ∧ lower_price (reset s) = lower_price s
  ∧ total_trades (reset s) = 0%Z.
Proof.
  split; [| done]. rewrite run_cons. cbn [dispatch mbind option_bind].
  induction evs as [| ev evs IH]; [done |].
  cbn [fmap list_fmap]. rewrite run_cons. cbn [dispatch].
  rewrite on_order_filled_unknown
    by (cbn [active_orders reset]; apply lookup_empty).
  exact IH.
Qed.

End GridEdgeFacts.

(** ** The simple grid strategy: the first quote *)

Section SimpleGridOrderFacts.
Import Num Numpy Platform Vocabulary Further SimpleGrid.
Local Open Scope Qc_scope.

Lemma place_loop_orders (cp amount : Qc) (prices : list Qc) (e : Engine) :
  Forall (λ p, buy_level cp p → p ≠ 0) prices →
  ∃ e',
    place_loop cp amount prices e = Some e'
    ∧ commands e'
      = commands e
        ++ (SubmitOrder
              <$> imap (λ i, simple_order amount (S (order_count e + i)))
                    (filter (buy_level cp) prices)).
Proof.
  revert e. induction prices as [| p rest IH]; intros e Hprices.
  - exists e. simpl. by rewrite app_nil_r.
  - apply Forall_cons in Hprices as [Hp Hrest].
    destruct (decide (pyabs (p - cp) < dec 10 1)) as [Hnear | Hfar].
    { rewrite place_loop_skip by done.
      rewrite filter_cons_False by (by intros [? _]). by apply IH. }
    destruct (decide (p < cp)) as [Hlt | Hge].
    + rewrite place_loop_buy by (try done; by apply Hp).
      rewrite filter_cons_True by done.
      destruct (IH (limit_and_submit BUY (format_f 6 (amount / p))
                      (format_f 2 p) false e).2 Hrest) as (e' & Hloop & Hcmd).
      exists e'. split; [exact Hloop |]. rewrite Hcmd.
      cbn [limit_and_submit snd commands order_count].
      rewrite <- app_assoc. f_equal. rewrite imap_cons. cbn [fmap list_fmap].
      unfold simple_order at 2. rewrite Nat.add_0_r.
      change ([?x] ++ ?l) with (x :: l). f_equal. f_equal.
      apply imap_ext. intros i x _. simpl. f_equal. lia.
    + rewrite place_loop_above by done.
      rewrite filter_cons_False by (by intros [_ ?]). by apply IH.
Qed.



End SimpleGridOrderFacts.

(** ** The generated quotes, for any symbol and number of days *)

Section PrepareDataSizeFacts.
Import Num Numpy PrepareData.
Local Open Scope Qc_scope.

Lemma date_range_days (days now : Z) :
  (0 ≤ days)%Z →
  date_range (now - timedelta_days days) now
  = (λ k, now - timedelta_days days + k * freq_30s)%Z
      <$> seqZ 0 (2880 * days + 1).
Proof.
  intros Hdays. unfold date_range.
  destruct (Z.ltb_spec now (now - timedelta_days days)) as [Hlt | _].
  - unfold timedelta_days, microseconds_per_second in Hlt. lia.
  - replace ((now - (now - timedelta_days days)) / freq_30s + 1)%Z
      with (2880 * days + 1)%Z; [done |].
    unfold timedelta_days, freq_30s, microseconds_per_second.
    replace (now - (now - days * 86400 * 1000000))%Z
      with (2880 * days * (30 * 1000000))%Z by lia.
    by rewrite Z.div_mul.
Qed.

Lemma date_range_negative (days now : Z) :
  (days < 0)%Z → date_range (now - timedelta_days days) now = [].
Proof.
  intros Hdays. unfold date_range.
  destruct (Z.ltb_spec now (now - timedelta_days days)) as [_ | Hge]; [done |].
  unfold timedelta_days, microseconds_per_second in Hge. lia.
Qed.

Lemma half_spread (p sp : Qc) : p + sp / dec 2 1 = p - sp / dec 2 1 + sp.
Proof.
  assert (sp / dec 2 1 + sp / dec 2 1 = sp) as Hsp.
  { unfold Qcdiv. rewrite <- Qcmult_plus_distr_r.
    replace (/ dec 2 1 + / dec 2 1) with 1 by by_evaluation.
    apply Qcmult_1_r. }
  transitivity (p - sp / dec 2 1 + (sp / dec 2 1 + sp / dec 2 1)); [ring |].
  by rewrite Hsp.
Qed.

(** X10.  [generate_forex_data] for any symbol and any number of days:
    the table has one row per timestamp, [2880 * days + 1] of them when
    [days] is not negative (one every 30 seconds from [days] before the
    call up to the call itself) and none when it is negative; and in
    the table as first constructed the ask is the bid plus the spread,
    which is 0.0001 for EURUSD and 1.0 for every other symbol, BTCUSDT
    or not. *)
Theorem quotes_for_any_days `{Libm} (symbol : string) (days now : Z)
    (rng : Draws) :
  let result := generate_forex_data symbol days now rng in
  let constructed := (constructed_frame symbol days now rng).2 in
  let spread := if decide (symbol = "EURUSD") then dec 1 10000 else dec 1 1 in
  timestamp <$> result.2 = result.1
  ∧ length result.2 = length result.1
  ∧ length result.1
    = (if (days <? 0)%Z then 0%nat else Z.to_nat (2880 * days + 1))
  ∧ (∀ (i : nat) (t : Z), result.1 !! i = Some t →
       t = (now - timedelta_days days + Z.of_nat i * freq_30s)%Z)
  ∧ ((0 ≤ days)%Z → last result.1 = Some now)
  ∧ Forall (λ r, ask_price r = bid_price r + spread) constructed.
Proof.
  intros result constructed spread.
  destruct (constructed_frame_rows symbol days now rng) as (Hts & Hdf & Hrows).
  fold constructed in Hdf, Hrows.
  assert (result = ((constructed_frame symbol days now rng).1,
                    adjust_prices rng constructed)) as Hresult.
  { unfold result, generate_forex_data, constructed.
    by destruct (constructed_frame symbol days now rng). }
  rewrite Hresult. cbn [fst snd]. rewrite Hts.
  assert (timestamp <$> adjust_prices rng constructed
          = timestamp <$> constructed) as Hadj.
  { unfold adjust_prices. rewrite fmap_imap.
    apply list_eq. intros i.
    rewrite list_lookup_imap, list_lookup_fmap. by destruct (_ !! i). }
  split; [by rewrite Hadj |].
  split.
  { by rewrite <- (length_fmap timestamp), Hadj, Hdf. }
  destruct (Z.ltb_spec days 0) as [Hneg | Hpos].
  - rewrite date_range_negative by done.
    split; [done |]. split; [done |]. split; [lia |].
    eapply Forall_impl; [exact Hrows |].
    intros r (p & Hbid & Hask). cbv beta in Hbid, Hask.
    fold spread in Hbid, Hask.
    rewrite Hbid, Hask. by apply half_spread.
  - rewrite date_range_days by done.
    split; [rewrite length_fmap, length_seqZ; lia |].
    split.
    { intros i t Hi. rewrite list_lookup_fmap in Hi.
      destruct (seqZ 0 (2880 * days + 1) !! i) as [k |] eqn:Hk; [| done].
      apply lookup_seqZ in Hk as [-> _]. cbn in Hi.
      assert (t = now - timedelta_days days + (0 + Z.of_nat i) * freq_30s)%Z
        by congruence.
      lia. }
    split.
    { intros _. rewrite last_lookup, length_fmap, length_seqZ.
      rewrite list_lookup_fmap, lookup_seqZ_lt by lia.
      cbn. f_equal.
      unfold timedelta_days, freq_30s, microseconds_per_second. lia. }
    eapply Forall_impl; [exact Hrows |].
    intros r (p & Hbid & Hask). cbv beta in Hbid, Hask.
    fold spread in Hbid, Hask.
    rewrite Hbid, Hask. by apply half_spread.
Qed.

End PrepareDataSizeFacts.

(** ** Quotes made from bars *)

Section OhlcQuoteFacts.
Import Num Vocabulary MultiSource.
Local Open Scope Qc_scope.

Lemma Qcmult_pos_iff (c k : Qc) : 0 < k → (0 < c * k ↔ 0 < c).
Proof.
  intros Hk. split.
  - intros Hck. apply Qcnot_le_lt. intros Hc.
    apply (Qcle_not_lt (c * k) 0); [| done].
    rewrite <- (Qcmult_0_l k). apply Qcmult_le_compat_r; [done |].
    by apply Qclt_le_weak.
  - intros Hc. rewrite <- (Qcmult_0_l k). by apply Qcmult_lt_compat_r.
Qed.

Lemma around_close (c w : Qc) :
  (c - w / dec 2 1 + (c + w / dec 2 1)) / dec 2 1 = c
  ∧ c + w / dec 2 1 - (c - w / dec 2 1) = w.
Proof.
  assert (∀ x, x / dec 2 1 + x / dec 2 1 = x) as Hhalf.
  { intros x. unfold Qcdiv. rewrite <- Qcmult_plus_distr_r.
    replace (/ dec 2 1 + / dec 2 1) with 1 by by_evaluation.
    apply Qcmult_1_r. }
  split.
  - replace (c - w / dec 2 1 + (c + w / dec 2 1)) with (c + c) by ring.
    unfold Qcdiv. rewrite Qcmult_plus_distr_l. apply (Hhalf c).
  - transitivity (w / dec 2 1 + w / dec 2 1); [ring | apply Hhalf].
Qed.

(** X11.  [create_quote_data_from_ohlc] makes one quote per bar, with
    the bar's timestamp: the bid and the ask lie around the close, their
    mean is the close and their distance is 0.02% of the close, so the
    bid is below the ask exactly when the close is positive; the two
    sizes of a quote are equal. *)
Theorem quotes_around_close (df : list ohlcv) :
  let quotes := create_quote_data_from_ohlc df in
  length quotes = length df
  ∧ q_timestamp <$> quotes = bar_timestamp <$> df
  ∧ ∀ (i : nat) (r : ohlcv) (q : quote),
      df !! i = Some r → quotes !! i = Some q →
      (q_bid_price q + q_ask_price q) / dec 2 1 = close r
      ∧ q_ask_price q - q_bid_price q = close r * dec 2 10000
      ∧ q_bid_size q = q_ask_size q
      ∧ (q_bid_price q < q_ask_price q ↔ 0 < close r).
Proof.
  intros quotes. unfold quotes, create_quote_data_from_ohlc.
  split; [by rewrite length_imap |]. split.
  { rewrite fmap_imap. apply list_eq. intros i.
    rewrite list_lookup_imap, list_lookup_fmap. by destruct (df !! i). }
  intros i r q Hr Hq. rewrite list_lookup_imap, Hr in Hq. cbn in Hq.
  assert (q = mkQuoteRow (bar_timestamp r)
                (close r - close r * dec 2 10000 / dec 2 1)
                (close r + close r * dec 2 10000 / dec 2 1)
                (q_bid_size q) (q_ask_size q)
          ∧ q_bid_size q = q_ask_size q) as [-> Hsize].
  { destruct q. split; cbn; congruence. }
  cbn [q_bid_price q_ask_price q_bid_size q_ask_size] in *.
  destruct (around_close (close r) (close r * dec 2 10000)) as [Hmid Hspread].
  split; [exact Hmid |]. split; [exact Hspread |]. split; [exact Hsize |].
  rewrite Qclt_minus_iff.
  fold (Qcminus (close r + close r * dec 2 10000 / dec 2 1)
          (close r - close r * dec 2 10000 / dec 2 1)).
  rewrite Hspread. apply Qcmult_pos_iff. by_evaluation.
Qed.

Lemma sum_list_zeros {A} (l : list A) :
  sum_list ((λ _, 0) <$> l) = 0.
Proof.
  induction l as [| x l IH]; [done |].
  unfold sum_list in *. cbn [fmap list_fmap foldr]. rewrite IH. ring.
Qed.

(** X12.  Quotes from CoinGecko.  When CryptoCompare gives nothing and
    CoinGecko answers with price points, [main] asks CryptoCompare,
    waits a second, asks CoinGecko and nobody else, and writes three
    files: the bars, whose open, high, low and close all are the price
    and whose volume is zero, and twice the quotes, one per price point,
    around the price, with both sizes at 0.0001 (a tenth of a thousandth,
    the default for a table without volume). *)
Theorem coingecko_quotes (net : Network) (r : cg_row) (rows : list cg_row) :
  has_data (download_cryptocompare_data net) = None →
  download_coingecko_data net = Some (r :: rows) →
  let bars :=
    (λ p : cg_row,
       mkBar (milliseconds (cg_timestamp p)) (cg_price p) (cg_price p)
         (cg_price p) (cg_price p) 0) <$> r :: rows in
  let quotes :=
    (λ p : cg_row,
       mkQuoteRow (milliseconds (cg_timestamp p))
         (cg_price p - cg_price p * dec 2 10000 / dec 2 1)
         (cg_price p + cg_price p * dec 2 10000 / dec 2 1)
         (dec 1 10000) (dec 1 10000)) <$> r :: rows in
  main net
  = [MakeDirs "nautilus_data/historical"; Request CryptoCompare; Sleep 1;
     Request CoinGecko;
     WriteFile ohlc_path (OhlcTable bars);
     WriteFile quote_path (QuoteTable quotes);
     WriteFile parquet_path (QuoteTable quotes)].
Proof.
  intros Hcc Hcg bars quotes. unfold main, attempt.
  rewrite Hcc. cbn [success negb df trace]. rewrite Hcg.
  cbn [has_data success negb df trace].
  change (convert_coingecko_to_df (r :: rows)) with bars.
  assert (create_quote_data_from_ohlc bars = quotes) as Hquotes.
  { unfold create_quote_data_from_ohlc.
    assert (volume <$> bars = (λ _, 0) <$> r :: rows) as ->.
    { unfold bars. rewrite <- list_fmap_compose. done. }
    rewrite sum_list_zeros.
    rewrite decide_False by by_evaluation.
    unfold bars, quotes. rewrite imap_fmap.
    apply list_eq. intros i.
    rewrite list_lookup_imap, list_lookup_fmap.
    destruct ((r :: rows) !! i) as [p |]; [| done].
    cbn. by replace (dec 1 10 * dec 1 1000) with (dec 1 10000)
      by by_evaluation. }
  assert (∃ b bs, bars = b :: bs) as (b & bs & Hb) by (by eexists _, _).
  clearbody bars quotes. rewrite Hb. cbn [app]. by rewrite <- Hb, Hquotes.
Qed.

Lemma coingecko_quotes_witness :
  let net :=
    mkNetwork (Some []) (Some [mkCG 1700000000000 (dec 42000 1)]) None None in
  has_data (download_cryptocompare_data net) = None
  ∧ download_coingecko_data net = Some [mkCG 1700000000000 (dec 42000 1)]
  ∧ main net
    = [MakeDirs "nautilus_data/historical"; Request CryptoCompare; Sleep 1;
       Request CoinGecko;
       WriteFile ohlc_path
         (OhlcTable [mkBar 1700000000000000000 (dec 42000 1) (dec 42000 1)
                       (dec 42000 1) (dec 42000 1) 0]);
       WriteFile quote_path
         (QuoteTable [mkQuoteRow 1700000000000000000 (dec 419958 10)
                        (dec 420042 10) (dec 1 10000) (dec 1 10000)]);
       WriteFile parquet_path
         (QuoteTable [mkQuoteRow 1700000000000000000 (dec 419958 10)
                        (dec 420042 10) (dec 1 10000) (dec 1 10000)])].
Proof.
  intros net.
  assert (H1 : has_data (download_cryptocompare_data net) = None)
    by reflexivity.
  assert (H2 : download_coingecko_data net
               = Some [mkCG 1700000000000 (dec 42000 1)]) by reflexivity.
  split; [exact H1 |]. split; [exact H2 |].
  rewrite (coingecko_quotes net (mkCG 1700000000000 (dec 42000 1)) [] H1 H2).
  by_evaluation.
Defined.

End OhlcQuoteFacts.

(** ** The launcher: when the trading node runs *)

Section LauncherLaunchFacts.
Import Vocabulary Launcher.



End LauncherLaunchFacts.

(** ** Quotes made from Binance bars *)

Section BinanceQuoteFacts.
Import Num Vocabulary Further Binance.
Local Open Scope Qc_scope.

Lemma clip_bounds (lower upper x : Qc) :
  lower ≤ upper → lower ≤ clip lower upper x ∧ clip lower upper x ≤ upper.
Proof.
  intros Hle. unfold clip. repeat case_decide.
  - split; [apply Qcle_refl | done].
  - split; [done | apply Qcle_refl].
  - split; by apply Qcnot_lt_le.
Qed.

Lemma rolling_mean_60_short (l : list Qc) (i : nat) :
  (i < 59)%nat → rolling_mean_60 l i = None.
Proof. intros Hi. unfold rolling_mean_60. by rewrite decide_False by lia. Qed.

(** X14.  [create_quote_ticks_from_klines] makes one quote per bar, with
    the bar's timestamp (its opening time, as [klines_to_dataframe] sets
    it), around the close: the mean of bid and ask is
    the close, and whatever the bars contain their distance is clipped
    into [[0.5, 5.0]], so the bid is always below the ask; the two sizes
    are equal.  For a table of fewer than sixty bars the rolling means
    are never available: every quote then has the same spread, made
    from the mean range of all bars, and the same size, a thousandth of
    the mean volume. *)
Theorem quotes_from_klines (df : list bar) :
  let quotes := create_quote_ticks_from_klines df in
  let ranges := (λ r, k_high (columns r) - k_low (columns r)) <$> df in
  let volumes := (λ r, k_volume (columns r)) <$> df in
  length quotes = length df
  ∧ q_timestamp <$> quotes = timestamp <$> df
  ∧ (∀ (i : nat) (r : bar) (q : quote),
       df !! i = Some r → quotes !! i = Some q →
       (bid_price q + ask_price q) / dec 2 1 = k_close (columns r)
       ∧ dec 5 10 ≤ ask_price q - bid_price q
       ∧ ask_price q - bid_price q ≤ dec 5 1
       ∧ bid_price q < ask_price q
       ∧ bid_size q = ask_size q)
  ∧ ((length df < 60)%nat →
     Forall (λ q,
         ask_price q - bid_price q
         = clip (dec 5 10) (dec 5 1) (series_mean ranges * dec 15 1000)
         ∧ bid_size q = series_mean volumes * dec 1 1000) quotes)
  ∧ (∀ klines : list kline,
       q_timestamp
         <$> create_quote_ticks_from_klines (klines_to_dataframe klines)
       = (λ k, open_time k * 1000000)%Z <$> klines).
Proof.
  intros quotes ranges volumes.
  assert (∀ table, q_timestamp <$> create_quote_ticks_from_klines table
                   = timestamp <$> table) as Htimes.
  { intros table. unfold create_quote_ticks_from_klines.
    rewrite fmap_imap. apply list_eq. intros i.
    rewrite list_lookup_imap, list_lookup_fmap. by destruct (table !! i). }
  unfold quotes.
  split; [unfold create_quote_ticks_from_klines; by rewrite length_imap |].
  split; [apply Htimes |].
  split; [| split];
    [| | intros klines; rewrite Htimes; unfold klines_to_dataframe;
         by rewrite <- list_fmap_compose];
    unfold create_quote_ticks_from_klines; fold ranges volumes.
  - intros i r q Hr Hq. rewrite list_lookup_imap, Hr in Hq. cbn in Hq.
    set (w := clip (dec 5 10) (dec 5 1)
                (default (series_mean ranges) (rolling_mean_60 ranges i)
                 * dec 15 1000)) in Hq.
    assert (q = mkQuoteRow (timestamp r) (k_close (columns r) - w / dec 2 1)
                  (k_close (columns r) + w / dec 2 1)
                  (bid_size q) (ask_size q)
            ∧ bid_size q = ask_size q) as [-> Hsize].
    { destruct q. split; cbn; congruence. }
    cbn [bid_price ask_price bid_size ask_size] in *.
    destruct (around_close (k_close (columns r)) w) as [Hmid Hspread].
    destruct (clip_bounds (dec 5 10) (dec 5 1)
                (default (series_mean ranges) (rolling_mean_60 ranges i)
                 * dec 15 1000)) as [Hlo Hhi]; [by_evaluation |].
    fold w in Hlo, Hhi.
    split; [exact Hmid |]. rewrite Hspread.
    split; [exact Hlo |]. split; [exact Hhi |]. split; [| exact Hsize].
    rewrite Qclt_minus_iff.
    fold (Qcminus (k_close (columns r) + w / dec 2 1)
            (k_close (columns r) - w / dec 2 1)).
    rewrite Hspread.
    apply Qclt_le_trans with (dec 5 10); [by_evaluation | done].
  - intros Hshort. apply Forall_lookup. intros i q Hq.
    rewrite list_lookup_imap in Hq.
    destruct (df !! i) as [r |] eqn:Hr; [| done]. cbn in Hq.
    assert (i < 59)%nat as Hi by (apply lookup_lt_Some in Hr; lia).
    rewrite !rolling_mean_60_short in Hq by done. cbn [default] in Hq.
    set (w := clip (dec 5 10) (dec 5 1) (series_mean ranges * dec 15 1000))
      in *.
    assert (q = mkQuoteRow (timestamp r) (k_close (columns r) - w / dec 2 1)
                  (k_close (columns r) + w / dec 2 1)
                  (series_mean volumes * dec 1 1000)
                  (series_mean volumes * dec 1 1000)) as -> by congruence.
    cbn [bid_price ask_price bid_size].
    split; [| done]. apply around_close.
Qed.

End BinanceQuoteFacts.

(** ** The paging loop of the Binance download *)

Section BinanceLoopFacts.
Import Num Vocabulary Further Binance.

Lemma increasing_app (l1 l2 : list Z) :
  increasing l1 → increasing l2 →
  (∀ x y, x ∈ l1 → y ∈ l2 → x < y) →
  increasing (l1 ++ l2).
Proof.
  intros H1 H2 Hcross i j x y Hij Hi Hj.
  apply lookup_app_Some in Hi as [Hi | [Hlen Hi]];
    apply lookup_app_Some in Hj as [Hj | [Hlen' Hj]].
  - by eapply H1.
  - eapply Hcross; by eapply list_elem_of_lookup_2.
  - apply lookup_lt_Some in Hj. lia.
  - eapply (H2 (i - length l1)%nat (j - length l1)%nat); [lia | done | done].
Qed.

Lemma increasing_last (l : list Z) (d x : Z) :
  increasing l → x ∈ l → x ≤ List.last l d.
Proof.
  intros Hinc [i Hi]%list_elem_of_lookup.
  assert (l ≠ []) as Hne by (by intros ->).
  destruct (last l) as [y |] eqn:Hlast;
    [| by apply last_None in Hlast].
  assert (List.last l d = y) as ->.
  { clear -Hlast. revert y Hlast. induction l as [| a [| b l] IH]; intros y Hy.
    - done.
    - cbn in *. congruence.
    - cbn [List.last]. apply IH. exact Hy. }
  rewrite last_lookup in Hlast.
  destruct (decide (i = pred (length l))) as [-> | Hneq].
  - assert (x = y) by congruence. lia.
  - apply lookup_lt_Some in Hi as Hlt.
    assert (x < y); [| lia].
    eapply (Hinc i (pred (length l))); [lia | done | done].
Qed.

Lemma last_fmap_open_time (k : kline) (ks : list kline) :
  List.last (open_time <$> k :: ks) (open_time k)
  = open_time (List.last (k :: ks) k).
Proof.
  generalize k at 2 4. induction ks as [| k' ks IH] in k |- *; intros d.
  - done.
  - cbn [fmap list_fmap List.last] in *. apply (IH k' d).
Qed.

Lemma last_in (k : kline) (ks : list kline) : List.last (k :: ks) k ∈ k :: ks.
Proof.
  generalize k at 2. induction ks as [| k' ks IH] in k |- *; intros d.
  - cbn. by left.
  - cbn [List.last]. right. apply IH.
Qed.

Lemma download_loop_more_fuel (server : Server) (end_ : Z) (fuel fuel' : nat)
    (current : Z) (acc rows : list kline) :
  (fuel ≤ fuel')%nat →
  download_loop fuel server end_ current acc = Some rows →
  download_loop fuel' server end_ current acc = Some rows.
Proof.
  revert fuel' current acc.
  induction fuel as [| fuel IH]; intros fuel' current acc Hle Hloop.
  - destruct fuel'; cbn in *; by destruct (current <? end_).
  - destruct fuel' as [| fuel']; [lia |]. cbn in *.
    destruct (current <? end_); [| done].
    destruct (download_binance_klines server current end_) as [[| k ks] |];
      [done | | done].
    apply IH; [lia | done].
Qed.

Lemma download_loop_ends (server : Server) (end_ : Z) (fuel : nat)
    (current : Z) (acc : list kline) :
  honours_start server → 0 < current →
  (Z.to_nat (end_ - current) ≤ fuel)%nat →
  ∃ rows,
    download_loop fuel server end_ current acc = Some (acc ++ rows)
    ∧ Forall (λ k, current ≤ open_time k) rows
    ∧ (pages_increasing server → increasing (open_time <$> rows)).
Proof.
  intros Hserver. revert current acc.
  induction fuel as [| fuel IH]; intros current acc Hpos Hfuel.
  - exists []. cbn. destruct (Z.ltb_spec current end_) as [Hlt | _]; [lia |].
    rewrite app_nil_r. by repeat split.
  - cbn [download_loop].
    destruct (Z.ltb_spec current end_) as [Hlt | _];
      [| exists []; rewrite app_nil_r; by repeat split].
    unfold download_binance_klines. rewrite decide_False by lia.
    destruct (server (Some current) _) as [[| k ks] |] eqn:Hreply;
      [exists []; rewrite app_nil_r; by repeat split | |
       exists []; rewrite app_nil_r; by repeat split].
    pose proof (Hserver _ _ _ Hreply) as Hpage.
    assert (current ≤ open_time (List.last (k :: ks) k)) as Hlast.
    { eapply (proj1 (Forall_forall _ _) Hpage), last_in. }
    destruct (IH (open_time (List.last (k :: ks) k) + 1)
                (acc ++ k :: ks)) as (rows & Hloop & Hrows & Hinc);
      [lia | lia |].
    exists ((k :: ks) ++ rows). split; [by rewrite app_assoc |]. split.
    + apply Forall_app. split; [done |].
      eapply Forall_impl; [exact Hrows |]. intros x Hx. cbv beta in Hx. lia.
    + intros Hpages. rewrite fmap_app.
      pose proof (Hpages _ _ _ Hreply) as Hsorted.
      apply increasing_app; [done | by apply Hinc |].
      intros x y Hx [k' [-> Hy]]%list_elem_of_fmap.
      pose proof (increasing_last _ (open_time k) x Hsorted Hx) as Hx'.
      rewrite last_fmap_open_time in Hx'.
      pose proof (proj1 (Forall_forall _ _) Hrows k' Hy) as Hy'.
      cbv beta in Hy'.
      lia.
Qed.

(** X15.  The paging loop of [download_all_historical_data] ends when
    the exchange honours [startTime]: with a positive start, and no row
    of a reply opening before the requested start, every request moves
    the cursor forward by at least a millisecond, so at most
    [end - start] requests are made.  No downloaded row opens before
    the start, and when each page is in increasing order of opening
    time, so is the whole download: no bar is fetched twice. *)
Theorem download_ends (server : Server) (start_timestamp end_timestamp : Z) :
  honours_start server → 0 < start_timestamp →
  ∃ rows,
    (∀ fuel, (Z.to_nat (end_timestamp - start_timestamp) ≤ fuel)%nat →
       download_all_historical_data fuel server start_timestamp end_timestamp
       = Some rows)
    ∧ Forall (λ k, start_timestamp ≤ open_time k) rows
    ∧ (pages_increasing server → increasing (open_time <$> rows)).
Proof.
  intros Hserver Hstart.
  destruct (download_loop_ends server end_timestamp
              (Z.to_nat (end_timestamp - start_timestamp)) start_timestamp []
              Hserver Hstart) as (rows & Hloop & Hrows & Hinc); [done |].
  exists rows. split; [| done].
  intros fuel Hfuel. unfold download_all_historical_data.
  by apply (download_loop_more_fuel _ _ _ fuel _ _ _ Hfuel Hloop).
Qed.


Lemma download_ends_witness :
  honours_start Exchange.two_per_page ∧ 0 < 1
  ∧ download_all_historical_data 3 Exchange.two_per_page 1 4
    = Some (Exchange.binance_bar <$> [1; 2; 3; 4])
  ∧ ∃ rows,
      (∀ fuel, (Z.to_nat (4 - 1) ≤ fuel)%nat →
         download_all_historical_data fuel Exchange.two_per_page 1 4
         = Some rows)
      ∧ Forall (λ k, 1 ≤ open_time k) rows
      ∧ (pages_increasing Exchange.two_per_page →
         increasing (open_time <$> rows)).
Proof.
  assert (H1 : honours_start Exchange.two_per_page).
  { intros start end_ rows Hreply. unfold Exchange.two_per_page in Hreply.
    cbv zeta in Hreply. change (default 0 (Some start)) with start in Hreply.
    assert (rows = Exchange.binance_bar
                     <$> match end_ with
                         | Some e => filter (λ t, t ≤ e) [start; start + 1]
                         | None => [start; start + 1]
                         end) as -> by congruence.
    apply Forall_fmap, Forall_forall. intros t Ht. cbn.
    assert (t ∈ [start; start + 1]) as Hin.
    { destruct end_; [by apply list_elem_of_filter in Ht as [_ Ht] | done]. }
    apply elem_of_cons in Hin as [-> | Hin]; [lia |].
    apply elem_of_cons in Hin as [-> | Hin]; [lia |].
    by apply elem_of_nil in Hin. }
  assert (H2 : 0 < 1) by lia.
  split; [exact H1 |]. split; [exact H2 |]. split; [reflexivity |].
  exact (download_ends Exchange.two_per_page 1 4 H1 H2).
Defined.

End BinanceLoopFacts.

(** ** Quotes made from Bybit bars *)

Section BybitQuoteFacts.
Import Num Vocabulary Further Bybit.
Local Open Scope Qc_scope.

Lemma by_timestamp_transitive : Transitive by_timestamp.
Proof. intros a b c. unfold by_timestamp. lia. Qed.

Lemma by_timestamp_total : Total by_timestamp.
Proof. intros a b. unfold by_timestamp. lia. Qed.

(** X16.  [convert_to_quote_ticks] sorts the bars, which the exchange
    sends newest first, by timestamp: the quotes come out in ascending
    order of time, one per bar and no other (bars with a repeated
    timestamp are all kept).  The bid is the close minus 0.5 and the
    ask the close plus 0.5, so the ask is always the bid plus 1.0; both
    sizes are a tenth of the bar's volume divided by the number of bars
    of the download. *)
Theorem quotes_in_time_order (klines_data : list kline) :
  let quotes := convert_to_quote_ticks klines_data in
  let n := of_int (Z.of_nat (length klines_data)) in
  StronglySorted Z.le (q_timestamp <$> quotes)
  ∧ quotes
    ≡ₚ (λ r, mkQuoteRow (k_timestamp r * 1000000)
               (k_close r - dec 1 1 / dec 2 1) (k_close r + dec 1 1 / dec 2 1)
               (k_volume r / n * dec 1 10) (k_volume r / n * dec 1 10))
       <$> klines_data
  ∧ length quotes = length klines_data
  ∧ Forall (λ q, ask_price q = bid_price q + dec 1 1
                 ∧ bid_price q < ask_price q
                 ∧ bid_size q = ask_size q) quotes.
Proof.
  intros quotes n. unfold quotes, convert_to_quote_ticks.
  assert (length (merge_sort by_timestamp klines_data) = length klines_data)
    as Hlen by (by rewrite merge_sort_Permutation).
  rewrite Hlen. fold n.
  split.
  { rewrite <- list_fmap_compose.
    apply (StronglySorted_fmap _ by_timestamp Z.le).
    - intros a b Hab. unfold by_timestamp in Hab. cbn. lia.
    - apply @StronglySorted_merge_sort;
        [exact by_timestamp_transitive | exact by_timestamp_total]. }
  split; [by rewrite merge_sort_Permutation |].
  split; [by rewrite length_fmap |].
  apply Forall_fmap, Forall_forall. intros r _. cbn.
  split; [apply half_spread |]. split; [| done].
  rewrite (half_spread (k_close r) (dec 1 1)).
  rewrite <- (Qcplus_0_r (k_close r - dec 1 1 / dec 2 1)) at 1.
  apply Qcplus_lt_mono_l. by_evaluation.
Qed.

End BybitQuoteFacts.

(** ** The paging loop of the Bybit download *)

Section BybitLoopFacts.
Import Num Vocabulary Further Bybit.

Lemma bybit_loop_more_fuel (server : Server) (end_time : Z)
    (fuel fuel' : nat) (current : Z) (acc rows : list kline) :
  (fuel ≤ fuel')%nat →
  download_loop fuel server end_time current acc = Some rows →
  download_loop fuel' server end_time current acc = Some rows.
Proof.
  revert fuel' current acc.
  induction fuel as [| fuel IH]; intros fuel' current acc Hle Hloop.
  - destruct fuel'; cbn in *; by destruct (current <? end_time).
  - destruct fuel' as [| fuel']; [lia |]. cbn [download_loop] in *.
    destruct (current <? end_time); [| done].
    destruct (download_bybit_klines server current) as [[| k ks] |];
      [done | | done].
    destruct (match acc ++ k :: ks with
              | first :: _ => end_time <=? k_timestamp first
              | [] => false
              end); [done |].
    apply IH; [lia | done].
Qed.

Lemma minutes_left_zero (e c : Z) :
  c < e → (Z.to_nat ((e - c + 59999) / 60000) ≤ 0)%nat → False.
Proof.
  intros Hlt Hfuel.
  assert (1 ≤ (e - c + 59999) / 60000) by (apply Z.div_le_lower_bound; lia).
  lia.
Qed.

Lemma minutes_left_step (e c c' : Z) (fuel : nat) :
  c < e → c + 60000 ≤ c' →
  (Z.to_nat ((e - c + 59999) / 60000) ≤ S fuel)%nat →
  (Z.to_nat ((e - c' + 59999) / 60000) ≤ fuel)%nat.
Proof.
  intros Hlt Hstep Hfuel.
  assert ((e - c' + 59999) / 60000 ≤ (e - c + 59999) / 60000 - 1).
  { replace ((e - c + 59999) / 60000 - 1)
      with ((e - c + 59999 + (-1) * 60000) / 60000)
      by (rewrite Z.div_add by lia; lia).
    apply Z.div_le_mono; lia. }
  lia.
Qed.

Lemma bybit_loop_ends (server : Server) (end_time : Z) (fuel : nat)
    (current : Z) (acc : list kline) :
  serves_from_start server → 0 < current →
  (Z.to_nat ((end_time - current + 59999) / 60000) ≤ fuel)%nat →
  ∃ rows,
    download_loop fuel server end_time current acc = Some (acc ++ rows)
    ∧ Forall (λ k, current ≤ k_timestamp k) rows
    ∧ (newest_first server → pages_distinct server →
       NoDup (k_timestamp <$> rows)).
Proof.
  intros Hserver. revert current acc.
  induction fuel as [| fuel IH]; intros current acc Hpos Hfuel.
  - exists []. cbn.
    destruct (Z.ltb_spec current end_time) as [Hlt | _];
      [by destruct (minutes_left_zero end_time current) |].
    rewrite app_nil_r. repeat split; [done | intros _ _; constructor].
  - cbn [download_loop].
    assert (∃ rows : list kline,
              Some acc = Some (acc ++ rows)
              ∧ Forall (λ k, current ≤ k_timestamp k) rows
              ∧ (newest_first server → pages_distinct server →
                 NoDup (k_timestamp <$> rows))) as Hnone.
    { exists []. rewrite app_nil_r.
      repeat split; [done | intros _ _; constructor]. }
    destruct (Z.ltb_spec current end_time) as [Hlt | _]; [| exact Hnone].
    unfold download_bybit_klines. rewrite decide_False by lia.
    destruct (server (Some current)) as [[| k ks] |] eqn:Hreply;
      [exact Hnone | | exact Hnone].
    pose proof (Hserver _ _ Hreply) as Hpage.
    assert (current ≤ k_timestamp k) as Hhead
      by (by apply Forall_cons in Hpage as [? _]).
    assert (∃ rows : list kline,
              Some (acc ++ k :: ks) = Some (acc ++ rows)
              ∧ Forall (λ k, current ≤ k_timestamp k) rows
              ∧ (newest_first server → pages_distinct server →
                 NoDup (k_timestamp <$> rows))) as Hstop.
    { exists (k :: ks). split; [done |]. split; [done |].
      intros _ Hdistinct. by apply (Hdistinct _ _ Hreply). }
    destruct (match acc ++ k :: ks with
              | first :: _ => end_time <=? k_timestamp first
              | [] => false
              end); [exact Hstop |].
    destruct (IH (k_timestamp k + 60000) (acc ++ k :: ks))
      as (rows & Hloop & Hrows & Hdup);
      [lia | by apply (minutes_left_step end_time current); [| lia |] |].
    exists ((k :: ks) ++ rows). split; [by rewrite app_assoc |]. split.
    + apply Forall_app. split; [done |].
      eapply Forall_impl; [exact Hrows |]. intros x Hx. cbv beta in Hx. lia.
    + intros Hnewest Hdistinct. rewrite fmap_app.
      apply NoDup_app. split; [by apply (Hdistinct _ _ Hreply) |].
      split; [| by apply Hdup].
      intros t [x [-> Hx]]%list_elem_of_fmap [y [Heq Hy]]%list_elem_of_fmap.
      pose proof (proj1 (Forall_forall _ _) Hrows y Hy) as Hy'.
      cbv beta in Hy'.
      assert (k_timestamp x ≤ k_timestamp k); [| lia].
      apply elem_of_cons in Hx as [-> | Hx]; [lia |].
      by apply (proj1 (Forall_forall _ _) (Hnewest _ _ _ Hreply)).
Qed.

(** X17.  The paging loop of [download_historical_data] ends when the
    exchange serves from the requested start: the cursor moves to a
    minute after the first row of each reply, which is no older than
    the start asked for, so at most one request per minute of the
    period is made, [1440 * days] in all.  No downloaded row is older
    than the start of the period; and when the first row of every reply
    is its newest and a reply repeats no timestamp, no timestamp is
    downloaded twice. *)
Theorem bybit_download_ends (server : Server) (days now : Z) :
  serves_from_start server → 0 ≤ days →
  0 < now - days * 24 * 60 * 60 * 1000 →
  ∃ rows,
    (∀ fuel, (Z.to_nat (1440 * days) ≤ fuel)%nat →
       download_historical_data fuel server days now = Some rows)
    ∧ Forall (λ k, now - days * 24 * 60 * 60 * 1000 ≤ k_timestamp k) rows
    ∧ (newest_first server → pages_distinct server →
       NoDup (k_timestamp <$> rows)).
Proof.
  intros Hserver Hdays Hstart.
  destruct (bybit_loop_ends server now (Z.to_nat (1440 * days))
              (now - days * 24 * 60 * 60 * 1000) [] Hserver Hstart)
    as (rows & Hloop & Hrows & Hdup).
  { apply Z2Nat.inj_le; [| lia |].
    - apply Z.div_pos; lia.
    - replace (now - (now - days * 24 * 60 * 60 * 1000) + 59999)
        with (59999 + 1440 * days * 60000) by lia.
      rewrite Z.div_add by lia.
      replace (59999 / 60000) with 0 by reflexivity. lia. }
  exists rows. split; [| done].
  intros fuel Hfuel. unfold download_historical_data.
  by apply (bybit_loop_more_fuel _ _ _ fuel _ _ _ Hfuel Hloop).
Qed.

Lemma bybit_download_ends_witness :
  let now := 1700000000000 in
  serves_from_start Exchange.two_half_days ∧ 0 ≤ 1
  ∧ 0 < now - 1 * 24 * 60 * 60 * 1000
  ∧ download_historical_data 2 Exchange.two_half_days 1 now
    = Some (Exchange.bybit_bar
              <$> [1699956800000; 1699913600000; 1700000060000;
                   1699956860000])
  ∧ ∃ rows,
      (∀ fuel, (Z.to_nat (1440 * 1) ≤ fuel)%nat →
         download_historical_data fuel Exchange.two_half_days 1 now
         = Some rows)
      ∧ Forall (λ k, now - 1 * 24 * 60 * 60 * 1000 ≤ k_timestamp k) rows
      ∧ (newest_first Exchange.two_half_days →
         pages_distinct Exchange.two_half_days →
         NoDup (k_timestamp <$> rows)).
Proof.
  intros now.
  assert (H1 : serves_from_start Exchange.two_half_days).
  { intros start rows Hreply. unfold Exchange.two_half_days in Hreply.
    cbv zeta in Hreply. change (default 0 (Some start)) with start in Hreply.
    assert (rows = [Exchange.bybit_bar (start + 43200000);
                    Exchange.bybit_bar start]) as -> by congruence.
    repeat constructor; cbn; lia. }
  assert (H2 : 0 ≤ 1) by lia.
  assert (H3 : 0 < now - 1 * 24 * 60 * 60 * 1000) by (unfold now; lia).
  split; [exact H1 |]. split; [exact H2 |]. split; [exact H3 |].
  split; [reflexivity |].
  exact (bybit_download_ends Exchange.two_half_days 1 now H1 H2 H3).
Defined.

End BybitLoopFacts.

(** ** The grid of the backtest on recorded quotes *)

Section BacktestGridFacts.
Import Num Vocabulary RealBacktest.
Local Open Scope Qc_scope.

Lemma pymin_shift (m a b : Qc) : pymin (m + a) (m + b) = m + pymin a b.
Proof.
  unfold pymin. destruct (decide (b < a)) as [Hlt | Hge].
  - by rewrite decide_True by by apply Qcplus_lt_mono_l.
  - rewrite decide_False; [done |]. by rewrite <- Qcplus_lt_mono_l.
Qed.

Lemma pymax_shift (m a b : Qc) : pymax (m - a) (m - b) = m - pymin a b.
Proof.
  assert (m - a < m - b ↔ b < a) as Hiff.
  { rewrite (Qclt_minus_iff (m - a)), (Qclt_minus_iff b).
    by replace (m - b + - (m - a)) with (a + - b) by ring. }
  unfold pymin, pymax. destruct (decide (b < a)) as [Hlt | Hge].
  - by rewrite decide_True by by apply Hiff.
  - rewrite decide_False; [done |]. by rewrite Hiff.
Qed.

(** X18.  The grid of [run_backtest_with_real_data] is centred on the
    mean mid price of the recorded quotes: whenever the analysis
    succeeds and the standard deviation is not negative, the upper and
    the lower bound lie the same distance above and below the mean,
    namely [min(1.5 * std, 500)], so the mean is within the bounds and
    the range is never wider than 1000; the strategy gets 10 levels and
    a capital of 2000. *)
Theorem backtest_grid_centred `{Libm} (df : list quote_row)
    (cfg : SimpleGrid.SimpleGridStrategyConfig) :
  let mid_prices := (λ r, (bid_price r + ask_price r) / dec 2 1) <$> df in
  let m := series_mean mid_prices in
  let half := pymin (dec 15 10 * series_std mid_prices) (dec 500 1) in
  strategy_config df = Some cfg →
  0 ≤ series_std mid_prices →
  SimpleGrid.cfg_upper_price cfg = m + half
  ∧ SimpleGrid.cfg_lower_price cfg = m - half
  ∧ 0 ≤ half ∧ half ≤ dec 500 1
  ∧ SimpleGrid.cfg_lower_price cfg ≤ m
  ∧ m ≤ SimpleGrid.cfg_upper_price cfg
  ∧ SimpleGrid.cfg_upper_price cfg - SimpleGrid.cfg_lower_price cfg
    ≤ dec 1000 1
  ∧ SimpleGrid.cfg_grid_levels cfg = 10%Z
  ∧ SimpleGrid.cfg_total_amount cfg = dec 2000 1.
Proof.
  intros mid_prices m half Hcfg Hstd.
  unfold strategy_config, analyze_price_range in Hcfg.
  fold mid_prices in Hcfg. case_decide; [done |].
  cbn [mbind option_bind stat_mean stat_std] in Hcfg. fold m in Hcfg.
  assert (cfg = {| SimpleGrid.cfg_total_amount := dec 2000 1;
                   SimpleGrid.cfg_upper_price :=
                     pymin (m + dec 15 10 * series_std mid_prices)
                       (m + dec 500 1);
                   SimpleGrid.cfg_lower_price :=
                     pymax (m - dec 15 10 * series_std mid_prices)
                       (m - dec 500 1);
                   SimpleGrid.cfg_grid_levels := 10 |}) as -> by congruence.
  cbn [SimpleGrid.cfg_upper_price SimpleGrid.cfg_lower_price
       SimpleGrid.cfg_grid_levels SimpleGrid.cfg_total_amount].
  rewrite pymin_shift, pymax_shift. fold half.
  assert (0 ≤ half ∧ half ≤ dec 500 1) as [Hnn H500].
  { destruct (pymin_spec (dec 15 10 * series_std mid_prices) (dec 500 1))
      as (_ & Hle & [Heq | Heq]); fold half in Hle, Heq.
    - split; [| done]. rewrite Heq.
      rewrite <- (Qcmult_0_r (dec 15 10)), !(Qcmult_comm (dec 15 10)).
      apply Qcmult_le_compat_r; [done | by_evaluation].
    - split; [| done]. rewrite Heq. by_evaluation. }
  split; [done |]. split; [done |]. split; [done |]. split; [done |].
  split.
  { rewrite <- (Qcplus_0_r m) at 2. unfold Qcminus.
    apply Qcplus_le_mono_l. apply Qcopp_le_compat in Hnn.
    by replace (- 0) with 0 in Hnn by by_evaluation. }
  split.
  { rewrite <- (Qcplus_0_r m) at 1. by apply Qcplus_le_mono_l. }
  split; [| done].
  replace (m + half - (m - half)) with (half + half) by ring.
  replace (dec 1000 1) with (dec 500 1 + dec 500 1) by by_evaluation.
  by apply Qcplus_le_compat.
Qed.

Lemma backtest_grid_centred_witness :
  let df :=
    [mkRow (dec 411995 10) (dec 412005 10);
     mkRow (dec 419995 10) (dec 420005 10);
     mkRow (dec 427995 10) (dec 428005 10)] in
  let mid_prices := (λ r, (bid_price r + ask_price r) / dec 2 1) <$> df in
  let cfg := SimpleGrid.mkConfig (dec 2000 1) (dec 42500 1) (dec 41500 1) 10 in
  strategy_config (H := coarse_libm) df = Some cfg
  ∧ 0 ≤ series_std (H := coarse_libm) mid_prices
  ∧ SimpleGrid.cfg_lower_price cfg ≤ series_mean mid_prices
  ∧ series_mean mid_prices ≤ SimpleGrid.cfg_upper_price cfg.
Proof.
  intros df mid_prices cfg.
  assert (H1 : strategy_config (H := coarse_libm) df = Some cfg)
    by by_evaluation.
  assert (H2 : 0 ≤ series_std (H := coarse_libm) mid_prices) by by_evaluation.
  split; [exact H1 |]. split; [exact H2 |].
  pose proof (backtest_grid_centred (H := coarse_libm) df cfg H1 H2) as Hgrid.
  cbv zeta in Hgrid.
  destruct Hgrid as (_ & _ & _ & _ & Hlo & Hup & _).
  split; [exact Hlo | exact Hup].
Defined.

End BacktestGridFacts.

(** ** The geometric grid *)

Section GeometricGridFacts.
Import Num Numpy Platform Vocabulary Further Grid.
Local Open Scope Qc_scope.

(** X19.  Any spacing type other than ["arithmetic"] selects the
    geometric grid: the exponentials of an even division of the
    logarithms of the two bounds.  It has [grid_levels] prices; with at
    least two levels it starts at [exp(log(lower))] and ends at
    [exp(log(upper))]; and it is non-decreasing whenever the logarithm
    of the lower bound is not above that of the upper one and the
    exponential is monotone. *)
Theorem geometric_grid_prices `{Libm} (s : GridStrategy) (lo up : Qc) :
  cfg_grid_spacing_type (config s) ≠ "arithmetic" →
  lower_price s = Some lo → upper_price s = Some up →
  (0 ≤ cfg_grid_levels (config s))%Z →
  ∃ logs : list Qc,
    linspace (np_log lo) (np_log up) (cfg_grid_levels (config s)) = Some logs
    ∧ _calculate_grid_prices s = Some (set_grid_prices (np_exp <$> logs) s)
    ∧ length (np_exp <$> logs) = Z.to_nat (cfg_grid_levels (config s))
    ∧ ((2 ≤ cfg_grid_levels (config s))%Z →
       head (np_exp <$> logs) = Some (np_exp (np_log lo))
       ∧ last (np_exp <$> logs) = Some (np_exp (np_log up)))
    ∧ ((2 ≤ cfg_grid_levels (config s))%Z → np_log lo ≤ np_log up →
       (∀ x y, x ≤ y → np_exp x ≤ np_exp y) →
       non_decreasing (np_exp <$> logs)).
Proof.
  intros Hgeo Hlo Hup Hlevels.
  destruct (linspace_is_Some (np_log lo) (np_log up)
              (cfg_grid_levels (config s)) Hlevels) as [logs Hlogs].
  pose proof (linspace_length _ _ _ _ Hlogs) as Hlen.
  exists logs. split; [exact Hlogs |]. split.
  { unfold _calculate_grid_prices. rewrite Hlo, Hup.
    cbn [mbind option_bind]. rewrite decide_False by done.
    by rewrite Hlogs. }
  split; [by rewrite length_fmap |]. split.
  - intros Htwo. split.
    + rewrite head_lookup, list_lookup_fmap.
      rewrite (linspace_lookup _ _ _ _ 0 Htwo Hlogs) by lia.
      cbn. by rewrite grid_point_first.
    + rewrite last_lookup, length_fmap, list_lookup_fmap, Hlen.
      replace (pred (Z.to_nat (cfg_grid_levels (config s))))
        with (Z.to_nat (cfg_grid_levels (config s) - 1)) by lia.
      rewrite (linspace_lookup _ _ _ _ _ Htwo Hlogs) by lia.
      cbn. by rewrite grid_point_last.
  - intros Htwo Hle Hmono i j x y Hij Hx Hy.
    rewrite list_lookup_fmap in Hx, Hy.
    destruct (logs !! i) as [a |] eqn:Ha; [| done].
    destruct (logs !! j) as [b |] eqn:Hb; [| done].
    cbn in Hx, Hy. assert (x = np_exp a) as -> by congruence.
    assert (y = np_exp b) as -> by congruence.
    apply Hmono.
    by apply (linspace_non_decreasing _ _ _ _ Htwo Hle Hlogs i j).
Qed.

Lemma geometric_grid_prices_witness :
  let s :=
    __init__ (mkConfig (dec 300 1) 3 "geometric" (Some (dec 120 1))
                (Some (dec 100 1)) (dec 1 10) true) in
  cfg_grid_spacing_type (config s) ≠ "arithmetic"
  ∧ lower_price s = Some (dec 100 1) ∧ upper_price s = Some (dec 120 1)
  ∧ (0 ≤ cfg_grid_levels (config s))%Z
  ∧ _calculate_grid_prices (H := coarse_libm) s
    = Some (set_grid_prices [dec 100 1; dec 110 1; dec 120 1] s)
  ∧ ∃ logs : list Qc,
      _calculate_grid_prices (H := coarse_libm) s
      = Some (set_grid_prices (np_exp (Libm := coarse_libm) <$> logs) s)
      ∧ length (np_exp (Libm := coarse_libm) <$> logs) = 3%nat.
Proof.
  intros s.
  assert (H1 : cfg_grid_spacing_type (config s) ≠ "arithmetic")
    by by_evaluation.
  assert (H2 : lower_price s = Some (dec 100 1)) by reflexivity.
  assert (H3 : upper_price s = Some (dec 120 1)) by reflexivity.
  assert (H4 : (0 ≤ cfg_grid_levels (config s))%Z) by by_evaluation.
  split; [exact H1 |]. split; [exact H2 |]. split; [exact H3 |].
  split; [exact H4 |]. split; [by_evaluation |].
  destruct (geometric_grid_prices (H := coarse_libm) s (dec 100 1) (dec 120 1)
              H1 H2 H3 H4) as (logs & _ & Hcalc & Hlen & _).
  exists logs. split; [exact Hcalc | exact Hlen].
Defined.

End GeometricGridFacts.

(** ** The simple backtest *)

Section SimpleBacktestFacts.
Import Num Numpy Platform Vocabulary Further SimpleGrid.
Local Open Scope Qc_scope.

Lemma run_placed (cbs : list callback) (s : SimpleGridStrategy) (e : Engine) :
  Forall quote_or_fill cbs → orders_placed s = true →
  run cbs (s, e) = Some (s, e).
Proof.
  intros Hcbs Hplaced. induction Hcbs as [| cb rest Hcb _ IH]; [done |].
  cbn [run]. destruct cb; try done; cbn [dispatch].
  unfold on_quote_tick. rewrite Hplaced. exact IH.
Qed.

Lemma first_price `{Libm} :
  np_sin 0 = 0 →
  ∃ rest, SimpleBacktest.prices = dec 42000 1 :: rest ∧ length rest = 99%nat.
Proof.
  intros Hsin. unfold SimpleBacktest.prices.
  destruct (linspace_is_Some 0 (dec 2 1 * PrepareData.np_pi) 100)
    as [l Hl]; [lia |].
  pose proof (linspace_length _ _ _ _ Hl) as Hlen.
  assert (l !! 0%nat
          = Some (grid_point 0 (dec 2 1 * PrepareData.np_pi) 100 0)) as Hfirst
    by (apply linspace_lookup; [lia | done | lia]).
  rewrite grid_point_first in Hfirst.
  rewrite Hl. unfold default. cbn [from_option].
  destruct l as [| a l]; [done |].
  assert (a = 0) as -> by (cbn in Hfirst; congruence).
  exists ((λ x, SimpleBacktest.base_price + np_sin x * dec 500 1) <$> l).
  unfold id. cbn [fmap list_fmap]. rewrite Hsin. split.
  - f_equal; try (unfold SimpleBacktest.base_price; ring).
  - rewrite length_fmap. cbn in Hlen. lia.
Qed.

(** X20.  The simple backtest.  The script feeds one hundred quotes, a
    minute apart, to the simple strategy configured with five levels
    from 41500 to 42500 and a capital of 1000.  When the sine of zero
    is zero, the first quote is 41999.00 / 42001.00, and the strategy
    submits exactly two orders in the whole run, whatever quotes and
    fills follow the first quote: BUY 0.004819 at 41500.00 and BUY
    0.004790 at 41750.00. *)
Theorem simple_backtest_orders `{Libm} (cbs : list callback) :
  np_sin 0 = 0 → Forall quote_or_fill cbs →
  length SimpleBacktest.ticks = 100%nat
  ∧ ∃ rest s e,
      SimpleBacktest.ticks
      = (1735689600000000000%Z, mkQuote (dec 41999 1) (dec 42001 1)) :: rest
      ∧ Forall quote_or_fill (OnQuoteTick <$> rest.*2)
      ∧ run (OnStart :: OnQuoteTick (mkQuote (dec 41999 1) (dec 42001 1))
               :: cbs)
          (__init__ SimpleBacktest.strategy_config, new_engine) = Some (s, e)
      ∧ submitted e
        = [mkOrder 1 BUY (dec 4819 1000000) (dec 41500 1) false;
           mkOrder 2 BUY (dec 4790 1000000) (dec 41750 1) false].
Proof.
  intros Hsin Hcbs.
  destruct (first_price Hsin) as (prices & Hprices & Hlen).
  assert (∃ ts, SimpleBacktest.timestamps = 1735689600000000000%Z :: ts
                ∧ length ts = 99%nat) as (ts & Hts & Hlents)
    by (by eexists).
  unfold SimpleBacktest.ticks. rewrite Hts, Hprices. cbn [zip_with].
  split; [cbn; rewrite length_zip_with; lia |].
  replace (format_f 2 (dec 42000 1 - 1)) with (dec 41999 1) by by_evaluation.
  replace (format_f 2 (dec 42000 1 + 1)) with (dec 42001 1) by by_evaluation.
  set (t0 := mkQuote (dec 41999 1) (dec 42001 1)).
  set (s1 := mkSimple SimpleBacktest.strategy_config
               [dec 41500 1; dec 41750 1; dec 42000 1; dec 42250 1;
                dec 42500 1] false).
  assert (on_start (__init__ SimpleBacktest.strategy_config) new_engine
          = Some (s1, issue SubscribeQuoteTicks new_engine)) as Hstart.
  { unfold on_start, __init__, SimpleBacktest.strategy_config.
    cbn [config cfg_lower_price cfg_upper_price cfg_grid_levels].
    by rewrite linspace_five_levels. }
  assert (∃ e2,
            on_quote_tick t0 s1 (issue SubscribeQuoteTicks new_engine)
            = Some (mkSimple (config s1) (grid_prices s1) true, e2)
            ∧ commands e2
              = commands (issue SubscribeQuoteTicks new_engine)
                ++ (SubmitOrder
                      <$> imap (λ i, simple_order (dec 1000 1 / of_int 5)
                                       (S (0 + i)))
                            (filter (buy_level (mid_price t0))
                               (grid_prices s1))))
    as (e2 & Htick & Hcmd).
  { unfold on_quote_tick, _place_initial_orders.
    cbn [orders_placed config grid_prices s1 cfg_total_amount
         cfg_grid_levels SimpleBacktest.strategy_config].
    rewrite pydiv_Some by by_evaluation.
    cbn [mbind option_bind]. fold (mid_price t0).
    destruct (place_loop_orders (mid_price t0) (dec 1000 1 / of_int 5)
                [dec 41500 1; dec 41750 1; dec 42000 1; dec 42250 1;
                 dec 42500 1] (issue SubscribeQuoteTicks new_engine))
      as (e2 & Hloop & Hcmd); [by_evaluation |].
    exists e2. by rewrite Hloop. }
  eexists _, _, e2. split; [reflexivity |]. split.
  { apply Forall_fmap, Forall_forall. by intros. }
  split.
  - cbn [run dispatch]. rewrite Hstart. cbn [mbind option_bind].
    cbn [dispatch]. rewrite Htick. cbn [mbind option_bind].
    by apply run_placed.
  - unfold submitted. rewrite Hcmd.
    replace (filter (buy_level (mid_price t0)) (grid_prices s1))
      with [dec 41500 1; dec 41750 1] by by_evaluation.
    by_evaluation.
Qed.

Lemma simple_backtest_orders_witness :
  np_sin (Libm := coarse_libm) 0 = 0
  ∧ Forall quote_or_fill
      (OnQuoteTick <$> (SimpleBacktest.ticks (H := coarse_libm)).*2)
  ∧ length (SimpleBacktest.ticks (H := coarse_libm)) = 100%nat.
Proof.
  assert (H1 : np_sin (Libm := coarse_libm) 0 = 0) by reflexivity.
  assert (H2 : Forall quote_or_fill
                 (OnQuoteTick
                    <$> (SimpleBacktest.ticks (H := coarse_libm)).*2)).
  { apply Forall_fmap, Forall_forall. by intros. }
  split; [exact H1 |]. split; [exact H2 |].
  exact (proj1 (simple_backtest_orders (H := coarse_libm) _ H1 H2)).
Defined.

End SimpleBacktestFacts.

(** ** The ticks and the period of the backtest on recorded quotes *)

Section BacktestWindowFacts.
Import Num RealBacktestRun.

(** X21.  [run_backtest_with_real_data] hands the engine the first
    [min(n, 10000)] rows of the table as ticks, in order, prices at two
    and sizes at six decimals, and runs it from the timestamp of the
    first row to the timestamp of the last tick it handed over: the run
    covers exactly the ticks that were added.  An empty table
    raises. *)
Theorem backtest_covers_its_ticks (r : row) (df : list row) :
  backtest_window [] = None
  ∧ ∃ (ticks : list QuoteTick) (start_time end_time : Z),
      backtest_window (r :: df) = Some (ticks, start_time, end_time)
      ∧ ticks = create_quote_ticks (take (Z.to_nat 10000) (r :: df))
      ∧ Z.of_nat (length ticks) = Z.min (Z.of_nat (length (r :: df))) 10000
      ∧ ts_event <$> head ticks = Some start_time
      ∧ ts_event <$> last ticks = Some end_time
      ∧ start_time = timestamp r.
Proof.
  split; [done |].
  unfold backtest_window. cbn [lookup list_lookup fmap option_fmap option_map].
  set (all := r :: df).
  assert (length (create_quote_ticks all) = length all) as Hlen
    by (unfold create_quote_ticks; by rewrite length_fmap).
  rewrite Hlen.
  set (used := Z.to_nat (Z.min (Z.of_nat (length all)) 10000)).
  assert (used = Nat.min (length all) (Z.to_nat 10000)) as Hused
    by (unfold used; lia).
  assert (0 < length all)%nat as Hpos by (unfold all; cbn; lia).
  replace (Z.to_nat (Z.min (Z.of_nat (length all) - 1)
                       (Z.min (Z.of_nat (length all)) 10000 - 1)))
    with (pred used) by (unfold used; lia).
  destruct (lookup_lt_is_Some_2 all (pred used)) as [x Hx]; [lia |].
  rewrite Hx. cbn [fmap option_fmap option_map mbind option_bind].
  eexists _, _, _. split; [reflexivity |].
  assert (take used (create_quote_ticks all)
          = create_quote_ticks (take (Z.to_nat 10000) all)) as Hticks.
  { unfold create_quote_ticks. rewrite <- fmap_take. f_equal.
    rewrite Hused, <- take_take. apply take_ge. rewrite length_take. lia. }
  split; [exact Hticks |]. split.
  { rewrite length_take, Hlen. lia. }
  split.
  { rewrite Hticks. unfold all. by cbn. }
  split; [| done].
  rewrite last_lookup, length_take, Hlen.
  replace (pred (Nat.min used (length all))) with (pred used) by lia.
  rewrite lookup_take_lt by lia.
  unfold create_quote_ticks. rewrite list_lookup_fmap, Hx. done.
Qed.

End BacktestWindowFacts.
